(** * Candidate spreadsheet ingestion: a shallow embedding of the upload handler

    The development follows [app.post('/api/candidates/upload')] of the
    server: embedded-image extraction, header-row detection, synonym
    mapping, the composite-text fallback, the per-row reconciliation against
    the candidates collection, and the final batch insert and response.

    Conventions of the model.
    - A JavaScript string is a [string] of 8-bit characters (code units
      below 256).
    - A JavaScript number is kept by its exact decimal value [Dec m e]
      (m * 10^e); rounding to binary64, with its overflow and underflow, is
      not modelled.
    - File names are joined by plain concatenation: the extensions that the
      workbook reader reports are alphanumeric, so [path.join] has nothing
      to normalize.
    - A JavaScript object is an association list in insertion order.
    - The file system is a finite map from absolute paths to file contents,
      the candidates collection a list of documents in natural order. *)

From Stdlib Require Import ZArith List String Ascii Lia Bool QArith Qround.
From Stdlib.Strings Require Import Byte.
From Stdlib Require DecimalString.
From stdpp Require Import base gmap strings.
Import ListNotations.

Open Scope string_scope.

(** ** Characters and strings *)

Module Str.

Definition code (c : ascii) : nat := nat_of_ascii c.

Definition in_range (lo hi : nat) (c : ascii) : bool :=
  (lo <=? code c)%nat && (code c <=? hi)%nat.

Definition is_digit (c : ascii) : bool := in_range 48 57 c.
Definition is_lower (c : ascii) : bool := in_range 97 122 c.
Definition is_upper (c : ascii) : bool := in_range 65 90 c.
Definition is_alpha (c : ascii) : bool := is_lower c || is_upper c.
Definition is_alnum (c : ascii) : bool := is_alpha c || is_digit c.

(** [\s], which is also what [trim] strips: TAB, LF, VT, FF, CR, SP, NBSP. *)
Definition is_space (c : ascii) : bool :=
  in_range 9 13 c || (code c =? 32)%nat || (code c =? 160)%nat.

(** [.] without the [s] flag: anything but a line terminator. *)
Definition is_dot (c : ascii) : bool :=
  negb ((code c =? 10)%nat || (code c =? 13)%nat).

(** [toLowerCase] on one Latin-1 code unit. *)
Definition lower_char (c : ascii) : ascii :=
  if is_upper c || (in_range 192 222 c && negb (code c =? 215)%nat)
  then ascii_of_nat (code c + 32) else c.

Fixpoint map (f : ascii -> ascii) (s : string) : string :=
  match s with
  | EmptyString => EmptyString
  | String c s' => String (f c) (map f s')
  end.

Fixpoint filter (p : ascii -> bool) (s : string) : string :=
  match s with
  | EmptyString => EmptyString
  | String c s' => if p c then String c (filter p s') else filter p s'
  end.

Definition toLowerCase (s : string) : string := map lower_char s.

Fixpoint startsWith (s p : string) : bool :=
  match p, s with
  | EmptyString, _ => true
  | String a p', String b s' => Ascii.eqb a b && startsWith s' p'
  | String _ _, EmptyString => false
  end.

(** [s.includes(k)] *)
Fixpoint includes (s k : string) : bool :=
  startsWith s k ||
  match s with
  | EmptyString => false
  | String _ s' => includes s' k
  end.

Fixpoint trimStart (s : string) : string :=
  match s with
  | String c s' => if is_space c then trimStart s' else s
  | EmptyString => EmptyString
  end.

Fixpoint trimEnd (s : string) : string :=
  match s with
  | EmptyString => EmptyString
  | String c s' =>
      match trimEnd s' with
      | EmptyString => if is_space c then EmptyString else String c EmptyString
      | t => String c t
      end
  end.

Definition trim (s : string) : string := trimEnd (trimStart s).

(** [xs.join(sep)] *)
Fixpoint join (sep : string) (xs : list string) : string :=
  match xs with
  | [] => EmptyString
  | [x] => x
  | x :: rest => x ++ sep ++ join sep rest
  end.

Definition isEmpty (s : string) : bool :=
  match s with EmptyString => true | _ => false end.

Definition endsWith (s p : string) : bool :=
  let n := String.length s in
  let k := String.length p in
  (k <=? n)%nat && String.eqb (substring (n - k) k s) p.

End Str.

(** ** Regular expressions

    A backtracking matcher in continuation-passing style for the fragment of
    the regular-expression language that the handler uses: character
    classes, literals, greedy and lazy bounded repetition of a class,
    sequence, alternation, one capture group and the end anchor.  [search]
    is [String.prototype.match] without the [g] flag: the leftmost match,
    alternatives and repetitions tried in priority order. *)

Module Regex.

Inductive re : Type :=
| Chr (p : ascii -> bool)
| Lit (ci : bool) (t : string)
| Rep (greedy : bool) (lo : nat) (hi : option nat) (p : ascii -> bool)
| Seq (r1 r2 : re)
| Alt (r1 r2 : re)
| Grp (r : re)
| Eos.

(** Letters compare through their canonical case under the [i] flag. *)
Definition chr_eq (ci : bool) (a b : ascii) : bool :=
  if ci then Ascii.eqb (Str.lower_char a) (Str.lower_char b) else Ascii.eqb a b.

Fixpoint lit (ci : bool) (t s : string) : option string :=
  match t, s with
  | EmptyString, _ => Some s
  | String a t', String b s' => if chr_eq ci a b then lit ci t' s' else None
  | String _ _, EmptyString => None
  end.

Definition can_more (hi : option nat) : bool :=
  match hi with Some O => false | _ => true end.

Definition dec (hi : option nat) : option nat := option_map pred hi.

Section Matcher.
Context {R : Type}.

(** [n] counts the characters consumed since the start of the attempt. *)
Fixpoint rep (greedy : bool) (p : ascii -> bool) (lo : nat) (hi : option nat)
    (s : string) (n : nat) (k : string -> nat -> option R) {struct s}
    : option R :=
  match lo with
  | S lo' =>
      match s with
      | String c s' =>
          if p c && can_more hi
          then rep greedy p lo' (dec hi) s' (S n) k else None
      | EmptyString => None
      end
  | O =>
      if greedy then
        match
          match s with
          | String c s' =>
              if p c && can_more hi
              then rep greedy p O (dec hi) s' (S n) k else None
          | EmptyString => None
          end
        with
        | Some x => Some x
        | None => k s n
        end
      else
        match k s n with
        | Some x => Some x
        | None =>
            match s with
            | String c s' =>
                if p c && can_more hi
                then rep greedy p O (dec hi) s' (S n) k else None
            | EmptyString => None
            end
        end
  end.

Fixpoint run (r : re) (s : string) (n : nat) (cap : option string)
    (k : string -> nat -> option string -> option R) {struct r} : option R :=
  match r with
  | Chr p =>
      match s with
      | String c s' => if p c then k s' (S n) cap else None
      | EmptyString => None
      end
  | Lit ci t =>
      match lit ci t s with
      | Some s' => k s' (n + String.length t) cap
      | None => None
      end
  | Rep g lo hi p => rep g p lo hi s n (fun s' n' => k s' n' cap)
  | Seq r1 r2 => run r1 s n cap (fun s' n' cap' => run r2 s' n' cap' k)
  | Alt r1 r2 =>
      match run r1 s n cap k with
      | Some x => Some x
      | None => run r2 s n cap k
      end
  | Grp r1 =>
      run r1 s n cap (fun s' n' _ => k s' n' (Some (substring 0 (n' - n) s)))
  | Eos =>
      match s with
      | EmptyString => k s n cap
      | String _ _ => None
      end
  end.
End Matcher.

(** The match found when the pattern is tried at the start of [s]:
    the matched text and the text of group 1. *)
Definition matchAt (r : re) (s : string) : option (string * option string) :=
  run r s 0 None (fun _ n cap => Some (substring 0 n s, cap)).

Fixpoint search (r : re) (s : string) : option (string * option string) :=
  match matchAt r s with
  | Some m => Some m
  | None =>
      match s with
      | String _ s' => search r s'
      | EmptyString => None
      end
  end.

Definition star (p : ascii -> bool) : re := Rep true 0 None p.
Definition plus (p : ascii -> bool) : re := Rep true 1 None p.
Definition one_of (cs : string) (c : ascii) : bool :=
  Str.includes cs (String c EmptyString).

End Regex.

(** ** JavaScript values *)

Module JS.

(** A number by its decimal value: [Dec m e] is m * 10^e. *)
Inductive number : Type :=
| NaN
| Infinity (neg : bool)
| Dec (m e : Z).

(** The primitive values a sheet cell or a recovered field can hold.
    In a row, [VUndef] is an empty cell (a hole of the row array). *)
Inductive jsval : Type :=
| VUndef
| VNull
| VBool (b : bool)
| VNum (n : number)
| VStr (s : string).

Definition num_falsy (n : number) : bool :=
  match n with
  | NaN => true
  | Dec 0 _ => true
  | _ => false
  end.

(** [!!v] *)
Definition truthy (v : jsval) : bool :=
  match v with
  | VUndef | VNull => false
  | VBool b => b
  | VNum n => negb (num_falsy n)
  | VStr s => negb (Str.isEmpty s)
  end.

(** [a || b] *)
Definition or (a b : jsval) : jsval := if truthy a then a else b.

Infix "|||" := or (at level 50, left associativity).

(** *** Number to string (Number::toString, radix 10) *)

Definition digits (n : N) : string :=
  DecimalString.NilZero.string_of_uint (N.to_uint n).

Fixpoint zeros (n : nat) : string :=
  match n with
  | O => EmptyString
  | S n' => String "0" (zeros n')
  end.

(** Drops the trailing zeros of a digit string, counting them. *)
Fixpoint strip_zeros (ds : string) : string * nat :=
  match ds with
  | EmptyString => (EmptyString, O)
  | String c ds' =>
      match strip_zeros ds' with
      | (EmptyString, z) =>
          if Ascii.eqb c "0" then (EmptyString, S z)
          else (String c EmptyString, z)
      | (t, z) => (String c t, z)
      end
  end.

Definition pos_to_string (m : positive) (e : Z) : string :=
  let '(s, z) := strip_zeros (digits (Npos m)) in
  let k := String.length s in
  let n := (Z.of_nat k + (e + Z.of_nat z))%Z in
  if ((Z.of_nat k <=? n) && (n <=? 21))%Z then
    s ++ zeros (Z.to_nat n - k)
  else if ((0 <? n) && (n <=? 21))%Z then
    substring 0 (Z.to_nat n) s ++ "." ++ substring (Z.to_nat n) (k - Z.to_nat n) s
  else if ((-6 <? n) && (n <=? 0))%Z then
    "0." ++ zeros (Z.to_nat (- n)) ++ s
  else
    let x := (n - 1)%Z in
    let sign := if (x <? 0)%Z then "-" else "+" in
    let mant :=
      match s with
      | String d EmptyString => s
      | String d ds => String d ("." ++ ds)
      | EmptyString => s
      end in
    mant ++ "e" ++ sign ++ digits (Z.abs_N x).

Definition num_to_string (n : number) : string :=
  match n with
  | NaN => "NaN"
  | Infinity false => "Infinity"
  | Infinity true => "-Infinity"
  | Dec Z0 _ => "0"
  | Dec (Zpos m) e => pos_to_string m e
  | Dec (Zneg m) e => "-" ++ pos_to_string m e
  end.

(** [String(v)] *)
Definition toString (v : jsval) : string :=
  match v with
  | VUndef => "undefined"
  | VNull => "null"
  | VBool true => "true"
  | VBool false => "false"
  | VNum n => num_to_string n
  | VStr s => s
  end.

(** *** String to number (StringToNumber) *)

Definition digit_val (c : ascii) : option Z :=
  let n := Str.code c in
  if Str.is_digit c then Some (Z.of_nat (n - 48))
  else if Str.in_range 97 102 c then Some (Z.of_nat (n - 87))
  else if Str.in_range 65 70 c then Some (Z.of_nat (n - 55))
  else None.

(** The longest prefix of digits in [base], as (value, count, rest). *)
Fixpoint span_digits (base : Z) (s : string) (acc : Z) (cnt : nat)
    : Z * nat * string :=
  match s with
  | String c s' =>
      match digit_val c with
      | Some d =>
          if (d <? base)%Z then span_digits base s' (acc * base + d)%Z (S cnt)
          else (acc, cnt, s)
      | None => (acc, cnt, s)
      end
  | EmptyString => (acc, cnt, s)
  end.

Definition radix_literal (base : Z) (s : string) : number :=
  match span_digits base s 0%Z O with
  | (v, S _, EmptyString) => Dec v 0
  | _ => NaN
  end.

Definition exponent_part (s : string) : option Z :=
  match s with
  | EmptyString => Some 0%Z
  | String c s' =>
      if Regex.chr_eq true c "e" then
        let '(neg, s'') :=
          match s' with
          | String "-" t => (true, t)
          | String "+" t => (false, t)
          | _ => (false, s')
          end in
        match span_digits 10 s'' 0%Z O with
        | (v, S _, EmptyString) => Some (if neg then (- v)%Z else v)
        | _ => None
        end
      else None
  end.

Definition unsigned_decimal (neg : bool) (s : string) : number :=
  if String.eqb s "Infinity" then Infinity neg else
  let '(i, ni, s1) := span_digits 10 s 0%Z O in
  let '(f, nf, s2) :=
    match s1 with
    | String "." t => span_digits 10 t i O
    | _ => (i, O, s1)
    end in
  match (ni + nf)%nat, exponent_part s2 with
  | S _, Some x =>
      Dec (if neg then (- f)%Z else f) (x - Z.of_nat nf)
  | _, _ => NaN
  end.

Definition string_to_number (s : string) : number :=
  match Str.trim s with
  | EmptyString => Dec 0 0
  | String "0" (String c t) as u =>
      if Regex.chr_eq true c "x" then radix_literal 16 t
      else if Regex.chr_eq true c "o" then radix_literal 8 t
      else if Regex.chr_eq true c "b" then radix_literal 2 t
      else unsigned_decimal false u
  | String "-" t => unsigned_decimal true t
  | String "+" t => unsigned_decimal false t
  | u => unsigned_decimal false u
  end.

(** [Number(v)] *)
Definition toNumber (v : jsval) : number :=
  match v with
  | VUndef => NaN
  | VNull => Dec 0 0
  | VBool true => Dec 1 0
  | VBool false => Dec 0 0
  | VNum n => n
  | VStr s => string_to_number s
  end.

(** [Number(v) || 0] *)
Definition numberOrZero (v : jsval) : number :=
  let n := toNumber v in if num_falsy n then Dec 0 0 else n.

End JS.

(** ** Objects and documents *)

Module Obj.

(** A JavaScript object or a BSON document: fields in insertion order. *)
Definition obj (V : Type) : Type := list (string * V).

Fixpoint get {V} (o : obj V) (k : string) : option V :=
  match o with
  | [] => None
  | (k', v) :: o' => if String.eqb k' k then Some v else get o' k
  end.

(** [o[k] = v]: overwrite in place, or append a new field. *)
Fixpoint set {V} (o : obj V) (k : string) (v : V) : obj V :=
  match o with
  | [] => [(k, v)]
  | (k', v') :: o' =>
      if String.eqb k' k then (k, v) :: o' else (k', v') :: set o' k v
  end.

End Obj.

Import JS.

(** [item.k] on an object of primitives: [undefined] when the field is missing. *)
Definition prop (o : Obj.obj jsval) (k : string) : jsval :=
  match Obj.get o k with
  | Some v => v
  | None => VUndef
  end.

(** *** JSON.stringify of an object of primitives *)

Module Json.

Definition dquote : ascii := ascii_of_nat 34.
Definition bslash : ascii := ascii_of_nat 92.

Definition hex_digit (n : nat) : ascii :=
  if (n <? 10)%nat then ascii_of_nat (48 + n) else ascii_of_nat (87 + n).

Definition escape_char (c : ascii) : string :=
  let n := Str.code c in
  if (n =? 34)%nat then String bslash (String dquote EmptyString)
  else if (n =? 92)%nat then String bslash (String bslash EmptyString)
  else if (n =? 8)%nat then String bslash "b"
  else if (n =? 9)%nat then String bslash "t"
  else if (n =? 10)%nat then String bslash "n"
  else if (n =? 12)%nat then String bslash "f"
  else if (n =? 13)%nat then String bslash "r"
  else if (n <? 32)%nat then
    String bslash ("u00" ++ String (hex_digit (n / 16)) (String (hex_digit (n mod 16)) EmptyString))
  else String c EmptyString.

Fixpoint escape (s : string) : string :=
  match s with
  | EmptyString => EmptyString
  | String c s' => escape_char c ++ escape s'
  end.

Definition quote (s : string) : string :=
  String dquote (escape s ++ String dquote EmptyString).

(** The text of one value, [None] for [undefined] (the field is left out). *)
Definition value (v : jsval) : option string :=
  match v with
  | VUndef => None
  | VNull => Some "null"
  | VBool true => Some "true"
  | VBool false => Some "false"
  | VNum (Dec m e) => Some (num_to_string (Dec m e))
  | VNum _ => Some "null"
  | VStr s => Some (quote s)
  end.

Fixpoint members (o : Obj.obj jsval) : list string :=
  match o with
  | [] => []
  | (k, v) :: o' =>
      match value v with
      | Some t => (quote k ++ ":" ++ t) :: members o'
      | None => members o'
      end
  end.

(** Fields are printed in insertion order.  (JavaScript lists integer-like
    keys first; the handler only searches the text for words, which cannot
    span two members, so the order of members does not matter to it.) *)
Definition stringify (o : Obj.obj jsval) : string :=
  "{" ++ Str.join "," (members o) ++ "}".

End Json.

(** *** Stored documents *)

(** What a field of a stored candidate document can hold. *)
Inductive bson : Type :=
| BPrim (v : jsval)
| BArray0            (* the empty array [[]] *)
| BDate (t : Z)
| BOid (n : nat).    (* an ObjectId *)

Definition doc : Type := Obj.obj bson.

Definition num_eqb (a b : number) : bool :=
  match a, b with
  | NaN, NaN => true
  | Infinity x, Infinity y => Bool.eqb x y
  | Dec m1 e1, Dec m2 e2 =>
      let e := Z.min e1 e2 in
      (m1 * 10 ^ (e1 - e) =? m2 * 10 ^ (e2 - e))%Z
  | _, _ => false
  end.

Definition jsval_eqb (a b : jsval) : bool :=
  match a, b with
  | VUndef, VUndef | VNull, VNull => true
  | VBool x, VBool y => Bool.eqb x y
  | VNum x, VNum y => num_eqb x y
  | VStr x, VStr y => String.eqb x y
  | _, _ => false
  end.

Definition bson_eqb (a b : bson) : bool :=
  match a, b with
  | BPrim x, BPrim y => jsval_eqb x y
  | BArray0, BArray0 => true
  | BDate x, BDate y => (x =? y)%Z
  | BOid x, BOid y => (x =? y)%nat
  | _, _ => false
  end.

(** [!!d.k] on a stored document. *)
Definition field_truthy (d : doc) (k : string) : bool :=
  match Obj.get d k with
  | Some (BPrim v) => truthy v
  | Some _ => true
  | None => false
  end.

(** ** The world of the handler: collection and file system *)

Record world : Type := World {
  docs : list doc;                       (* the candidates collection *)
  files : gmap string (list byte)        (* absolute path -> content *)
}.

(** A computation either returns or throws; the effects made before a
    throw stay. *)
Inductive outcome (A : Type) : Type :=
| Ok (a : A)
| Throw.
Arguments Ok {A} a.
Arguments Throw {A}.

Definition M (A : Type) : Type := world -> world * outcome A.

Definition ret {A} (a : A) : M A := fun w => (w, Ok a).

Definition bind {A B} (m : M A) (k : A -> M B) : M B :=
  fun w =>
    match m w with
    | (w', Ok a) => k a w'
    | (w', Throw) => (w', Throw)
    end.

Definition throw {A} : M A := fun w => (w, Throw).

(** [try { m } catch (e) { h }] *)
Definition catch {A} (m : M A) (h : M A) : M A :=
  fun w =>
    match m w with
    | (w', Ok a) => (w', Ok a)
    | (w', Throw) => h w'
    end.

Declare Scope js_scope.
Delimit Scope js_scope with js.
Notation "x <- m ;; k" := (bind m (fun x => k))
  (at level 100, m at next level, right associativity) : js_scope.
Notation "m ;;; k" := (bind m (fun _ => k))
  (at level 100, right associativity) : js_scope.
Open Scope js_scope.

(** *** File system ([fs]) *)

Module Fs.

(** [fs.statSync(p).size] *)
Definition statSync (p : string) : M nat :=
  fun w =>
    match files w !! p with
    | Some b => (w, Ok (List.length b))
    | None => (w, Throw)
    end.

Definition unlinkSync (p : string) : M unit :=
  fun w =>
    match files w !! p with
    | Some _ => (World (docs w) (delete p (files w)), Ok tt)
    | None => (w, Throw)
    end.

(** The target directory is taken to exist (the handler creates it first). *)
Definition writeFileSync (p : string) (b : list byte) : M unit :=
  fun w => (World (docs w) (<[p := b]> (files w)), Ok tt).

End Fs.

(** *** The candidates collection *)

Module Coll.

Definition matches (k : string) (v : jsval) (d : doc) : bool :=
  match Obj.get d k with
  | Some b => bson_eqb b (BPrim v)
  | None => false
  end.

(** [findOne({ email })]: the first match in natural order. *)
Definition findOne (email : jsval) : M (option doc) :=
  fun w => (w, Ok (List.find (matches "email" email) (docs w))).

Fixpoint set_first (email : jsval) (k : string) (v : bson) (ds : list doc)
    : list doc :=
  match ds with
  | [] => []
  | d :: ds' =>
      if matches "email" email d then Obj.set d k v :: ds'
      else d :: set_first email k v ds'
  end.

(** [updateOne({ email }, { $set: { photo } })] *)
Definition updateOne (email : jsval) (photo : jsval) : M unit :=
  fun w => (World (set_first email "photo" (BPrim photo) (docs w)) (files w), Ok tt).

Definition oid_of (d : doc) : nat :=
  match Obj.get d "_id" with
  | Some (BOid n) => n
  | _ => O
  end.

(** An ObjectId no stored document carries. *)
Definition fresh_oid (ds : list doc) : nat := S (list_max (List.map oid_of ds)).

Definition has_id (id : bson) (d : doc) : bool :=
  match Obj.get d "_id" with
  | Some b => bson_eqb b id
  | None => false
  end.

(** One insert: a document without [_id] gets a fresh ObjectId, a document
    whose [_id] is already stored is refused (duplicate key). *)
Definition insertOne (d : doc) (ds : list doc) : option (list doc) :=
  match Obj.get d "_id" with
  | None | Some (BPrim VUndef) | Some (BPrim VNull) =>
      Some (ds ++ [("_id", BOid (fresh_oid ds)) :: d])%list
  | Some id =>
      if List.existsb (has_id id) ds then None else Some (ds ++ [d])%list
  end.

Fixpoint insertAll (new : list doc) (ds : list doc) : list doc * bool :=
  match new with
  | [] => (ds, true)
  | d :: rest =>
      match insertOne d ds with
      | Some ds' => insertAll rest ds'
      | None => (ds, false)
      end
  end.

(** [insertMany(new)], ordered: documents are inserted one after the other,
    the first refusal throws and leaves the earlier ones inserted. *)
Definition insertMany (new : list doc) : M unit :=
  fun w =>
    match insertAll new (docs w) with
    | (ds, true) => (World ds (files w), Ok tt)
    | (ds, false) => (World ds (files w), Throw)
    end.

End Coll.

(** ** Image extraction *)

Record image : Type := Image {
  tl_row : Q;                 (* image.range.tl.row *)
  extension : string;         (* img.extension, the workbook's hint *)
  buffer : list byte          (* img.buffer *)
}.

Record env : Type := Env {
  production : bool;          (* process.env.VERCEL || NODE_ENV === 'production' *)
  cwd : string;               (* process.cwd(), absolute, no trailing slash *)
  imageClock : nat -> Z;      (* Date.now() while the i-th image is handled *)
  rowClock : nat -> Z         (* new Date() while the i-th data row is handled *)
}.

(** [buffer[i] === b] *)
Definition byte_is (buf : list byte) (i : nat) (b : byte) : bool :=
  match nth_error buf i with
  | Some x => Byte.eqb x b
  | None => false
  end.

(** Buffer signature detection (magic numbers). *)
Definition detectExtension (hint : string) (buf : list byte) : string :=
  if byte_is buf 0 x89 && byte_is buf 1 x50 && byte_is buf 2 x4e && byte_is buf 3 x47
  then "png"
  else if byte_is buf 0 xff && byte_is buf 1 xd8 && byte_is buf 2 xff
  then "jpg"
  else if byte_is buf 0 x47 && byte_is buf 1 x49 && byte_is buf 2 x46
  then "gif"
  else hint.

(** [['emf', 'wmf'].includes(extension.toLowerCase())] *)
Definition nonBrowser (ext : string) : bool :=
  let e := Str.toLowerCase ext in String.eqb e "emf" || String.eqb e "wmf".

Definition intText (z : Z) : string := num_to_string (Dec z 0).

Definition imagesDir (e : env) : string :=
  if production e then "/tmp/uploads/candidates" else "uploads/candidates".

(** A relative path is resolved against the working directory. *)
Definition resolve (e : env) (p : string) : string :=
  if Str.startsWith p "/" then p else cwd e ++ "/" ++ p.

Definition fileName (now row : Z) (ext : string) : string :=
  "photo-" ++ intText now ++ "-" ++ intText row ++ "." ++ ext.

(** One turn of [exSheet.getImages().forEach]; [imageMap] maps a 0-indexed
    sheet row to the stored photo path. *)
Definition processImage (e : env) (now : Z) (img : image)
    (imageMap : gmap Z string) : M (gmap Z string) :=
  let row := Qfloor (tl_row img) in
  let ext := detectExtension (extension img) (buffer img) in
  if nonBrowser ext then ret imageMap else
  let name := fileName now row ext in
  let imgPath := imagesDir e ++ "/" ++ name in
  let store :=
    (Fs.writeFileSync (resolve e imgPath) (buffer img) ;;;
     ret (<[row := "/uploads/candidates/" ++ name]> imageMap)) in
  match imageMap !! row with
  | Some existingPath =>
      existingSize <- Fs.statSync (cwd e ++ existingPath) ;;
      if (List.length (buffer img) <=? existingSize)%nat then ret imageMap
      else
        catch (Fs.unlinkSync (cwd e ++ existingPath)) (ret tt) ;;;
        store
  | None => store
  end.

Fixpoint extractImages (e : env) (i : nat) (imgs : list image)
    (imageMap : gmap Z string) : M (gmap Z string) :=
  match imgs with
  | [] => ret imageMap
  | img :: rest =>
      imageMap' <- processImage e (imageClock e i) img imageMap ;;
      extractImages e (S i) rest imageMap'
  end.

(** ** Header row detection *)

Definition row : Type := list jsval.

Definition keywords : list string :=
  ["name"; "email"; "phone"; "contact"; "mobile"; "experience"; "age"].

(** [String(cell || '').toLowerCase().replace(/[^a-z0-9]/g, '')] *)
Definition normalizeCell (cell : jsval) : string :=
  Str.filter (fun c => Str.is_lower c || Str.is_digit c)
    (Str.toLowerCase (toString (cell ||| VStr EmptyString))).

Definition normalizedRow (r : row) : list string := List.map normalizeCell r.

Definition hasKeyword (cell : string) : bool :=
  List.existsb (fun k => Str.includes cell k) keywords.

(** The number of normalized cells that contain some keyword. *)
Definition matchCount (cells : list string) : nat :=
  List.length (List.filter hasKeyword cells).

(** The loop [for (i = 0; i < Math.min(rows.length, 20); i++)], from row [i]
    with [limit] rows still to inspect. *)
Fixpoint scanHeader (i limit : nat) (rows : list row)
    : option (nat * list string) :=
  match limit, rows with
  | S limit', r :: rest =>
      let cells := normalizedRow r in
      if (2 <=? matchCount cells)%nat then Some (i, cells)
      else scanHeader (S i) limit' rest
  | _, _ => None
  end.

(** [(headerRowIndex, headers)], or [None] for [headerRowIndex === -1]. *)
Definition findHeader (rows : list row) : option (nat * list string) :=
  scanHeader 0 20 rows.

(** ** Field mapping and the composite-text fallback *)

(** [rowData.forEach((val, idx) => { if (headers[idx]) item[headers[idx]] = val })];
    [forEach] does not visit empty cells. *)
Fixpoint mapCells (headers : list string) (rowData : row)
    (item : Obj.obj jsval) : Obj.obj jsval :=
  match rowData, headers with
  | val :: cells, h :: hs =>
      mapCells hs cells
        (match val with
         | VUndef => item
         | _ => if Str.isEmpty h then item else Obj.set item h val
         end)
  | _, _ => item
  end.

Record draft : Type := Draft {
  name : jsval;
  email : jsval;
  phone : jsval;
  exp : jsval;
  age : jsval
}.

(** Synonym resolution over the normalized header names. *)
Definition synonyms (item : Obj.obj jsval) : draft :=
  let p := prop item in
  {| name := p "name" ||| p "candidate" ||| p "fullname" ||| p "applicantname"
             ||| p "candidatesname";
     email := p "email" ||| p "emailaddress" ||| p "eaddress";
     phone := p "phone" ||| p "phonenumber" ||| p "contact" ||| p "mobile"
              ||| p "cell";
     exp := p "experienceyears" ||| p "yearsofexperience" ||| p "experience"
            ||| p "totalexperience" ||| p "yearsexperience";
     age := p "age" ||| p "candidateage" ||| p "ageyrs" |}.

(** [rowData.map(c => String(c || '').trim()).join(' ')] *)
Definition compositeString (rowData : row) : string :=
  Str.join " "
    (List.map (fun c => Str.trim (toString (c ||| VStr EmptyString))) rowData).

Import Regex.

(** [/[a-zA-Z0-9._%+-]+@[a-zA-Z0-9.-]+\.[a-zA-Z]{2,}/] *)
Definition emailRe : re :=
  Seq (plus (fun c => Str.is_alnum c || one_of "._%+-" c))
 (Seq (Chr (one_of "@"))
 (Seq (plus (fun c => Str.is_alnum c || one_of ".-" c))
 (Seq (Chr (one_of "."))
      (Rep true 2 None Str.is_alpha)))).

(** The class [[0-9\-\s]]. *)
Definition phoneChar (c : ascii) : bool :=
  Str.is_digit c || one_of "-" c || Str.is_space c.

(** [/\+?[0-9][0-9\-\s]{8,15}/] *)
Definition phoneRe : re :=
  Seq (Rep true 0 (Some 1) (one_of "+"))
 (Seq (Chr Str.is_digit)
      (Rep true 8 (Some 15) phoneChar)).

(** [/Name:\s*(.*?)\s*(?:Age|Location|University|Degree|$)/i] *)
Definition nameRe : re :=
  Seq (Lit true "Name:")
 (Seq (star Str.is_space)
 (Seq (Grp (Rep false 0 None Str.is_dot))
 (Seq (star Str.is_space)
      (Alt (Lit true "Age")
      (Alt (Lit true "Location")
      (Alt (Lit true "University")
      (Alt (Lit true "Degree") Eos))))))).

(** [/Age:\s*([\d.]+)/i] *)
Definition ageRe : re :=
  Seq (Lit true "Age:")
 (Seq (star Str.is_space)
      (Grp (plus (fun c => Str.is_digit c || one_of "." c)))).

(** The deep-parsing fallback over the composite string [cs]. *)
Definition deepParse (d : draft) (cs : string) : draft :=
  if (negb (truthy (email d)) || negb (truthy (phone d))) && Str.includes cs ":"
  then
    let emailMatch := search emailRe cs in
    let phoneMatch := search phoneRe cs in
    let nameMatch := search nameRe cs in
    let ageMatch := search ageRe cs in
    {| email :=
         match emailMatch with
         | Some (m, _) => if truthy (email d) then email d else VStr m
         | None => email d
         end;
       phone :=
         match phoneMatch with
         | Some (m, _) => if truthy (phone d) then phone d else VStr (Str.trim m)
         | None => phone d
         end;
       name :=
         match nameMatch with
         | Some (_, Some g) =>
             if negb (truthy (name d))
                || (50 <? String.length (toString (name d)))%nat
             then VStr (Str.trim g) else name d
         | _ => name d
         end;
       age :=
         match ageMatch with
         | Some (_, Some g) => if truthy (age d) then age d else VStr g
         | _ => age d
         end;
       exp := exp d |}
  else d.

(** The fields of one data row after mapping and fallback. *)
Definition rowItem (headers : list string) (rowData : row) : Obj.obj jsval :=
  mapCells headers rowData [].

Definition rowDraft (headers : list string) (rowData : row) : draft :=
  deepParse (synonyms (rowItem headers rowData)) (compositeString rowData).

(** The critical-field validation: [!name || (!email && !phone)]. *)
Definition invalid (d : draft) : bool :=
  negb (truthy (name d)) || (negb (truthy (email d)) && negb (truthy (phone d))).

(** ** Row reconciliation *)

(** [imageMap[sheetRow]] *)
Definition photoAt (imageMap : gmap Z string) (sheetRow : Z) : jsval :=
  match imageMap !! sheetRow with
  | Some p => VStr p
  | None => VUndef
  end.

Definition missingError (d : draft) : string :=
  "Skipped: Missing Name/Email. Found: "
    ++ toString (name d ||| VStr "N/A") ++ ", "
    ++ toString (email d ||| VStr "N/A").

Definition existsError (d : draft) : string :=
  "Skipped: Email " ++ toString (email d) ++ " already exists".

(** The object literal [candidate] of a new record. *)
Definition candidate (uid : string) (now : Z) (item : Obj.obj jsval)
    (d : draft) (photo : jsval) : doc :=
  [ ("name", BPrim (name d));
    ("email", BPrim (email d));
    ("phone", BPrim (VStr (toString (phone d))));
    ("experience_years", BPrim (VNum (numberOrZero (exp d))));
    ("previous_experience",
      let v := prop item "previous_experience" in
      if truthy v then BPrim v else BArray0);
    ("age", BPrim (VNum (numberOrZero (age d))));
    ("photo", BPrim (photo ||| VStr EmptyString));
    ("status", BPrim (VStr "pending"));
    ("createdBy", BPrim (VStr uid));
    ("createdAt", BDate now) ].

(** [{ ...existing, photo, updated: true }] *)
Definition merged (existing : doc) (photo : jsval) : doc :=
  Obj.set (Obj.set existing "photo" (BPrim photo)) "updated" (BPrim (VBool true)).

(** The loop state: the arrays [processed] and [errors]. *)
Record tally : Type := Tally {
  processed : list doc;
  errors : list string
}.

Definition push_processed (t : tally) (d : doc) : tally :=
  Tally (processed t ++ [d])%list (errors t).

Definition push_error (t : tally) (msg : string) : tally :=
  Tally (processed t) (errors t ++ [msg])%list.

(** One turn of [for (const rowData of dataRows)].  [sheetRow] is
    [headerRowIndex + 1 + dataRows.indexOf(rowData)]: every row of the sheet
    is an array of its own, so [indexOf] is the row's position. *)
Definition processRow (uid : string) (headers : list string)
    (imageMap : gmap Z string) (sheetRow : Z) (now : Z) (rowData : row)
    (t : tally) : M tally :=
  match rowData with
  | [] => ret t
  | _ =>
      let item := rowItem headers rowData in
      let d := rowDraft headers rowData in
      if invalid d then
        let rowStr := Str.toLowerCase (Json.stringify item) in
        if Str.includes rowStr "bdjobs" || Str.includes rowStr "powered" then ret t
        else if (0 <? List.length (processed t))%nat
                && negb (truthy (name d)) && negb (truthy (email d)) then ret t
        else ret (push_error t (missingError d))
      else
        existing <- (if truthy (email d) then Coll.findOne (email d) else ret None) ;;
        match existing with
        | Some ex =>
            let photo := photoAt imageMap sheetRow in
            if truthy photo && negb (field_truthy ex "photo") then
              Coll.updateOne (email d) photo ;;;
              ret (push_processed t (merged ex photo))
            else ret (push_error t (existsError d))
        | None =>
            ret (push_processed t
                   (candidate uid now item d (photoAt imageMap sheetRow)))
        end
  end.

(** The data rows from position [idx] on. *)
Fixpoint processRows (e : env) (uid : string) (headerRowIndex : nat)
    (headers : list string) (imageMap : gmap Z string) (idx : nat)
    (dataRows : list row) (t : tally) : M tally :=
  match dataRows with
  | [] => ret t
  | rowData :: rest =>
      t' <- processRow uid headers imageMap
              (Z.of_nat (headerRowIndex + 1 + idx)) (rowClock e idx) rowData t ;;
      processRows e uid headerRowIndex headers imageMap (S idx) rest t'
  end.

(** ** The upload handler *)

Record workbook : Type := Workbook {
  images : list image;     (* exSheet.getImages() with their media *)
  rows : list row          (* sheet_to_json(sheet, { header: 1 }) *)
}.

Record upload : Type := Upload {
  path : string;                 (* req.file.path, absolute *)
  content : option workbook      (* what the parsers read, None if unreadable *)
}.

Record request : Type := Request {
  file : option upload;          (* req.file *)
  uid : string                   (* req.user.uid *)
}.

Inductive response : Type :=
| Status400 (body : string)
| Status500 (body : string)
| Json200 (message : string) (added : nat) (errs : list string).

Definition noHeaders : string :=
  "Could not find candidate data headers (Name, Email, etc.) in the Excel file.".

(** [xlsx.readFile] and [exWorkbook.xlsx.readFile]: both throw on a missing
    or unreadable file. *)
Definition readFile (f : upload) : M workbook :=
  fun w =>
    match files w !! path f, content f with
    | Some _, Some wb => (w, Ok wb)
    | _, _ => (w, Throw)
    end.

Definition handle (e : env) (req : request) (f : upload) : M response :=
  wb <- readFile f ;;
  imageMap <- extractImages e 0 (images wb) ∅ ;;
  match findHeader (rows wb) with
  | None =>
      Fs.unlinkSync (path f) ;;;
      ret (Status400 noHeaders)
  | Some (headerRowIndex, headers) =>
      let dataRows := List.skipn (headerRowIndex + 1) (rows wb) in
      t <- processRows e (uid req) headerRowIndex headers imageMap 0 dataRows
             (Tally [] []) ;;
      (if (0 <? List.length (processed t))%nat
       then Coll.insertMany (processed t) else ret tt) ;;;
      Fs.unlinkSync (path f) ;;;
      ret (Json200
             (if (0 <? List.length (processed t))%nat
              then "File processed successfully"
              else "No valid candidates found in the file")
             (List.length (processed t)) (errors t))
  end.

(** [app.post('/api/candidates/upload', ...)] after the middlewares. *)
Definition uploadCandidates (e : env) (req : request) (w : world)
    : world * response :=
  match file req with
  | None => (w, Status400 "No file uploaded")
  | Some f =>
      match handle e req f w with
      | (w', Ok r) => (w', r)
      | (w', Throw) => (w', Status500 "Error processing file")   (* catch *)
      end
  end.

(** ** Vocabulary of the statements *)

(** A row that the header locator accepts. *)
Definition qualifies (r : row) : Prop := 2 <= matchCount (normalizedRow r).

(** The directory under which extracted photos are looked up again. *)
Definition photoDir (e : env) : string := cwd e ++ "/uploads/candidates/".

(** Every path recorded in the image map is a photo URL. *)
Definition photoUrls (imageMap : gmap Z string) : Prop :=
  map_Forall (fun _ u => exists name, u = "/uploads/candidates/" ++ name) imageMap.

(** A value that can serve as [_id]. *)
Definition is_key (b : bson) : bool :=
  match b with
  | BPrim VUndef | BPrim VNull => false
  | _ => true
  end.

(** A stored document carries an [_id]. *)
Definition keyed (d : doc) : Prop :=
  exists id, Obj.get d "_id" = Some id /\ is_key id = true.

(** A document built by the handler from scratch has no [_id] field yet. *)
Definition plain (d : doc) : Prop := Obj.get d "_id" = None.

(** A document that repeats the [_id] of one of [ds]. *)
Definition clashes (ds : list doc) (d : doc) : Prop :=
  exists id, Obj.get d "_id" = Some id /\ is_key id = true /\
             List.existsb (Coll.has_id id) ds = true.

(** What the row loop appends to [processed] (as [P]) and to [errors] (as
    [E]) over the rows [dataRows] when the collection stays [ds] throughout. *)
Record loop_facts (headers : list string) (ds : list doc) (dataRows : list row)
    (P : list doc) (E : list string) : Prop := LoopFacts {
  known_reported :
    forall r, In r dataRows ->
      let d := rowDraft headers r in
      invalid d = false -> truthy (email d) = true ->
      List.find (Coll.matches "email" (email d)) ds <> None ->
      In (existsError d) E;
  unknown_staged :
    forall r, In r dataRows ->
      let d := rowDraft headers r in
      invalid d = false ->
      truthy (email d) = false \/
        List.find (Coll.matches "email" (email d)) ds = None ->
      exists c, In c P /\
        Obj.get c "name" = Some (BPrim (name d)) /\
        Obj.get c "email" = Some (BPrim (email d)) /\
        Obj.get c "phone" = Some (BPrim (VStr (toString (phone d))));
  staged_origin :
    forall c, In c P ->
      exists r, In r dataRows /\
        let d := rowDraft headers r in
        invalid d = false /\
        Obj.get c "email" = Some (BPrim (email d)) /\
        (truthy (email d) = false \/
         List.find (Coll.matches "email" (email d)) ds = None)
}.

(** ** Sample inputs used by the examples below *)

Module Sample.

(** A title line, a blank line, the header line, a data row, and further
    down a header-like row that matches three keywords. *)
Definition sheet : list row :=
  [ [VStr "Candidates 2024"];
    [];
    [VStr "Name"; VStr "E-mail"; VStr "Notes"];
    [VStr "Alice"; VStr "alice@x.com"; VStr "senior"];
    [VStr "Full Name"; VStr "Email"; VStr "Phone"] ].

(** A development environment and a production one (Vercel). *)
Definition dev : env :=
  Env false "/srv/app" (fun i => 1700000000000 + Z.of_nat i)%Z
      (fun i => 1700000001000 + Z.of_nat i)%Z.

Definition prod : env :=
  Env true "/var/task" (imageClock dev) (rowClock dev).

(** A PNG picture that the workbook labels as jpg, anchored in sheet row 3. *)
Definition pngAsJpg : image :=
  Image (7 # 2) "jpg" [x89; x50; x4e; x47; x0d; x0a; x1a; x0a].

(** A Windows metafile. *)
Definition metafile : image :=
  Image (1 # 1) "EMF" [x01; x00; x00; x00].

Definition emptyWorld : world := World [] ∅.

Definition headers : list string := ["name"; "email"; "notes"].

Definition alice : row := [VStr "Alice"; VStr "alice@x.com"; VStr "senior"].

(** A name, no contact, nothing else. *)
Definition carl : row := [VStr "Carl"].

(** A name, no contact, and a remark that contains the word "powered". *)
Definition ann : row := [VStr "Ann"; VUndef; VStr "Powered by referrals"].

(** The labelled free text of a profile summary. *)
Definition janeText : string := "Name: Jane Doe Age: 29 Phone: 555-1234".

Definition profileHeaders : list string := ["profile"; "email"; "phone"].

Definition jane : row := [VStr janeText].

(** The uploaded file as multer stored it. *)
Definition tmpPath : string := "/srv/app/uploads/candidates-1700000000000-list.xlsx".

Definition uploaded (ds : list doc) : world := World ds {[ tmpPath := [x50; x4b] ]}.

Definition requestOf (f : upload) : request := Request (Some f) "u1".

(** A sheet without any header line, with one picture. *)
Definition headless : workbook :=
  Workbook [pngAsJpg] [[VStr "Candidates 2024"]; [VStr "Alice"; VStr "alice@x.com"]].

(** A file that the workbook parsers reject. *)
Definition unreadable : upload := Upload tmpPath None.

(** Alice as already stored, without a photo. *)
Definition storedAlice : doc :=
  [ ("_id", BOid 7);
    ("name", BPrim (VStr "Alice"));
    ("email", BPrim (VStr "alice@x.com"));
    ("phone", BPrim (VStr "5551234"));
    ("photo", BPrim (VStr EmptyString));
    ("status", BPrim (VStr "pending")) ].

(** Header in sheet row 0, Alice in sheet row 1, her picture anchored there. *)
Definition aliceWithPhoto : workbook :=
  Workbook [Image (1 # 1) "png" [x89; x50; x4e; x47]]
           [ [VStr "Name"; VStr "Email"; VStr "Phone"];
             [VStr "Alice"; VStr "alice@x.com"; VStr "5551234"] ].

(** Two pictures anchored in sheet row 2, of 500 and of 2000 bytes. *)
Definition small500 : image :=
  Image (2 # 1) "png" ([x89; x50; x4e; x47] ++ List.repeat x00 496).

Definition big2000 : image :=
  Image (5 # 2) "png" ([x89; x50; x4e; x47] ++ List.repeat x00 1996).

Definition twoPictures : workbook :=
  Workbook [small500; big2000]
           [ [VStr "Name"; VStr "Email"; VStr "Phone"];
             [VStr "Alice"; VStr "alice@x.com"; VStr "5551234"] ].

(** A candidate known by name and phone only. *)
Definition bobOnly : workbook :=
  Workbook []
           [ [VStr "Name"; VStr "Email"; VStr "Phone"];
             [VStr "Bob"; VUndef; VStr "5551234567"] ].

(** Alice with email and picture, Bob with a phone only. *)
Definition aliceAndBob : workbook :=
  Workbook [Image (1 # 1) "png" [x89; x50; x4e; x47]]
           [ [VStr "Name"; VStr "Email"; VStr "Phone"];
             [VStr "Alice"; VStr "alice@x.com"; VStr "5551234"];
             [VStr "Bob"; VUndef; VStr "5551234567"] ].

(** One email on two rows, the picture anchored on the second of them. *)
Definition twins : workbook :=
  Workbook [Image (2 # 1) "png" [x89; x50; x4e; x47]]
           [ [VStr "Name"; VStr "Email"; VStr "Phone"];
             [VStr "Al"; VStr "al@x.com"; VStr "1"];
             [VStr "Al again"; VStr "al@x.com"; VStr "2"] ].

Definition firstPass : world * response :=
  uploadCandidates dev (requestOf (Upload tmpPath (Some aliceAndBob))) (uploaded []).

Definition secondPass : world * response :=
  uploadCandidates dev (requestOf (Upload tmpPath (Some aliceAndBob)))
    (uploaded (docs (fst firstPass))).

End Sample.

(** ** The other routes of the server

    The routes around the upload handler: the two middlewares, the user
    routes, candidate deletion and lookup, interview scheduling and listing
    and the phone list.  A collection is the list of its documents in
    natural order, a request body an object of primitives. *)

Module Api.

Inductive reply : Type :=
| Text (status : nat) (body : string)     (* res.status(s).send(body) *)
| Json (status : nat) (body : doc)        (* res.status(s).json(body) *)
| Thrown (status : nat).                  (* res.status(s).send(error.message) *)

(** A middleware either calls [next()] or answers. *)
Inductive gate (A : Type) : Type :=
| Next (a : A)
| Stop (r : reply).
Arguments Next {A} a.
Arguments Stop {A} r.

(** *** Collection operations *)

(** [findOne({ k: v })] *)
Definition findOne (k : string) (v : jsval) (ds : list doc) : option doc :=
  List.find (Coll.matches k v) ds.

(** [updateOne(filter, update)]: the first match is rewritten. *)
Fixpoint updateFirst (p : doc -> bool) (f : doc -> doc) (ds : list doc)
    : list doc :=
  match ds with
  | [] => []
  | d :: ds' => if p d then f d :: ds' else d :: updateFirst p f ds'
  end.

(** [updateMany(filter, update)] *)
Definition updateAll (p : doc -> bool) (f : doc -> doc) (ds : list doc)
    : list doc :=
  List.map (fun d => if p d then f d else d) ds.

(** [deleteOne(filter)]: the first match is removed. *)
Fixpoint deleteFirst (p : doc -> bool) (ds : list doc) : list doc :=
  match ds with
  | [] => []
  | d :: ds' => if p d then ds' else d :: deleteFirst p ds'
  end.

(** A query value [null] or [undefined] also matches a missing field. *)
Definition nullish (b : option bson) : bool :=
  match b with
  | None | Some (BPrim VUndef) | Some (BPrim VNull) => true
  | Some _ => false
  end.

(** [{ _id: id }] *)
Definition byId (id : option bson) (d : doc) : bool :=
  if nullish id then nullish (Obj.get d "_id")
  else match id, Obj.get d "_id" with
       | Some a, Some b => bson_eqb b a
       | _, _ => false
       end.

(** *** verifyToken *)

(** [s.split(' ')] *)
Fixpoint split (s : string) : list string :=
  match s with
  | EmptyString => [EmptyString]
  | String c s' =>
      if Ascii.eqb c " " then EmptyString :: split s'
      else match split s' with
           | x :: xs => String c x :: xs
           | [] => [String c EmptyString]
           end
  end.

(** [req.user]: the decoded token. *)
Record claims : Type := Claims {
  uid : string;
  email : jsval
}.

Definition devUser : claims := Claims "test-uid-123" (VStr "admin@test.com").

Section VerifyToken.

(** [admin.auth().verifyIdToken], [None] when it rejects. *)
Variable verifyIdToken : string -> option claims.

Definition verifyToken (authorization : option string) : gate claims :=
  match authorization with
  | None => Stop (Text 401 "Unauthorized: No token provided")
  | Some header =>
      match nth_error (split header) 1 with
      | None => Stop (Text 401 "Unauthorized: No token provided")
      | Some token =>
          if Str.isEmpty token then Stop (Text 401 "Unauthorized: No token provided")
          else if String.eqb token "DEV_TOKEN" then Next devUser
          else match verifyIdToken token with
               | Some decodedToken => Next decodedToken
               | None => Stop (Text 401 "Unauthorized: Invalid token")
               end
      end
  end.

End VerifyToken.

(** *** verifyRole *)

(** [allowedRoles.includes(role.toLowerCase())] *)
Definition includesRole (allowedRoles : list string) (role : string) : bool :=
  List.existsb (fun a => String.eqb a (Str.toLowerCase role)) allowedRoles.

(** The middleware [verifyRole(allowedRoles)]; [Next] carries [req.dbUser].
    A stored role that is truthy but not a string has no [toLowerCase]:
    the call throws and the catch answers 500. *)
Definition verifyRole (allowedRoles : list string) (user : option claims)
    (users : list doc) : gate doc :=
  match user with
  | None => Stop (Text 401 "Unauthorized")
  | Some u =>
      if Str.isEmpty (uid u) then Stop (Text 401 "Unauthorized") else
      match findOne "uid" (VStr (uid u)) users with
      | None => Stop (Text 404 "User role not found in database")
      | Some dbUser =>
          match Obj.get dbUser "role" with
          | Some (BPrim (VStr role)) =>
              if negb (Str.isEmpty role) && includesRole allowedRoles role
              then Next dbUser
              else Stop (Text 403 "Forbidden: Insufficient Permissions")
          | Some (BPrim v) =>
              if truthy v then Stop (Text 500 "Internal Server Error")
              else Stop (Text 403 "Forbidden: Insufficient Permissions")
          | Some _ => Stop (Text 500 "Internal Server Error")
          | None => Stop (Text 403 "Forbidden: Insufficient Permissions")
          end
      end
  end.

(** *** GET /api/users/me *)

Definition usersMe (u : claims) (users : list doc) : list doc * reply :=
  match findOne "uid" (VStr (uid u)) users with
  | Some user => (users, Json 200 user)
  | None =>
      match (if truthy (email u) then findOne "email" (email u) users else None) with
      | Some user =>
          (updateFirst (byId (Obj.get user "_id"))
             (fun d => Obj.set d "uid" (BPrim (VStr (uid u)))) users,
           Json 200 (Obj.set user "uid" (BPrim (VStr (uid u)))))
      | None => (users, Json 404 [("message", BPrim (VStr "User not found"))])
      end
  end.

(** *** PATCH /api/users/:uid/role *)

Definition validRoles : list string := ["admin"; "staff"; "candidate"].

(** [role] is [req.body.role]; [role?.toLowerCase()] throws on a value that
    is neither nullish nor a string. *)
Definition updateUserRole (uidParam : string) (role : jsval) (users : list doc)
    : list doc * reply :=
  match role with
  | VUndef | VNull => (users, Text 400 "Invalid role")
  | VStr r =>
      let targetRole := Str.toLowerCase r in
      if List.existsb (fun a => String.eqb a targetRole) validRoles then
        if List.existsb (Coll.matches "uid" (VStr uidParam)) users then
          (updateFirst (Coll.matches "uid" (VStr uidParam))
             (fun d => Obj.set d "role" (BPrim (VStr targetRole))) users,
           Json 200 [ ("message", BPrim (VStr "Role updated successfully"));
                      ("uid", BPrim (VStr uidParam));
                      ("role", BPrim role) ])
        else (users, Text 404 "User not found")
      else (users, Text 400 "Invalid role")
  | _ => (users, Text 500 "Error updating role")
  end.

(** *** POST /api/users/register-role *)

(** [parseInt(v)] without radix. *)
Definition parseInt (v : jsval) : number :=
  let s := Str.trimStart (toString v) in
  let '(neg, s1) :=
    match s with
    | String "-" t => (true, t)
    | String "+" t => (false, t)
    | _ => (false, s)
    end in
  let '(base, s2) :=
    match s1 with
    | String "0" (String x t) =>
        if Regex.chr_eq true x "x" then (16%Z, t) else (10%Z, s1)
    | _ => (10%Z, s1)
    end in
  match span_digits base s2 0%Z O with
  | (n, S _, _) => Dec (if neg then (- n)%Z else n) 0
  | _ => NaN
  end.

(** [parseInt(v) || 0] *)
Definition intOrZero (v : jsval) : number :=
  let n := parseInt v in if num_falsy n then Dec 0 0 else n.

(** The object [userData]. *)
Definition userData (userRole : string) (now : Z) (body : Obj.obj jsval)
    : list (string * bson) :=
  [ ("uid", BPrim (prop body "uid"));
    ("email", BPrim (prop body "email"));
    ("role", BPrim (VStr userRole));
    ("name", BPrim (prop body "name"));
    ("phone", BPrim (prop body "phone"));
    ("experience_years", BPrim (VNum (intOrZero (prop body "experience_years"))));
    ("previous_experience", BPrim (prop body "previous_experience"));
    ("age", BPrim (VNum (intOrZero (prop body "age"))));
    ("updatedAt", BDate now) ].

(** [{ $set: fields }] on one document; a field given as [undefined] is
    kept as such here, the collection reads it back as [null]. *)
Definition setFields (fields : list (string * bson)) (d : doc) : doc :=
  List.fold_left (fun acc kv => Obj.set acc (fst kv) (snd kv)) fields d.

Definition registerRole (now : Z) (body : Obj.obj jsval) (users : list doc)
    : list doc * reply :=
  let role := prop body "role" ||| VStr "candidate" in
  match role with
  | VStr r =>
      let userRole := Str.toLowerCase r in
      if negb (truthy (prop body "uid")) then (users, Text 400 "UID required")
      else
        (updateFirst (Coll.matches "uid" (prop body "uid"))
           (setFields (userData userRole now body)) users,
         Json 200
           [ ("message", BPrim (VStr "User and Candidate profile synchronized"));
             ("uid", BPrim (prop body "uid"));
             ("role", BPrim (VStr userRole)) ])
  | _ => (users, Thrown 500)
  end.

(** *** DELETE /api/candidates/:id and GET /api/candidates/me *)

Section ObjectIds.

(** [new ObjectId(s)] on a string, [None] when the constructor throws. *)
Variable ObjectId : string -> option nat.

Definition deleteCandidate (id : string) (candidates : list doc)
    : list doc * reply :=
  match ObjectId id with
  | None => (candidates, Text 500 "Error deleting candidate")
  | Some n =>
      if List.existsb (byId (Some (BOid n))) candidates then
        (deleteFirst (byId (Some (BOid n))) candidates,
         Json 200 [("message", BPrim (VStr "Candidate deleted"))])
      else (candidates, Text 404 "Candidate not found")
  end.

(** *** POST /api/interviews *)

(** [new ObjectId(v)] for the body's [candidateId]: a string goes through
    [ObjectId], a number makes the driver generate an id ([generated],
    different on each construction), anything else throws. *)
Variable generated : nat -> number -> nat.

Definition candidateOid (call : nat) (v : jsval) : option nat :=
  match v with
  | VStr s => ObjectId s
  | VNum n => Some (generated call n)
  | _ => None
  end.

Definition scheduleInterview (u : claims) (now : Z) (body : Obj.obj jsval)
    (interviews candidates : list doc) : list doc * list doc * reply :=
  let candidateId := prop body "candidateId" in
  let date := prop body "date" in
  let time := prop body "time" in
  if negb (truthy candidateId) || negb (truthy date) || negb (truthy time)
  then (interviews, candidates, Text 400 "Missing required fields")
  else
    match candidateOid 0 candidateId with
    | None => (interviews, candidates, Text 500 "Error scheduling interview")
    | Some cid =>
        let interview : doc :=
          [ ("candidateId", BOid cid);
            ("date", BPrim date);
            ("time", BPrim time);
            ("type", BPrim (prop body "type" ||| VStr "General"));
            ("status", BPrim (VStr "Scheduled"));
            ("scheduledBy", BPrim (VStr (uid u)));
            ("createdAt", BDate now) ] in
        match Coll.insertOne interview interviews with
        | None => (interviews, candidates, Text 500 "Error scheduling interview")
        | Some interviews' =>
            match candidateOid 1 candidateId with
            | None => (interviews', candidates, Text 500 "Error scheduling interview")
            | Some cid' =>
                (interviews',
                 updateFirst (byId (Some (BOid cid')))
                   (fun d => Obj.set d "status" (BPrim (VStr "Interview Scheduled")))
                   candidates,
                 Json 201 [ ("message", BPrim (VStr "Interview scheduled"));
                            ("id", BOid (Coll.fresh_oid interviews)) ])
            end
        end
    end.

End ObjectIds.

(** [findOne({ email })] for the token's email. *)
Definition candidatesMe (u : claims) (candidates : list doc) : reply :=
  if negb (truthy (email u)) then Text 400 "User email not found in token"
  else match findOne "email" (email u) candidates with
       | Some candidate => Json 200 candidate
       | None => Json 404 [("message", BPrim (VStr "Profile not found"))]
       end.

(** *** GET /api/interviews *)

(** [a < b] on strings, as the collection compares them: by code unit. *)
Fixpoint strLt (a b : string) : bool :=
  match a, b with
  | _, EmptyString => false
  | EmptyString, String _ _ => true
  | String x a', String y b' =>
      (Str.code x <? Str.code y)%nat
      || ((Str.code x =? Str.code y)%nat && strLt a' b')
  end.

(** [s.padStart(width, '0')] *)
Definition pad (width : nat) (s : string) : string :=
  zeros (width - String.length s) ++ s.

(** [new Date(ms).toISOString().split('T')[0]]: the UTC calendar date. *)
Definition isoDate (ms : Z) : string :=
  let z := (ms / 86400000 + 719468)%Z in
  let era := (z / 146097)%Z in
  let doe := (z - era * 146097)%Z in
  let yoe := ((doe - doe / 1460 + doe / 36524 - doe / 146096) / 365)%Z in
  let doy := (doe - (365 * yoe + yoe / 4 - yoe / 100))%Z in
  let mp := ((5 * doy + 2) / 153)%Z in
  let d := (doy - (153 * mp + 2) / 5 + 1)%Z in
  let m := (if mp <? 10 then mp + 3 else mp - 9)%Z in
  let y := (yoe + era * 400 + (if m <=? 2 then 1 else 0))%Z in
  let year :=
    if ((0 <=? y) && (y <=? 9999))%Z then pad 4 (digits (Z.to_N y))
    else (if (y <? 0)%Z then "-" else "+") ++ pad 6 (digits (Z.abs_N y)) in
  year ++ "-" ++ pad 2 (digits (Z.to_N m)) ++ "-" ++ pad 2 (digits (Z.to_N d)).

(** The filter [{ status: 'Scheduled', date: { $lt: todayStr } }]; [$lt]
    against a string only matches a string. *)
Definition overdue (todayStr : string) (d : doc) : bool :=
  Coll.matches "status" (VStr "Scheduled") d &&
  match Obj.get d "date" with
  | Some (BPrim (VStr date)) => strLt date todayStr
  | _ => false
  end.

(** The auto-update: [updateMany(..., { $set: { status: 'Completed' } })]. *)
Definition completeOverdue (todayStr : string) (interviews : list doc)
    : list doc :=
  updateAll (overdue todayStr)
    (fun d => Obj.set d "status" (BPrim (VStr "Completed"))) interviews.

(** [$lookup] equality between [candidateId] and [_id]. *)
Definition joins (interview candidate : doc) : bool :=
  match Obj.get interview "candidateId" with
  | Some BArray0 => false
  | local =>
      if nullish local then nullish (Obj.get candidate "_id")
      else match local, Obj.get candidate "_id" with
           | Some a, Some b => bson_eqb b a
           | _, _ => false
           end
  end.

(** The stages [$lookup] and [$unwind]: one row per interview and matching
    candidate, as (interview, candidate); the [$sort] stage that follows
    only reorders the rows. *)
Definition lookupUnwind (interviews candidates : list doc)
    : list (doc * doc) :=
  List.flat_map
    (fun i => List.map (fun c => (i, c)) (List.filter (joins i) candidates))
    interviews.

(** The route: the interviews as updated, and the rows of the answer up to
    their order. *)
Definition listInterviews (now : Z) (interviews candidates : list doc)
    : list doc * list (doc * doc) :=
  let interviews' := completeOverdue (isoDate now) interviews in
  (interviews', lookupUnwind interviews' candidates).

(** *** GET /api/candidates/download-phones *)

(** The text of one array element under [join]; a Date or an ObjectId prints
    in ways that are not modelled. *)
Definition joinText (v : option bson) : option string :=
  match v with
  | None | Some (BPrim VUndef) | Some (BPrim VNull) => Some EmptyString
  | Some (BPrim p) => Some (toString p)
  | Some BArray0 => Some EmptyString
  | Some (BDate _) | Some (BOid _) => None
  end.

Fixpoint phoneTexts (candidates : list doc) : option (list string) :=
  match candidates with
  | [] => Some []
  | c :: rest =>
      match joinText (Obj.get c "phone"), phoneTexts rest with
      | Some t, Some ts => Some (t :: ts)
      | _, _ => None
      end
  end.

Definition newline : string := String (ascii_of_nat 10) EmptyString.

(** [candidates.map(c => c.phone).join('\n')] *)
Definition downloadPhones (candidates : list doc) : option string :=
  option_map (Str.join newline) (phoneTexts candidates).

(** *** PUT /api/interviews/:id/status *)

Section InterviewStatus.

Variable ObjectId : string -> option nat.

(** [status] is [req.body.status]. *)
Definition updateInterviewStatus (id : string) (status : jsval)
    (interviews : list doc) : list doc * reply :=
  match ObjectId id with
  | None => (interviews, Text 500 "Error updating interview status")
  | Some n =>
      if List.existsb (byId (Some (BOid n))) interviews then
        (updateFirst (byId (Some (BOid n)))
           (fun d => Obj.set d "status" (BPrim status)) interviews,
         Json 200 [("message", BPrim (VStr "Status updated"))])
      else (interviews, Text 404 "Interview not found")
  end.

End InterviewStatus.

(** *** PATCH /api/users/update-profile *)

(** [{ k: v }] as a filter; [null] and [undefined] also match a document
    without the field. *)
Definition byField (k : string) (v : jsval) (d : doc) : bool :=
  if nullish (Some (BPrim v)) then nullish (Obj.get d k) else Coll.matches k v d.

(** The object [updateData]; [photoUrl] is [None] for [null]. *)
Definition updateData (name : jsval) (photoUrl : option string) (now : Z)
    : list (string * bson) :=
  ((if truthy name then [("name", BPrim name)] else [])
   ++ (match photoUrl with
       | Some p => if Str.isEmpty p then [] else [("photo", BPrim (VStr p))]
       | None => []
       end)
   ++ [("updatedAt", BDate now)])%list.

(** [user.role === 'candidate'] *)
Definition isCandidate (user : doc) : bool :=
  match Obj.get user "role" with
  | Some (BPrim (VStr r)) => String.eqb r "candidate"
  | _ => false
  end.

(** [name] is [req.body.name], [fileName] is [req.file.filename] when a
    photo came with the request. *)
Definition updateProfile (u : claims) (name : jsval) (fileName : option string)
    (now : Z) (users candidates : list doc) : list doc * list doc * reply :=
  let photoUrl := option_map (fun f => "/uploads/profiles/" ++ f) fileName in
  let data := updateData name photoUrl now in
  let users' := updateFirst (Coll.matches "uid" (VStr (uid u))) (setFields data) users in
  let candidates' :=
    match findOne "uid" (VStr (uid u)) users' with
    | Some user =>
        if isCandidate user
        then updateFirst (byField "email" (email u)) (setFields data) candidates
        else candidates
    | None => candidates
    end in
  (users', candidates',
   Json 200 [ ("message", BPrim (VStr "Profile updated successfully"));
              ("photo", BPrim (match photoUrl with
                               | Some p => VStr p
                               | None => VNull
                               end));
              ("name", BPrim name) ]).

(** *** Vocabulary of the statements about these routes *)

(** No space in [s]. *)
Fixpoint spaceless (s : string) : bool :=
  match s with
  | EmptyString => true
  | String c s' => negb (Ascii.eqb c " ") && spaceless s'
  end.

(** The unique index on [_id]: no two documents answer to the [_id] of one
    of them. *)
Definition distinctIds (ds : list doc) : Prop :=
  forall i j d d',
    ds !! i = Some d -> ds !! j = Some d' ->
    byId (Obj.get d "_id") d' = true -> i = j.

(** An [_id] as the collection assigns it: an ObjectId. *)
Definition oidKeyed (d : doc) : Prop := exists n, Obj.get d "_id" = Some (BOid n).

End Api.

(** ** Sample data for the other routes *)

Module ApiSample.

(** The seed user of the development bypass, stored with a capitalised role. *)
Definition admin : doc :=
  [ ("_id", BOid 1);
    ("uid", BPrim (VStr "test-uid-123"));
    ("email", BPrim (VStr "admin@test.com"));
    ("role", BPrim (VStr "Admin")) ].

Definition staff : doc :=
  [ ("_id", BOid 2);
    ("uid", BPrim (VStr "u2"));
    ("email", BPrim (VStr "staff@x.com"));
    ("role", BPrim (VStr "staff")) ].

(** A user known by email only, before the first login. *)
Definition invited : doc :=
  [ ("_id", BOid 3);
    ("email", BPrim (VStr "new@x.com"));
    ("role", BPrim (VStr "candidate")) ].

Definition users : list doc := [admin; staff; invited].

(** A verifier that rejects every token. *)
Definition rejectAll : string -> option Api.claims := fun _ => None.

(** A user whose role was stored with a capital letter. *)
Definition applicant : doc :=
  [ ("_id", BOid 4);
    ("uid", BPrim (VStr "u4"));
    ("email", BPrim (VStr "alice@x.com"));
    ("role", BPrim (VStr "Candidate")) ].

(** Three well-formed ids; every other string is refused. *)
Definition ObjectId (s : string) : option nat :=
  if String.eqb s "64b7f0c2a1d3e4f5a6b7c8d1" then Some 1
  else if String.eqb s "64b7f0c2a1d3e4f5a6b7c8d7" then Some 7
  else if String.eqb s "64b7f0c2a1d3e4f5a6b7c8d9" then Some 9
  else None.

Definition generated (call : nat) (n : number) : nat := 100 + call.

Definition candidates : list doc := [Sample.storedAlice].

(** A request for a candidate that is not stored. *)
Definition interviewBody : Obj.obj jsval :=
  [ ("candidateId", VStr "64b7f0c2a1d3e4f5a6b7c8d9");
    ("date", VStr "2023-11-20");
    ("time", VStr "10:00") ].

(** An interview with Alice on the day before the clock of [Sample.dev]. *)
Definition pastInterview : doc :=
  [ ("_id", BOid 1);
    ("candidateId", BOid 7);
    ("date", BPrim (VStr "2023-11-13"));
    ("time", BPrim (VStr "09:30"));
    ("status", BPrim (VStr "Scheduled")) ].

(** An interview on the day of that clock. *)
Definition todayInterview : doc :=
  [ ("_id", BOid 2);
    ("candidateId", BOid 7);
    ("date", BPrim (VStr "2023-11-14"));
    ("time", BPrim (VStr "23:00"));
    ("status", BPrim (VStr "Scheduled")) ].

End ApiSample.

(** ** The header count as the specification words it *)

(** Following the spec's words (4.2): how many of the keywords appear as a
    substring of some normalized cell of the row. *)
Definition specKeywordCount (cells : list string) : nat :=
  List.length
    (List.filter (fun k => List.existsb (fun cell => Str.includes cell k) cells)
       keywords).

Module HeaderSample.

(** A header line whose first cell names two fields at once. *)
Definition combined : workbook :=
  Workbook []
           [ [VStr "Name & Email"; VStr "Notes"];
             [VStr "Alice <alice@x.com>"; VStr "senior"] ].

(** A title line above the header line; both title cells contain "age". *)
Definition titled : workbook :=
  Workbook []
           [ [VStr "Hiring Manager"; VStr "Language"];
             [VStr "Name"; VStr "Email"; VStr "Phone"];
             [VStr "Alice"; VStr "alice@x.com"; VStr "5551234"] ].

(** No header line at all, two pictures anchored in sheet row 2. *)
Definition headlessTwoPictures : workbook :=
  Workbook [Sample.small500; Sample.big2000]
           [ [VStr "Candidates 2024"];
             [VStr "Alice"; VStr "alice@x.com"] ].

(** Where the upload middleware stores the file in production. *)
Definition prodPath : string := "/tmp/uploads/candidates-1700000000000-list.xlsx".

Definition uploadedProd (ds : list doc) : world :=
  World ds {[ prodPath := [x50; x4b] ]}.

End HeaderSample.

(** * Properties *)

(** ** Header locator *)

Section HeaderLocator.

Implicit Types (rows : list row) (r : row).

Lemma scanHeader_take i limit rows :
  scanHeader i limit rows = scanHeader i limit (take limit rows).
Proof.
  revert i rows; induction limit as [|limit IH]; intros i [|r rest];
    cbn [scanHeader take]; try reflexivity.
  destruct (Nat.leb 2 (matchCount (normalizedRow r))); [reflexivity | apply IH].
Qed.

Lemma scanHeader_first i limit rows k r :
  rows !! k = Some r ->
  k < limit ->
  qualifies r ->
  (forall j r', j < k -> rows !! j = Some r' -> ~ qualifies r') ->
  scanHeader i limit rows = Some (i + k, normalizedRow r).
Proof.
  unfold qualifies.
  revert i limit k; induction rows as [|r0 rest IH]; intros i limit k Hk Hlim Hq Hbefore.
  - discriminate.
  - destruct limit as [|limit]; [lia|]. cbn [scanHeader].
    destruct k as [|k]; simpl in Hk.
    + injection Hk as ->.
      destruct (Nat.leb_spec 2 (matchCount (normalizedRow r))); [|lia].
      now rewrite Nat.add_0_r.
    + destruct (Nat.leb_spec 2 (matchCount (normalizedRow r0))) as [Hq0|_].
      * exfalso. apply (Hbefore 0 r0); [lia | reflexivity | exact Hq0].
      * rewrite (IH (S i) limit k Hk); [f_equal; f_equal; lia | lia | exact Hq |].
        intros j r' Hj Hr'. apply (Hbefore (S j) r'); [lia | exact Hr'].
Qed.

Lemma scanHeader_none i limit rows :
  (forall j r, j < limit -> rows !! j = Some r -> ~ qualifies r) ->
  scanHeader i limit rows = None.
Proof.
  unfold qualifies.
  revert i limit; induction rows as [|r0 rest IH]; intros i [|limit] H;
    cbn [scanHeader]; try reflexivity.
  destruct (Nat.leb_spec 2 (matchCount (normalizedRow r0))) as [Hq0|_].
  - exfalso. apply (H 0 r0); [lia | reflexivity | exact Hq0].
  - apply IH. intros j r Hj Hr. apply (H (S j) r); [lia | exact Hr].
Qed.

Lemma filter_chars p s c :
  In c (list_ascii_of_string (Str.filter p s)) -> p c = true.
Proof.
  induction s as [|a s IH]; simpl; [tauto|].
  destruct (p a) eqn:E; simpl; [intros [<-|H]; auto | auto].
Qed.

(** The scan as the code performs it: the header locator looks at the first
    20 rows only, normalizes every cell to lower-case letters and digits,
    and returns the first row (top to bottom) in which at least two
    normalized cells contain a keyword, together with its normalized cells;
    an earlier qualifying row wins over any later one, whatever the later
    one's count. *)
Theorem header_is_first_qualifying_row rows :
  findHeader rows = findHeader (take 20 rows) /\
  (forall cell c,
      In c (list_ascii_of_string (normalizeCell cell)) ->
      Str.is_lower c || Str.is_digit c = true) /\
  (forall k r,
      rows !! k = Some r ->
      k < 20 ->
      2 <= matchCount (normalizedRow r) ->
      (forall j r', j < k -> rows !! j = Some r' ->
                    ~ 2 <= matchCount (normalizedRow r')) ->
      findHeader rows = Some (k, normalizedRow r)).
Proof.
  split; [apply scanHeader_take|]. split.
  - intros cell c. apply filter_chars.
  - intros k r Hk Hlim Hq Hbefore.
    apply (scanHeader_first 0 20 rows k r Hk Hlim Hq Hbefore).
Qed.

Lemma header_is_first_qualifying_row_witness :
  findHeader Sample.sheet = Some (2, ["name"; "email"; "notes"]).
Proof.
  apply (proj2 (proj2 (header_is_first_qualifying_row Sample.sheet))
           2 [VStr "Name"; VStr "E-mail"; VStr "Notes"]).
  - reflexivity.
  - lia.
  - vm_compute. lia.
  - intros [|[|j]] r' Hj Hr'; [| |lia]; injection Hr' as <-; vm_compute; lia.
Defined.

(** The count is over cells, not over keywords: one cell holding two
    keywords counts once, two cells holding the same keyword count twice. *)
Example matchCount_counts_cells :
  matchCount (normalizedRow [VStr "Name and Email"]) = 1 /\
  matchCount (normalizedRow [VStr "Name"; VStr "First name"]) = 2.
Proof. split; reflexivity. Qed.

(** Row 4 of the sample matches three keywords, row 2 only two. *)
Example earliest_row_not_best :
  matchCount (normalizedRow [VStr "Full Name"; VStr "Email"; VStr "Phone"]) = 3 /\
  option_map fst (findHeader Sample.sheet) = Some 2.
Proof. split; reflexivity. Qed.

(** C3, evaluated where it fails.  The comment above the test reads "at
    least 2 keywords match" and the specification counts the keywords that
    occur in the row, but [matchCount] counts the cells that contain some
    keyword.  A header line whose first cell names two fields (Name & Email)
    has two keywords in one cell: it is passed over, no header is found and
    the upload is answered 400.  A title line whose two cells both contain
    "age" (Hiring Manager, Language) has one keyword in two cells: it is
    taken as the header ahead of the real header line, whose row and every
    row below it are then skipped as nameless. *)
Theorem header_count_is_per_cell :
  specKeywordCount (normalizedRow [VStr "Name & Email"; VStr "Notes"]) = 2 /\
  matchCount (normalizedRow [VStr "Name & Email"; VStr "Notes"]) = 1 /\
  findHeader (rows HeaderSample.combined) = None /\
  snd (uploadCandidates Sample.dev
         (Sample.requestOf (Upload Sample.tmpPath (Some HeaderSample.combined)))
         (Sample.uploaded []))
    = Status400 noHeaders /\
  List.map (fun r => (specKeywordCount (normalizedRow r), matchCount (normalizedRow r)))
    (rows HeaderSample.titled)
    = [(1, 2); (3, 3); (0, 0)] /\
  findHeader (rows HeaderSample.titled) = Some (0, ["hiringmanager"; "language"]) /\
  snd (uploadCandidates Sample.dev
         (Sample.requestOf (Upload Sample.tmpPath (Some HeaderSample.titled)))
         (Sample.uploaded []))
    = Json200 "No valid candidates found in the file" 0
        [ "Skipped: Missing Name/Email. Found: N/A, N/A";
          "Skipped: Missing Name/Email. Found: N/A, N/A" ].
Proof. repeat split; vm_compute; reflexivity. Qed.

End HeaderLocator.

(** ** Image extraction *)

Section ImageFormat.

Lemma byte_is_head buf i b :
  byte_is buf i b = true -> nth_error buf i = Some b.
Proof.
  unfold byte_is. destruct (nth_error buf i) as [x|]; [|discriminate].
  intros H. now rewrite (byte_dec_bl _ _ H).
Qed.

Lemma signature3 buf a b c :
  byte_is buf 0 a && byte_is buf 1 b && byte_is buf 2 c = true ->
  exists rest, buf = a :: b :: c :: rest.
Proof.
  intros H. apply andb_prop in H as [H Hc]. apply andb_prop in H as [Ha Hb].
  apply byte_is_head in Ha, Hb, Hc.
  destruct buf as [|x0 [|x1 [|x2 rest]]]; simpl in *; try discriminate.
  exists rest. congruence.
Qed.

Lemma signature4 buf a b c d :
  byte_is buf 0 a && byte_is buf 1 b && byte_is buf 2 c && byte_is buf 3 d = true ->
  exists rest, buf = a :: b :: c :: d :: rest.
Proof.
  intros H. apply andb_prop in H as [H Hd].
  destruct (signature3 _ _ _ _ H) as [rest ->].
  apply byte_is_head in Hd. destruct rest as [|x3 rest]; simpl in Hd; [discriminate|].
  exists rest. congruence.
Qed.

Lemma processImage_skip e now img imageMap w :
  nonBrowser (detectExtension (extension img) (buffer img)) = true ->
  processImage e now img imageMap w = (w, Ok imageMap).
Proof. intros H. unfold processImage. now rewrite H. Qed.

Lemma processImage_free_row e now img imageMap w :
  let ext := detectExtension (extension img) (buffer img) in
  let row := Qfloor (tl_row img) in
  nonBrowser ext = false ->
  imageMap !! row = None ->
  processImage e now img imageMap w =
    (World (docs w)
       (<[resolve e (imagesDir e ++ "/" ++ fileName now row ext) := buffer img]> (files w)),
     Ok (<[row := "/uploads/candidates/" ++ fileName now row ext]> imageMap)).
Proof.
  intros ext row Hb Hfree. unfold processImage. fold ext row.
  now rewrite Hb, Hfree.
Qed.

(** C8.  The stored format follows the leading bytes of the buffer, not
    the workbook's hint: 89 50 4E 47 gives png, FF D8 FF gives jpg,
    47 49 46 gives gif and any other buffer keeps the hint; a PNG buffer
    with any hint (jpg included) is written to a file named [.png] and
    recorded in the image map under that name, on a free row always and on
    an occupied row whenever it is kept; an image whose resolved format is
    emf or wmf, in any letter case, changes nothing and raises no error. *)
Theorem image_format_by_content :
  (forall hint rest, detectExtension hint (x89 :: x50 :: x4e :: x47 :: rest) = "png") /\
  (forall hint rest, detectExtension hint (xff :: xd8 :: xff :: rest) = "jpg") /\
  (forall hint rest, detectExtension hint (x47 :: x49 :: x46 :: rest) = "gif") /\
  (forall hint buf,
      (forall rest, buf <> x89 :: x50 :: x4e :: x47 :: rest) ->
      (forall rest, buf <> xff :: xd8 :: xff :: rest) ->
      (forall rest, buf <> x47 :: x49 :: x46 :: rest) ->
      detectExtension hint buf = hint) /\
  (forall e now img imageMap w rest,
      buffer img = x89 :: x50 :: x4e :: x47 :: rest ->
      imageMap !! Qfloor (tl_row img) = None ->
      processImage e now img imageMap w =
        (World (docs w)
           (<[resolve e (imagesDir e ++ "/" ++ fileName now (Qfloor (tl_row img)) "png")
              := buffer img]> (files w)),
         Ok (<[Qfloor (tl_row img)
               := "/uploads/candidates/" ++ fileName now (Qfloor (tl_row img)) "png"]>
               imageMap))) /\
  (forall e now img imageMap w w' imageMap' rest,
      buffer img = x89 :: x50 :: x4e :: x47 :: rest ->
      processImage e now img imageMap w = (w', Ok imageMap') ->
      imageMap' = imageMap \/
      (imageMap' = <[Qfloor (tl_row img)
                     := "/uploads/candidates/" ++ fileName now (Qfloor (tl_row img)) "png"]>
                     imageMap /\
       files w' !! resolve e (imagesDir e ++ "/" ++ fileName now (Qfloor (tl_row img)) "png")
         = Some (buffer img))) /\
  (forall e now img imageMap w,
      let ext := Str.toLowerCase (detectExtension (extension img) (buffer img)) in
      ext = "emf" \/ ext = "wmf" ->
      processImage e now img imageMap w = (w, Ok imageMap)).
Proof.
  split; [reflexivity|]. split; [reflexivity|]. split; [reflexivity|].
  split; [|split; [|split]].
  - intros hint buf Hpng Hjpg Hgif. unfold detectExtension.
    destruct (_ && byte_is buf 3 x47) eqn:E1.
    { destruct (signature4 _ _ _ _ _ E1) as [rest ->]. now destruct (Hpng rest). }
    destruct (_ && byte_is buf 2 xff) eqn:E2.
    { destruct (signature3 _ _ _ _ E2) as [rest ->]. now destruct (Hjpg rest). }
    destruct (_ && byte_is buf 2 x46) eqn:E3.
    { destruct (signature3 _ _ _ _ E3) as [rest ->]. now destruct (Hgif rest). }
    reflexivity.
  - intros e now img imageMap w rest Hbuf Hfree.
    assert (Hext : detectExtension (extension img) (buffer img) = "png")
      by (rewrite Hbuf; reflexivity).
    pose proof (processImage_free_row e now img imageMap w) as H.
    cbv zeta in H. rewrite Hext in H.
    apply H; [reflexivity | exact Hfree].
  - intros e now img imageMap w w' imageMap' rest Hbuf.
    assert (Hext : detectExtension (extension img) (buffer img) = "png")
      by (rewrite Hbuf; reflexivity).
    unfold processImage. rewrite Hext.
    change (nonBrowser "png") with false. cbv iota.
    unfold bind, Fs.statSync, catch, Fs.unlinkSync, Fs.writeFileSync, ret.
    destruct (imageMap !! Qfloor (tl_row img)) as [existingPath|].
    + destruct (files w !! (cwd e ++ existingPath)) as [old|] eqn:Hold; [|discriminate].
      destruct (_ <=? _)%nat; [intros [= <- <-]; now left|].
      cbn [docs files]. rewrite Hold. cbn [docs files].
      intros [= <- <-]. right. split; [reflexivity|]. cbn [files].
      apply lookup_insert_eq.
    + intros [= <- <-]. right. split; [reflexivity|]. cbn [files].
      apply lookup_insert_eq.
  - intros e now img imageMap w ext Hext. apply processImage_skip.
    unfold nonBrowser. fold ext. destruct Hext as [-> | ->]; reflexivity.
Qed.

Lemma image_format_by_content_witness :
  processImage Sample.dev 1700000000000 Sample.pngAsJpg ∅ Sample.emptyWorld =
    (World [] {[ "/srv/app/uploads/candidates/photo-1700000000000-3.png"
                 := buffer Sample.pngAsJpg ]},
     Ok {[ 3%Z := "/uploads/candidates/photo-1700000000000-3.png" ]})
  /\ processImage Sample.prod 1700000000000 Sample.metafile ∅ Sample.emptyWorld =
    (Sample.emptyWorld, Ok ∅).
Proof.
  destruct image_format_by_content as (_ & _ & _ & _ & Hpng & _ & Hskip). split.
  - apply (Hpng Sample.dev 1700000000000%Z Sample.pngAsJpg ∅ Sample.emptyWorld
             [x0d; x0a; x1a; x0a]); reflexivity.
  - apply Hskip. left. reflexivity.
Defined.

End ImageFormat.

(** ** Row reconciliation *)

Section RowCases.

Variables (uid : string) (headers : list string) (imageMap : gmap Z string)
          (sheetRow now : Z).

Implicit Types (rowData : row) (t : tally) (w : world).

Local Abbreviation step := (processRow uid headers imageMap sheetRow now).

Lemma empty_row_has_no_name (d := rowDraft headers []) :
  name d = VUndef /\ email d = VUndef /\ phone d = VUndef.
Proof. destruct headers; repeat split; reflexivity. Qed.

(** A row that fails validation and carries a noise word is dropped
    without a trace. *)
Lemma step_noise rowData t w :
  let rowStr := Str.toLowerCase (Json.stringify (rowItem headers rowData)) in
  invalid (rowDraft headers rowData) = true ->
  Str.includes rowStr "bdjobs" || Str.includes rowStr "powered" = true ->
  step rowData t w = (w, Ok t).
Proof.
  intros rowStr Hinv Hnoise. unfold processRow.
  destruct rowData; [reflexivity|]. fold rowStr. now rewrite Hinv, Hnoise.
Qed.

(** A row that fails validation although it has a name is reported. *)
Lemma step_missing rowData t w :
  let rowStr := Str.toLowerCase (Json.stringify (rowItem headers rowData)) in
  let d := rowDraft headers rowData in
  invalid d = true ->
  truthy (name d) = true ->
  Str.includes rowStr "bdjobs" || Str.includes rowStr "powered" = false ->
  step rowData t w = (w, Ok (push_error t (missingError d))).
Proof.
  intros rowStr d Hinv Hname Hnoise. unfold processRow.
  destruct rowData as [|c cells].
  - destruct empty_row_has_no_name as (Hn & _). subst d. now rewrite Hn in Hname.
  - fold rowStr d. rewrite Hinv, Hnoise, Hname.
    now rewrite andb_false_r.
Qed.

(** A valid row without a known email is staged as a new candidate. *)
Lemma step_new rowData t w :
  let d := rowDraft headers rowData in
  rowData <> [] ->
  invalid d = false ->
  truthy (email d) = false \/
    List.find (Coll.matches "email" (email d)) (docs w) = None ->
  step rowData t w =
    (w, Ok (push_processed t
              (candidate uid now (rowItem headers rowData) d
                 (photoAt imageMap sheetRow)))).
Proof.
  intros d Hne Hinv Hfree. unfold processRow.
  destruct rowData as [|c cells]; [congruence|]. fold d. rewrite Hinv.
  unfold bind, Coll.findOne, ret.
  destruct (truthy (email d)); [|reflexivity].
  destruct Hfree as [Hf|Hf]; [discriminate|]. now rewrite Hf.
Qed.

(** A valid row whose email is stored, and that has no photo to give or
    meets a record that has one, is reported as a duplicate. *)
Lemma step_exists rowData t w ex :
  let d := rowDraft headers rowData in
  rowData <> [] ->
  invalid d = false ->
  truthy (email d) = true ->
  List.find (Coll.matches "email" (email d)) (docs w) = Some ex ->
  truthy (photoAt imageMap sheetRow) && negb (field_truthy ex "photo") = false ->
  step rowData t w = (w, Ok (push_error t (existsError d))).
Proof.
  intros d Hne Hinv Hmail Hfind Hphoto. unfold processRow.
  destruct rowData as [|c cells]; [congruence|]. fold d. rewrite Hinv, Hmail.
  unfold bind, Coll.findOne, ret. now rewrite Hfind, Hphoto.
Qed.

(** A valid row whose email is stored on a record without photo, and that
    has an image: the record's photo is set and a copy of the record is
    pushed on [processed]. *)
Lemma step_merge rowData t w ex :
  let d := rowDraft headers rowData in
  let photo := photoAt imageMap sheetRow in
  rowData <> [] ->
  invalid d = false ->
  truthy (email d) = true ->
  List.find (Coll.matches "email" (email d)) (docs w) = Some ex ->
  truthy photo && negb (field_truthy ex "photo") = true ->
  step rowData t w =
    (World (Coll.set_first (email d) "photo" (BPrim photo) (docs w)) (files w),
     Ok (push_processed t (merged ex photo))).
Proof.
  intros d photo Hne Hinv Hmail Hfind Hphoto. unfold processRow.
  destruct rowData as [|c cells]; [congruence|]. fold d photo. rewrite Hinv, Hmail.
  unfold bind, Coll.findOne, Coll.updateOne, ret. now rewrite Hfind, Hphoto.
Qed.

End RowCases.

Section StagedCandidate.

Variables (uid : string) (headers : list string) (imageMap : gmap Z string)
          (sheetRow now : Z).

(** C10.  A row that passes validation and meets no stored record is staged
    as a new candidate whose status is 'pending', whose createdBy is the
    uploader's uid, whose phone is a string, whose experience_years and age
    are numbers, 0 when the source value is absent or not numeric, and whose
    photo is the empty string when the image map has no entry for the row's
    sheet position; the duplicate check of a later upload then sees a record
    without photo. *)
Theorem staged_candidate_shape (rowData : row) (t : tally) (w : world) :
  let item := rowItem headers rowData in
  let d := rowDraft headers rowData in
  let c := candidate uid now item d (photoAt imageMap sheetRow) in
  rowData <> [] ->
  invalid d = false ->
  truthy (email d) = false \/
    List.find (Coll.matches "email" (email d)) (docs w) = None ->
  processRow uid headers imageMap sheetRow now rowData t w
    = (w, Ok (push_processed t c)) /\
  Obj.get c "status" = Some (BPrim (VStr "pending")) /\
  Obj.get c "createdBy" = Some (BPrim (VStr uid)) /\
  Obj.get c "phone" = Some (BPrim (VStr (toString (phone d)))) /\
  (exists n, Obj.get c "experience_years" = Some (BPrim (VNum n)) /\
             (exp d = VUndef \/ toNumber (exp d) = NaN -> n = Dec 0 0)) /\
  (exists n, Obj.get c "age" = Some (BPrim (VNum n)) /\
             (age d = VUndef \/ toNumber (age d) = NaN -> n = Dec 0 0)) /\
  (imageMap !! sheetRow = None ->
     Obj.get c "photo" = Some (BPrim (VStr EmptyString)) /\
     field_truthy c "photo" = false /\
     forall id, field_truthy (("_id", id) :: c) "photo" = false).
Proof.
  intros item d c Hne Hinv Hfree.
  split; [now apply step_new|].
  repeat split.
  - exists (numberOrZero (exp d)). split; [reflexivity|].
    unfold numberOrZero. intros [-> | ->]; reflexivity.
  - exists (numberOrZero (age d)). split; [reflexivity|].
    unfold numberOrZero. intros [-> | ->]; reflexivity.
  - subst c. unfold photoAt. now rewrite H.
  - subst c. unfold field_truthy, photoAt. now rewrite H.
  - intros id. subst c. unfold field_truthy, photoAt. now rewrite H.
Qed.

End StagedCandidate.

Lemma staged_candidate_shape_witness :
  processRow "u1" Sample.headers ∅ 3 1700000001000 Sample.alice (Tally [] [])
    Sample.emptyWorld
  = (Sample.emptyWorld,
     Ok (Tally
           [[ ("name", BPrim (VStr "Alice"));
              ("email", BPrim (VStr "alice@x.com"));
              ("phone", BPrim (VStr "undefined"));
              ("experience_years", BPrim (VNum (Dec 0 0)));
              ("previous_experience", BArray0);
              ("age", BPrim (VNum (Dec 0 0)));
              ("photo", BPrim (VStr EmptyString));
              ("status", BPrim (VStr "pending"));
              ("createdBy", BPrim (VStr "u1"));
              ("createdAt", BDate 1700000001000) ]] [])).
Proof.
  refine (proj1 (staged_candidate_shape "u1" Sample.headers ∅ 3 1700000001000
                   Sample.alice (Tally [] []) Sample.emptyWorld _ _ _)).
  - discriminate.
  - reflexivity.
  - right. reflexivity.
Defined.

Section MissingContact.

Variables (uid : string) (headers : list string) (imageMap : gmap Z string)
          (sheetRow now : Z).

(** C6, as amended.  A row whose draft has a name but neither email nor
    phone after mapping and fallback is skipped and never counted; the error
    "Skipped: Missing Name/Email. Found: <name>, N/A" is appended to the
    errors, unless the JSON text of the mapped row contains "bdjobs" or
    "powered" in any letter case, in which case the row is dropped silently. *)
Theorem missing_contact_reported (rowData : row) (t : tally) (w : world) :
  let d := rowDraft headers rowData in
  let rowStr := Str.toLowerCase (Json.stringify (rowItem headers rowData)) in
  truthy (name d) = true ->
  truthy (email d) = false ->
  truthy (phone d) = false ->
  (Str.includes rowStr "bdjobs" || Str.includes rowStr "powered" = false ->
   processRow uid headers imageMap sheetRow now rowData t w
     = (w, Ok (Tally (processed t)
                 (errors t ++
                  [("Skipped: Missing Name/Email. Found: "
                      ++ toString (name d) ++ ", N/A")%string])%list))) /\
  (Str.includes rowStr "bdjobs" || Str.includes rowStr "powered" = true ->
   processRow uid headers imageMap sheetRow now rowData t w = (w, Ok t)).
Proof.
  intros d rowStr Hname Hmail Hphone.
  assert (Hinv : invalid d = true).
  { unfold invalid. now rewrite Hname, Hmail, Hphone. }
  split; intros Hnoise.
  - rewrite (step_missing uid headers imageMap sheetRow now rowData t w Hinv Hname Hnoise).
    fold d. unfold push_error, missingError, JS.or. now rewrite Hname, Hmail.
  - now apply step_noise.
Qed.

End MissingContact.

Lemma missing_contact_reported_witness :
  processRow "u1" Sample.headers ∅ 3 0 Sample.carl (Tally [] []) Sample.emptyWorld
  = (Sample.emptyWorld,
     Ok (Tally [] ["Skipped: Missing Name/Email. Found: Carl, N/A"])).
Proof.
  apply (proj1 (missing_contact_reported "u1" Sample.headers ∅ 3 0 Sample.carl
                  (Tally [] []) Sample.emptyWorld eq_refl eq_refl eq_refl)).
  reflexivity.
Defined.

(** C6 as stated fails: the draft of this row has a name and no email or
    phone, yet nothing is appended to the errors. *)
Lemma missing_contact_silent_counterexample :
  let d := rowDraft Sample.headers Sample.ann in
  truthy (name d) = true /\ truthy (email d) = false /\ truthy (phone d) = false /\
  processRow "u1" Sample.headers ∅ 3 0 Sample.ann (Tally [] []) Sample.emptyWorld
    = (Sample.emptyWorld, Ok (Tally [] [])).
Proof. repeat split; reflexivity. Qed.

(** ** Composite-text fallback *)

Section Fallback.

Import Sample.

Lemma jane_has_colon rest : Str.includes (janeText ++ rest) ":" = true.
Proof. reflexivity. Qed.

Lemma jane_name rest :
  search nameRe (janeText ++ rest) = Some ("Name: Jane Doe Age", Some "Jane Doe").
Proof. vm_compute. reflexivity. Qed.

Lemma jane_age rest :
  search ageRe (janeText ++ rest) = Some ("Age: 29", Some "29").
Proof. vm_compute. reflexivity. Qed.

(** "555-1234" has eight characters, the pattern needs nine. *)
Lemma jane_phone_at_end : search phoneRe (janeText ++ EmptyString) = None.
Proof. vm_compute. reflexivity. Qed.

Lemma jane_phone_spaced c tail :
  phoneChar c = false ->
  search phoneRe (janeText ++ String " " (String c tail)) = Some ("555-1234 ", None).
Proof.
  intros H.
  destruct c as [[] [] [] [] [] [] [] []]; vm_compute in H; try discriminate H;
    vm_compute; reflexivity.
Qed.

(** C5, as amended.  When column mapping recovered no name, age, email or
    phone and the row text starts with "Name: Jane Doe Age: 29 Phone:
    555-1234", the fallback recovers the name "Jane Doe" and the age "29"
    (29 once coerced).  The phone "555-1234" is recovered when the text goes
    on with a space and then a character that is not a digit, dash or white
    space; when the text ends right after "555-1234" no phone is recovered,
    because the phone pattern needs at least nine characters. *)
Theorem fallback_on_labelled_text (d : draft) (rest : string) :
  truthy (name d) = false ->
  truthy (age d) = false ->
  truthy (email d) = false ->
  truthy (phone d) = false ->
  let d' := deepParse d (janeText ++ rest) in
  name d' = VStr "Jane Doe" /\
  age d' = VStr "29" /\
  numberOrZero (age d') = Dec 29 0 /\
  (rest = EmptyString -> phone d' = phone d) /\
  (forall c tail, rest = String " " (String c tail) -> phoneChar c = false ->
                  phone d' = VStr "555-1234").
Proof.
  intros Hname Hage Hmail Hphone d'. subst d'. unfold deepParse.
  rewrite Hmail, Hphone, jane_has_colon, jane_name, jane_age, Hname, Hage.
  cbn [negb orb andb name age phone].
  repeat split.
  - intros ->. now rewrite jane_phone_at_end.
  - intros c tail -> Hc. now rewrite (jane_phone_spaced c tail Hc).
Qed.

Lemma fallback_on_labelled_text_witness :
  let d := deepParse (Draft VUndef VUndef VUndef VUndef VUndef)
             (janeText ++ " Location: Dhaka") in
  name d = VStr "Jane Doe" /\ age d = VStr "29" /\ phone d = VStr "555-1234".
Proof.
  destruct (fallback_on_labelled_text (Draft VUndef VUndef VUndef VUndef VUndef)
              " Location: Dhaka" eq_refl eq_refl eq_refl eq_refl)
    as (Hn & Ha & _ & _ & Hp).
  intros d. split; [exact Hn|]. split; [exact Ha|].
  apply (Hp "L"%char "ocation: Dhaka"); reflexivity.
Defined.

(** C5 as stated fails: nothing is mapped to email or phone, the row text is
    the text of the claim, and no phone is recovered. *)
Lemma fallback_phone_counterexample :
  let mapped := synonyms (rowItem profileHeaders jane) in
  email mapped = VUndef /\ phone mapped = VUndef /\
  compositeString jane = "Name: Jane Doe Age: 29 Phone: 555-1234" /\
  phone (rowDraft profileHeaders jane) = VUndef.
Proof. repeat split; reflexivity. Qed.

(** A mapped name of at most 50 characters is kept, whatever the text says. *)
Example fallback_keeps_mapped_name :
  name (deepParse (Draft (VStr "Bob") VUndef VUndef VUndef VUndef) janeText)
    = VStr "Bob".
Proof. reflexivity. Qed.

(** The labels are searched from the left: an earlier "name:" wins. *)
Example fallback_leftmost_label :
  name (deepParse (Draft VUndef VUndef VUndef VUndef VUndef)
          ("Username: jd " ++ janeText))
    = VStr "jd Name: Jane Doe".
Proof. reflexivity. Qed.

End Fallback.

(** ** Effects of image extraction *)

Section ExtractionEffects.

Lemma startsWith_app a b : Str.startsWith (a ++ b) a = true.
Proof.
  induction a as [|c a IH].
  - now destruct b.
  - change (Ascii.eqb c c && Str.startsWith (a ++ b) a = true).
    now rewrite Ascii.eqb_refl.
Qed.

Lemma startsWith_app_app a b c : Str.startsWith (a ++ (b ++ c)) (a ++ b) = true.
Proof.
  induction a as [|x a IH].
  - change (Str.startsWith (b ++ c) b = true). apply startsWith_app.
  - change (Ascii.eqb x x && Str.startsWith (a ++ (b ++ c)) (a ++ b) = true).
    now rewrite Ascii.eqb_refl.
Qed.

Variable e : env.

(** One image: the collection is untouched, files outside the photo
    directory stay, and the image map keeps holding photo URLs. *)
Lemma processImage_effects now img imageMap w w' r p :
  photoUrls imageMap ->
  processImage e now img imageMap w = (w', r) ->
  docs w' = docs w /\
  (Str.startsWith p (photoDir e) = false ->
   is_Some (files w !! p) -> is_Some (files w' !! p)) /\
  (forall imageMap', r = Ok imageMap' -> photoUrls imageMap').
Proof.
  intros Hurls. unfold processImage.
  set (row := Qfloor (tl_row img)).
  set (ext := detectExtension (extension img) (buffer img)).
  destruct (nonBrowser ext).
  { intros [= <- <-]. repeat split; auto. now intros ? [= <-]. }
  assert (Hins : photoUrls (<[row := "/uploads/candidates/" ++ fileName now row ext]> imageMap)).
  { apply map_Forall_insert_2; [eexists; reflexivity | exact Hurls]. }
  destruct (imageMap !! row) as [existingPath|] eqn:Hrow.
  - unfold bind, Fs.statSync, catch, Fs.unlinkSync, Fs.writeFileSync, ret.
    destruct (Hurls _ _ Hrow) as [name0 ->].
    destruct (files w !! (cwd e ++ "/uploads/candidates/" ++ name0)) as [old|] eqn:Hold.
    + destruct (_ <=? _)%nat.
      * intros [= <- <-]. repeat split; auto. now intros ? [= <-].
      * cbn [docs files]. rewrite Hold. cbn [docs files]. intros [= <- <-].
        cbn [docs files]. repeat split.
        -- intros Hp Hsome. apply lookup_insert_is_Some'. right.
           rewrite lookup_delete_ne; [exact Hsome|].
           intros <-. unfold photoDir in Hp.
           now rewrite startsWith_app_app in Hp.
        -- now intros ? [= <-].
    + intros [= <- <-]. repeat split; auto. discriminate.
  - unfold bind, Fs.writeFileSync, ret. intros [= <- <-]. cbn [docs files].
    repeat split.
    + intros _ Hsome. apply lookup_insert_is_Some'. now right.
    + now intros ? [= <-].
Qed.

Lemma extractImages_effects i imgs imageMap w w' r p :
  photoUrls imageMap ->
  extractImages e i imgs imageMap w = (w', r) ->
  docs w' = docs w /\
  (Str.startsWith p (photoDir e) = false ->
   is_Some (files w !! p) -> is_Some (files w' !! p)).
Proof.
  revert i imageMap w; induction imgs as [|img rest IH]; intros i imageMap w Hurls.
  - intros [= <- <-]. auto.
  - cbn [extractImages]. unfold bind.
    destruct (processImage e (imageClock e i) img imageMap w) as [w1 r1] eqn:H1.
    destruct (processImage_effects _ _ _ _ _ _ p Hurls H1) as (Hd & Hf & Hu).
    destruct r1 as [imageMap1|].
    + intros H2. destruct (IH _ _ _ (Hu _ eq_refl) H2) as (Hd2 & Hf2).
      split; [congruence | auto].
    + intros [= <- <-]. auto.
Qed.

(** Extraction returns whenever no two images share a sheet row: no size
    is looked up then. *)
Lemma extractImages_distinct_rows imgs : forall i imageMap w,
  NoDup (List.map (fun img => Qfloor (tl_row img)) imgs) ->
  (forall img, In img imgs -> imageMap !! Qfloor (tl_row img) = None) ->
  exists w' imageMap', extractImages e i imgs imageMap w = (w', Ok imageMap').
Proof.
  induction imgs as [|img rest IH]; intros i imageMap w Hnd Hfree.
  - cbn. eauto.
  - cbn [List.map] in Hnd. apply NoDup_cons in Hnd as [Hnotin Hnd].
    cbn [extractImages]. unfold bind.
    destruct (nonBrowser (detectExtension (extension img) (buffer img))) eqn:Hskip.
    + rewrite (processImage_skip e _ img imageMap w Hskip).
      apply IH; [exact Hnd | intros img' Hin; apply Hfree; now right].
    + rewrite (processImage_free_row e _ img imageMap w Hskip (Hfree img (or_introl eq_refl))).
      apply IH; [exact Hnd|]. intros img' Hin.
      rewrite lookup_insert_ne; [apply Hfree; now right|].
      intros Heq. apply Hnotin. rewrite Heq. apply list_elem_of_In.
      now apply (in_map (fun x => Qfloor (tl_row x))).
Qed.

End ExtractionEffects.

(** ** The handler as a whole *)

Section Handler.

Lemma processRow_total uid headers imageMap sheetRow now rowData t w :
  exists t' ds,
    processRow uid headers imageMap sheetRow now rowData t w
      = (World ds (files w), Ok t').
Proof.
  unfold processRow, bind, Coll.findOne, Coll.updateOne, ret.
  destruct w as [ds fs]. cbn [docs files].
  destruct rowData; [eauto|].
  destruct (invalid _); [repeat (destruct (_ || _) || destruct (_ && _)); eauto|].
  destruct (truthy (email _)); cbn [docs files]; [|eauto].
  destruct (List.find _ ds); [|eauto].
  destruct (_ && _); cbn [docs files]; eauto.
Qed.

Lemma processRows_total e uid h headers imageMap idx dataRows t w :
  exists t' ds,
    processRows e uid h headers imageMap idx dataRows t w
      = (World ds (files w), Ok t').
Proof.
  revert idx t w; induction dataRows as [|r rest IH]; intros idx t w.
  - destruct w. cbn. eauto.
  - cbn [processRows]. unfold bind.
    destruct (processRow_total uid headers imageMap (Z.of_nat (h + 1 + idx))
                (rowClock e idx) r t w) as (t1 & ds1 & ->).
    destruct (IH (S idx) t1 (World ds1 (files w))) as (t2 & ds2 & ->). eauto.
Qed.

(** Whenever the handler answers anything but a 500, the uploaded file is
    gone afterwards. *)
Lemma answered_request_is_cleaned e req f w w' r :
  file req = Some f ->
  uploadCandidates e req w = (w', r) ->
  (forall body, r <> Status500 body) ->
  files w' !! path f = None.
Proof.
  intros Hf. unfold uploadCandidates, handle, bind, readFile. rewrite Hf.
  destruct (files w !! path f), (content f) as [wb|];
    try (intros [= <- <-] H; now destruct (H "Error processing file")).
  destruct (extractImages e 0 (images wb) ∅ w) as [w1 [imageMap|]];
    [|intros [= <- <-] H; now destruct (H "Error processing file")].
  destruct (findHeader (rows wb)) as [[h headers]|].
  - destruct (processRows_total e (uid req) h headers imageMap 0
                (drop (h + 1) (rows wb)) (Tally [] []) w1) as (t & ds & ->).
    assert (Hins : exists ds' o, (if (0 <? List.length (processed t))%nat
                            then Coll.insertMany (processed t) else ret tt)
                           (World ds (files w1)) = (World ds' (files w1), o)).
    { destruct (0 <? _)%nat; [|unfold ret; eauto].
      unfold Coll.insertMany. cbn [docs files].
      destruct (Coll.insertAll _ ds) as [ds' []]; eauto. }
    destruct Hins as (ds' & o & ->). destruct o as [[]|];
      [|intros [= <- <-] H; now destruct (H "Error processing file")].
    unfold Fs.unlinkSync, ret. cbn [docs files].
    destruct (files w1 !! path f);
      [|intros [= <- <-] H; now destruct (H "Error processing file")].
    intros [= <- <-] _. cbn [files]. apply lookup_delete_eq.
  - unfold Fs.unlinkSync, ret.
    destruct (files w1 !! path f);
      [|intros [= <- <-] H; now destruct (H "Error processing file")].
    intros [= <- <-] _. cbn [files]. apply lookup_delete_eq.
Qed.

(** The abort branch once it is reached: when the uploaded workbook is
    readable, image extraction returns and none of the first 20 rows has two
    cells with a keyword, the upload is answered with status 400 and the
    headers-not-found message, the collection is exactly as before (nothing
    inserted, nothing updated) and the uploaded file no longer exists. *)
Theorem no_header_aborts e req f wb w w1 imageMap :
  file req = Some f ->
  content f = Some wb ->
  is_Some (files w !! path f) ->
  Str.startsWith (path f) (photoDir e) = false ->
  extractImages e 0 (images wb) ∅ w = (w1, Ok imageMap) ->
  (forall j r, j < 20 -> rows wb !! j = Some r ->
               ~ 2 <= matchCount (normalizedRow r)) ->
  exists w',
    uploadCandidates e req w = (w', Status400 noHeaders) /\
    docs w' = docs w /\
    files w' !! path f = None.
Proof.
  intros Hf Hwb Hsome Hdir Hext Hrows.
  destruct (extractImages_effects e 0 (images wb) ∅ w w1 _ (path f)
              (map_Forall_empty _) Hext) as (Hdocs & Hkeep).
  destruct (Hkeep Hdir Hsome) as [blob Hblob].
  exists (World (docs w1) (delete (path f) (files w1))).
  split; [|split; [exact Hdocs | apply lookup_delete_eq]].
  unfold uploadCandidates, handle, bind, readFile. rewrite Hf, Hwb.
  destruct Hsome as [b0 ->]. rewrite Hext.
  unfold findHeader. rewrite (scanHeader_none 0 20 (rows wb) Hrows).
  unfold Fs.unlinkSync, ret. now rewrite Hblob.
Qed.

Lemma no_header_aborts_witness :
  exists w',
    uploadCandidates Sample.dev (Sample.requestOf (Upload Sample.tmpPath (Some Sample.headless)))
      (Sample.uploaded [Sample.storedAlice]) = (w', Status400 noHeaders) /\
    docs w' = [Sample.storedAlice] /\
    files w' !! Sample.tmpPath = None.
Proof.
  refine (no_header_aborts Sample.dev
            (Sample.requestOf (Upload Sample.tmpPath (Some Sample.headless)))
            (Upload Sample.tmpPath (Some Sample.headless))
            Sample.headless (Sample.uploaded [Sample.storedAlice])
            (World [Sample.storedAlice]
               (<["/srv/app/uploads/candidates/photo-1700000000000-3.png"
                  := buffer Sample.pngAsJpg]> {[ Sample.tmpPath := [x50; x4b] ]}))
            {[ 3%Z := "/uploads/candidates/photo-1700000000000-3.png" ]}
            eq_refl eq_refl _ eq_refl _ _).
  - eexists. reflexivity.
  - vm_compute. reflexivity.
  - intros [|[|j]] r Hj Hr; [| |destruct j; discriminate Hr];
      injection Hr as <-; vm_compute; lia.
Defined.

End Handler.

Section Failures.

Import Sample.

Lemma get_set_ne {V} (d : Obj.obj V) (k k' : string) (v : V) :
  k' <> k -> Obj.get (Obj.set d k v) k' = Obj.get d k'.
Proof.
  intros Hk. induction d as [|[k0 v0] d IH]; cbn [Obj.get Obj.set].
  - destruct (String.eqb_spec k k'); congruence.
  - destruct (String.eqb_spec k0 k) as [->|Hne]; cbn [Obj.get].
    + destruct (String.eqb_spec k k'); congruence.
    + destruct (String.eqb_spec k0 k'); [reflexivity | exact IH].
Qed.

Lemma get_set_eq {V} (d : Obj.obj V) (k : string) (v : V) :
  Obj.get (Obj.set d k v) k = Some v.
Proof.
  induction d as [|[k0 v0] d IH]; cbn [Obj.get Obj.set].
  - now rewrite String.eqb_refl.
  - destruct (String.eqb_spec k0 k) as [->|Hne]; cbn [Obj.get].
    + now rewrite String.eqb_refl.
    + destruct (String.eqb_spec k0 k); [contradiction | exact IH].
Qed.

(** The update of the merge branch sets the photo of the record and leaves
    every other field as it was. *)
Lemma set_photo_frame (d : doc) (v : bson) (k : string) :
  k <> "photo" ->
  Obj.get (Obj.set d "photo" v) k = Obj.get d k /\
  Obj.get (Obj.set d "photo" v) "photo" = Some v.
Proof. intros Hk. split; [now apply get_set_ne | apply get_set_eq]. Qed.

(** C9, evaluated where it fails.  A file was supplied but the parsers
    reject it: the answer is a 500 and the uploaded file is still there.
    The same happens when the batch insert throws. *)
Theorem failed_upload_keeps_file :
  uploadCandidates dev (requestOf unreadable) (uploaded [])
    = (uploaded [], Status500 "Error processing file") /\
  files (uploaded []) !! tmpPath = Some [x50; x4b] /\
  (let out := uploadCandidates dev (requestOf (Upload tmpPath (Some aliceWithPhoto)))
                (uploaded [storedAlice]) in
   snd out = Status500 "Error processing file" /\
   files (fst out) !! tmpPath = Some [x50; x4b]).
Proof. repeat split; vm_compute; reflexivity. Qed.

(** C1, evaluated where it fails.  Alice is stored without a photo and the
    sheet has her row with a picture.  Her record gets the photo and keeps
    every other field, but the copy pushed on [processed] goes into the
    batch insert, which refuses her [_id]: the answer is a 500, no tally is
    reported and the uploaded file is not removed. *)
Theorem photo_merge_is_sent_to_insert :
  let photo := VStr "/uploads/candidates/photo-1700000000000-1.png" in
  let imageMap := {[ 1%Z := "/uploads/candidates/photo-1700000000000-1.png" ]} in
  let hdr := ["name"; "email"; "phone"] in
  let aliceRow := [VStr "Alice"; VStr "alice@x.com"; VStr "5551234"] in
  processRow "u1" hdr imageMap 1 1700000001000 aliceRow (Tally [] []) (uploaded [storedAlice])
    = (uploaded [Obj.set storedAlice "photo" (BPrim photo)],
       Ok (Tally [merged storedAlice photo] [])) /\
  Coll.insertAll [merged storedAlice photo] [Obj.set storedAlice "photo" (BPrim photo)]
    = ([Obj.set storedAlice "photo" (BPrim photo)], false) /\
  (let out := uploadCandidates dev (requestOf (Upload tmpPath (Some aliceWithPhoto)))
                (uploaded [storedAlice]) in
   snd out = Status500 "Error processing file" /\
   docs (fst out) = [Obj.set storedAlice "photo" (BPrim photo)] /\
   files (fst out) !! tmpPath = Some [x50; x4b]).
Proof. repeat split; vm_compute; reflexivity. Qed.

End Failures.

(** ** Two images on one row *)

Section RowConflict.

Lemma resolve_dev e name :
  production e = false ->
  resolve e (imagesDir e ++ "/" ++ name) = cwd e ++ "/uploads/candidates/" ++ name.
Proof. intros H. unfold resolve, imagesDir. rewrite H. reflexivity. Qed.

(** Outside production the second of two images of one row replaces the
    first exactly when its buffer is longer; the file of the loser is
    removed, or was never written. *)
Lemma larger_image_wins_dev e i a b imageMap w :
  let row := Qfloor (tl_row a) in
  let extA := detectExtension (extension a) (buffer a) in
  let extB := detectExtension (extension b) (buffer b) in
  let nameA := fileName (imageClock e i) row extA in
  let nameB := fileName (imageClock e (S i)) row extB in
  let pathA := cwd e ++ "/uploads/candidates/" ++ nameA in
  let pathB := cwd e ++ "/uploads/candidates/" ++ nameB in
  production e = false ->
  Qfloor (tl_row b) = row ->
  nonBrowser extA = false ->
  nonBrowser extB = false ->
  imageMap !! row = None ->
  extractImages e i [a; b] imageMap w =
    if (List.length (buffer b) <=? List.length (buffer a))%nat
    then (World (docs w) (<[pathA := buffer a]> (files w)),
          Ok (<[row := "/uploads/candidates/" ++ nameA]> imageMap))
    else (World (docs w) (<[pathB := buffer b]> (delete pathA (<[pathA := buffer a]> (files w)))),
          Ok (<[row := "/uploads/candidates/" ++ nameB]>
                (<[row := "/uploads/candidates/" ++ nameA]> imageMap))).
Proof.
  intros row extA extB nameA nameB pathA pathB Hdev Hrow HA HB Hfree.
  cbn [extractImages]. unfold bind at 1.
  rewrite (processImage_free_row e (imageClock e i) a imageMap w HA Hfree).
  fold row extA nameA. rewrite (resolve_dev e nameA Hdev). fold pathA.
  unfold bind at 1. unfold processImage. rewrite Hrow. fold extB. rewrite HB.
  rewrite lookup_insert_eq. fold nameB. rewrite (resolve_dev e nameB Hdev). fold pathB.
  unfold bind, Fs.statSync, catch, Fs.unlinkSync, Fs.writeFileSync, ret.
  cbn [docs files]. change (cwd e ++ "/uploads/candidates/" ++ nameA) with pathA.
  rewrite lookup_insert_eq.
  destruct (_ <=? _)%nat; [reflexivity|].
  cbn [docs files]. now rewrite lookup_insert_eq.
Qed.

Import Sample.

Example larger_image_wins_dev_500_2000 :
  let out := extractImages dev 0 [small500; big2000] ∅ emptyWorld in
  files (fst out) =
    {[ "/srv/app/uploads/candidates/photo-1700000000001-2.png" := buffer big2000 ]} /\
  snd out = Ok {[ 2%Z := "/uploads/candidates/photo-1700000000001-2.png" ]}.
Proof. split; vm_compute; reflexivity. Qed.

(** C7, evaluated where it fails.  In production the first picture is
    written under /tmp/uploads/candidates, but its size is looked up under
    the working directory: [statSync] throws on the second picture of the
    row, the upload is answered with a 500, and the only photo left is the
    500-byte one. *)
Theorem same_row_images_in_production :
  extractImages prod 0 [small500; big2000] ∅ emptyWorld
    = (World [] {[ "/tmp/uploads/candidates/photo-1700000000000-2.png" := buffer small500 ]},
       Throw) /\
  List.length (buffer small500) = 500 /\
  List.length (buffer big2000) = 2000 /\
  snd (uploadCandidates prod
         (requestOf (Upload "/tmp/uploads/candidates-1700000000000-list.xlsx"
                       (Some twoPictures)))
         (World [] {[ "/tmp/uploads/candidates-1700000000000-list.xlsx" := [x50; x4b] ]}))
    = Status500 "Error processing file".
Proof. repeat split; vm_compute; reflexivity. Qed.

(** C4, evaluated where it fails.  No row of the workbook holds a keyword,
    so the header scan would abort with a 400 and unlink the upload; but
    image extraction runs before the scan, the workbook has two pictures on
    one row and the server runs in production.  [statSync] throws on the
    second picture (the defect shown for C7), the catch block answers 500
    and leaves the uploaded file where it is (the defect shown for C9).
    Outside production the same workbook is answered 400 and its file is
    removed. *)
Theorem headless_upload_fails_before_the_scan :
  List.map (fun r => (specKeywordCount (normalizedRow r), matchCount (normalizedRow r)))
    (rows HeaderSample.headlessTwoPictures)
    = [(0, 0); (0, 0)] /\
  findHeader (rows HeaderSample.headlessTwoPictures) = None /\
  (let out := uploadCandidates Sample.prod
                (Sample.requestOf
                   (Upload HeaderSample.prodPath (Some HeaderSample.headlessTwoPictures)))
                (HeaderSample.uploadedProd [Sample.storedAlice]) in
   snd out = Status500 "Error processing file" /\
   docs (fst out) = [Sample.storedAlice] /\
   files (fst out) !! HeaderSample.prodPath = Some [x50; x4b]) /\
  (let out := uploadCandidates Sample.dev
                (Sample.requestOf
                   (Upload Sample.tmpPath (Some HeaderSample.headlessTwoPictures)))
                (Sample.uploaded [Sample.storedAlice]) in
   snd out = Status400 noHeaders /\
   docs (fst out) = [Sample.storedAlice] /\
   files (fst out) !! Sample.tmpPath = None).
Proof. repeat split; vm_compute; reflexivity. Qed.

End RowConflict.

(** ** Uploading a workbook again *)

Section Collection.

Lemma num_eqb_refl n : num_eqb n n = true.
Proof.
  destruct n as [| [] | m x]; cbn; try reflexivity.
  rewrite Z.min_id, Z.sub_diag. apply Z.eqb_refl.
Qed.

Lemma jsval_eqb_refl v : jsval_eqb v v = true.
Proof.
  destruct v as [| | [] | n | s]; cbn; try reflexivity;
    [apply num_eqb_refl | apply String.eqb_refl].
Qed.

Lemma bson_eqb_refl b : bson_eqb b b = true.
Proof.
  destruct b; cbn; [apply jsval_eqb_refl | reflexivity | apply Z.eqb_refl | apply Nat.eqb_refl].
Qed.

Lemma has_id_set_photo id d v :
  Coll.has_id id (Obj.set d "photo" v) = Coll.has_id id d.
Proof. unfold Coll.has_id. now rewrite get_set_ne. Qed.

Lemma keyed_set_photo d v : keyed d -> keyed (Obj.set d "photo" v).
Proof. unfold keyed. now rewrite get_set_ne. Qed.

Lemma set_first_ids email v ds id :
  List.existsb (Coll.has_id id) (Coll.set_first email "photo" v ds)
    = List.existsb (Coll.has_id id) ds.
Proof.
  induction ds as [|d ds IH]; cbn; [reflexivity|].
  destruct (Coll.matches "email" email d); cbn.
  - now rewrite has_id_set_photo.
  - now rewrite IH.
Qed.

Lemma set_first_keyed email v ds :
  Forall keyed ds -> Forall keyed (Coll.set_first email "photo" v ds).
Proof.
  induction 1 as [|d ds Hd Hds IH]; cbn; [constructor|].
  destruct (Coll.matches "email" email d); constructor; auto using keyed_set_photo.
Qed.

(** A record found in a keyed collection clashes with it once copied. *)
Lemma found_clashes ds p ex photo :
  Forall keyed ds ->
  List.find p ds = Some ex ->
  clashes ds (merged ex photo).
Proof.
  intros Hk Hfind. apply find_some in Hfind as [Hin _].
  rewrite Forall_forall in Hk. destruct (Hk ex) as (id & Hid & Hkey).
  { now apply list_elem_of_In. }
  exists id. unfold merged. rewrite !get_set_ne by discriminate.
  repeat split; auto. apply existsb_exists. exists ex. split; [exact Hin|].
  unfold Coll.has_id. rewrite Hid. apply bson_eqb_refl.
Qed.

Lemma insertOne_grows d ds ds' :
  Coll.insertOne d ds = Some ds' -> exists n, ds' = (ds ++ [n])%list.
Proof.
  unfold Coll.insertOne.
  destruct (Obj.get d "_id") as [[[]| | |]|];
    try destruct (List.existsb _ ds); intros [= <-]; eauto.
Qed.

(** The batch insert refuses a batch that holds a clashing document. *)
Lemma insertAll_refuses new ds ds' :
  Exists (clashes ds) new -> Coll.insertAll new ds <> (ds', true).
Proof.
  revert ds; induction new as [|d new IH]; intros ds Hex; [inversion Hex|].
  cbn [Coll.insertAll].
  destruct (Coll.insertOne d ds) as [ds1|] eqn:H1; [|discriminate].
  apply IH. apply Exists_cons in Hex as [Hd|Hnew].
  - exfalso. destruct Hd as (id & Hid & Hkey & Hin).
    unfold Coll.insertOne in H1. rewrite Hid, Hin in H1.
    destruct id as [[]| | |]; discriminate.
  - destruct (insertOne_grows _ _ _ H1) as [n ->].
    eapply Exists_impl; [exact Hnew|].
    intros c (id & Hid & Hkey & Hin). exists id. repeat split; auto.
    rewrite existsb_app, Hin. reflexivity.
Qed.

(** A batch of plain documents is appended, every document under a fresh
    ObjectId. *)
Lemma insertAll_plain new ds :
  Forall plain new ->
  exists added,
    Coll.insertAll new ds = ((ds ++ added)%list, true) /\
    Forall2 (fun c n => exists k, n = ("_id", BOid k) :: c) new added.
Proof.
  revert ds; induction new as [|d new IH]; intros ds Hall.
  - exists []. rewrite app_nil_r. split; [reflexivity | constructor].
  - apply Forall_cons_1 in Hall as [Hd Hnew]. cbn [Coll.insertAll].
    unfold Coll.insertOne. unfold plain in Hd. rewrite Hd.
    destruct (IH (ds ++ [("_id", BOid (Coll.fresh_oid ds)) :: d])%list Hnew)
      as (added & -> & H2).
    exists ((("_id", BOid (Coll.fresh_oid ds)) :: d) :: added).
    rewrite <- app_assoc. split; [reflexivity|]. constructor; eauto.
Qed.

End Collection.

Section RowLoop.

Variables (e : env) (uid : string) (h : nat) (headers : list string)
          (imageMap : gmap Z string).

(** The four ways a row can go. *)
Lemma step_cases sheetRow now rowData t w w1 t1 :
  processRow uid headers imageMap sheetRow now rowData t w = (w1, Ok t1) ->
  let d := rowDraft headers rowData in
  let lookup := List.find (Coll.matches "email" (email d)) (docs w) in
  (invalid d = true /\ w1 = w /\ processed t1 = processed t /\
   exists E0, errors t1 = (errors t ++ E0)%list) \/
  (invalid d = false /\ truthy (email d) = true /\ lookup <> None /\
   w1 = w /\ t1 = push_error t (existsError d)) \/
  (invalid d = false /\
   (exists ex photo, lookup = Some ex /\
      docs w1 = Coll.set_first (email d) "photo" (BPrim photo) (docs w) /\
      t1 = push_processed t (merged ex photo))) \/
  (invalid d = false /\ (truthy (email d) = false \/ lookup = None) /\
   w1 = w /\
   exists item photo,
     t1 = push_processed t (candidate uid now item d photo)).
Proof.
  intros Hstep d lookup.
  destruct rowData as [|c cells].
  { destruct (empty_row_has_no_name headers) as (Hn & _).
    left. injection Hstep as <- <-. repeat split.
    - unfold invalid. subst d. now rewrite Hn.
    - exists []. now rewrite app_nil_r. }
  unfold processRow in Hstep. fold d in Hstep.
  destruct (invalid d) eqn:Hinv.
  - left. split; [reflexivity|].
    destruct (_ || _); [|destruct (_ && _)]; injection Hstep as <- <-;
      repeat split; try (exists []; now rewrite app_nil_r).
    eexists. reflexivity.
  - right. unfold bind, Coll.findOne, Coll.updateOne, ret in Hstep.
    destruct (truthy (email d)) eqn:Hmail.
    + fold lookup in Hstep. destruct lookup as [ex|] eqn:Hlook.
      * destruct (_ && _).
        -- right. left. split; [reflexivity|]. injection Hstep as <- <-.
           exists ex, (photoAt imageMap sheetRow). auto.
        -- left. injection Hstep as <- <-. repeat split; congruence.
      * right. right. injection Hstep as <- <-. repeat split; eauto.
    + right. right. injection Hstep as <- <-. repeat split; eauto.
Qed.

Lemma candidate_is_plain now item d photo : plain (candidate uid now item d photo).
Proof. reflexivity. Qed.

Lemma clash_is_not_plain ds c : clashes ds c -> ~ plain c.
Proof. intros (id & Hid & _) Hp. unfold plain in Hp. congruence. Qed.

(** What the loop over the data rows leaves behind: it only appends to
    [processed] and [errors], stored documents keep their [_id]s, and
    either some row took the merge branch, which leaves a clashing copy in
    [processed], or the collection is untouched and every row was handled
    against it. *)
Lemma processRows_spec dataRows : forall idx t w t' w',
  Forall keyed (docs w) ->
  processRows e uid h headers imageMap idx dataRows t w = (w', Ok t') ->
  exists P E,
    processed t' = (processed t ++ P)%list /\
    errors t' = (errors t ++ E)%list /\
    Forall keyed (docs w') /\
    (forall id, List.existsb (Coll.has_id id) (docs w')
                = List.existsb (Coll.has_id id) (docs w)) /\
    (Forall plain P \/ Exists (clashes (docs w)) P) /\
    (Forall plain P -> docs w' = docs w /\ loop_facts headers (docs w) dataRows P E).
Proof.
  induction dataRows as [|r rest IH]; intros idx t w t' w' Hkeyed Hrun.
  - injection Hrun as <- <-. exists [], []. rewrite !app_nil_r.
    repeat split; auto; try (intros ? []).
  - cbn [processRows] in Hrun. unfold bind in Hrun.
    destruct (processRow_total uid headers imageMap (Z.of_nat (h + 1 + idx))
                (rowClock e idx) r t w) as (t1 & ds1 & Hstep).
    rewrite Hstep in Hrun.
    pose proof (step_cases _ _ _ _ _ _ _ Hstep) as Hcase. cbv zeta in Hcase.
    set (d := rowDraft headers r) in *.
    destruct Hcase as [(Hinv & Hw & Hp & E0 & He)
                      |[(Hinv & Hmail & Hlook & Hw & Ht)
                      |[(Hinv & ex & photo & Hlook & Hw & Ht)
                       |(Hinv & Hfree & Hw & item & photo & Ht)]]].
    + (* skipped as invalid *)
      rewrite Hw in Hrun. destruct (IH _ _ _ _ _ Hkeyed Hrun)
        as (P & E & HP & HE & Hk' & Hids & Hdis & Hfacts).
      exists P, (E0 ++ E)%list. rewrite HP, HE, Hp, He, <- app_assoc.
      do 5 (split; [auto; fail|]). intros Hall.
      destruct (Hfacts Hall) as (Hdocs & [F1 F2 F3]). split; [exact Hdocs|]. constructor.
      * intros r' [<-|Hin]; [cbv zeta; fold d; intros; congruence|].
        intros; apply in_or_app; right; now apply F1.
      * intros r' [<-|Hin]; [cbv zeta; fold d; intros; congruence | now apply F2].
      * intros c Hc. destruct (F3 c Hc) as (r' & Hin & Hr').
        exists r'. split; [now right | exact Hr'].
    + (* reported as a duplicate *)
      rewrite Hw in Hrun. destruct (IH _ _ _ _ _ Hkeyed Hrun)
        as (P & E & HP & HE & Hk' & Hids & Hdis & Hfacts).
      exists P, (existsError d :: E). rewrite HP, HE, Ht.
      cbn [processed errors push_error]. rewrite <- app_assoc.
      do 5 (split; [auto; fail|]). intros Hall.
      destruct (Hfacts Hall) as (Hdocs & [F1 F2 F3]). split; [exact Hdocs|]. constructor.
      * intros r' [<-|Hin]; [now left|]. intros; right; now apply F1.
      * intros r' [<-|Hin]; [|now apply F2].
        cbv zeta. fold d. intros _ [Hm|Hl]; congruence.
      * intros c Hc. destruct (F3 c Hc) as (r' & Hin & Hr').
        exists r'. split; [now right | exact Hr'].
    + (* merged into the stored record *)
      assert (Hk1 : Forall keyed (docs (World ds1 (files w)))).
      { rewrite Hw. now apply set_first_keyed. }
      destruct (IH _ _ _ _ _ Hk1 Hrun)
        as (P & E & HP & HE & Hk' & Hids & Hdis & Hfacts).
      pose proof (found_clashes _ _ _ photo Hkeyed Hlook) as Hclash.
      exists (merged ex photo :: P), E. rewrite HP, HE, Ht.
      cbn [processed errors push_processed]. rewrite <- app_assoc.
      do 3 (split; [auto; fail|]).
      split; [intros id; rewrite Hids, Hw; apply set_first_ids|].
      split; [right; now left|].
      intros Hall. apply Forall_cons_1 in Hall as [Hplain _].
      now destruct (clash_is_not_plain _ _ Hclash).
    + (* staged as a new candidate *)
      rewrite Hw in Hrun. destruct (IH _ _ _ _ _ Hkeyed Hrun)
        as (P & E & HP & HE & Hk' & Hids & Hdis & Hfacts).
      exists (candidate uid (rowClock e idx) item d photo :: P), E.
      rewrite HP, HE, Ht. cbn [processed errors push_processed].
      rewrite <- app_assoc.
      do 4 (split; [auto; fail|]).
      split.
      { destruct Hdis as [Hall|Hex]; [left | right; now right].
        constructor; [apply candidate_is_plain | exact Hall]. }
      intros Hall. apply Forall_cons_1 in Hall as [_ Hall].
      destruct (Hfacts Hall) as (Hdocs & [F1 F2 F3]). split; [exact Hdocs|]. constructor.
      * intros r' [<-|Hin]; [|now apply F1].
        cbv zeta. fold d. intros _ Hm Hl. destruct Hfree; congruence.
      * intros r' [<-|Hin].
        -- cbv zeta. fold d. intros _ _. eexists. split; [now left|].
           repeat split; reflexivity.
        -- cbv zeta. intros Hi Hl. destruct (F2 r' Hin Hi Hl) as (c & Hc & Hce).
           exists c. split; [now right | exact Hce].
      * intros c [<-|Hc].
        -- exists r. split; [now left|]. cbv zeta. fold d. repeat split; auto.
        -- destruct (F3 c Hc) as (r' & Hin & Hr').
           exists r'. split; [now right | exact Hr'].
Qed.

End RowLoop.

Section Reupload.

Lemma Forall2_in_l {A B} (R : A -> B -> Prop) xs ys x :
  Forall2 R xs ys -> In x xs -> exists y, In y ys /\ R x y.
Proof.
  induction 1 as [|a b xs ys Hab _ IH]; intros Hin; [destruct Hin|].
  destruct Hin as [<-|Hin]; [exists b; split; [now left | exact Hab]|].
  destruct (IH Hin) as (y & Hy & Hxy). exists y. split; [now right | exact Hxy].
Qed.

Lemma Forall2_in_r {A B} (R : A -> B -> Prop) xs ys y :
  Forall2 R xs ys -> In y ys -> exists x, In x xs /\ R x y.
Proof.
  induction 1 as [|a b xs ys Hab _ IH]; intros Hin; [destruct Hin|].
  destruct Hin as [<-|Hin]; [exists a; split; [now left | exact Hab]|].
  destruct (IH Hin) as (x & Hx & Hxy). exists x. split; [now right | exact Hxy].
Qed.

Lemma find_app_found {A} (p : A -> bool) xs ys :
  List.find p xs <> None -> List.find p (xs ++ ys) <> None.
Proof.
  induction xs as [|x xs IH]; cbn; [congruence|].
  destruct (p x); [discriminate | exact IH].
Qed.

Lemma find_in_found {A} (p : A -> bool) xs x :
  In x xs -> p x = true -> List.find p xs <> None.
Proof.
  intros Hin Hp Hnone. pose proof (find_none p xs Hnone x Hin). congruence.
Qed.

(** What a 200 answer tells about the run. *)
Lemma upload_ok_inv e req f wb w w' m a errs :
  file req = Some f ->
  content f = Some wb ->
  uploadCandidates e req w = (w', Json200 m a errs) ->
  exists w1 imageMap h headers t wl,
    extractImages e 0 (images wb) ∅ w = (w1, Ok imageMap) /\
    findHeader (rows wb) = Some (h, headers) /\
    processRows e (uid req) h headers imageMap 0 (drop (h + 1) (rows wb))
      (Tally [] []) w1 = (wl, Ok t) /\
    Coll.insertAll (processed t) (docs wl) = (docs w', true) /\
    a = List.length (processed t) /\
    errs = errors t.
Proof.
  intros Hf Hwb. unfold uploadCandidates, handle, bind, readFile. rewrite Hf, Hwb.
  destruct (files w !! path f); [|discriminate].
  destruct (extractImages e 0 (images wb) ∅ w) as [w1 [imageMap|]]; [|discriminate].
  destruct (findHeader (rows wb)) as [[h headers]|].
  - destruct (processRows_total e (uid req) h headers imageMap 0
                (drop (h + 1) (rows wb)) (Tally [] []) w1) as (t & ds & Hloop).
    rewrite Hloop. intros Hrun.
    exists w1, imageMap, h, headers, t, (World ds (files w1)).
    do 2 (split; [reflexivity|]). split; [exact Hloop|]. cbn [docs].
    destruct (processed t) as [|c cs] eqn:Hp.
    + cbn in Hrun. unfold Fs.unlinkSync, ret in Hrun. cbn [docs files] in Hrun.
      destruct (files w1 !! path f); [|discriminate].
      injection Hrun as <- _ <- <-. auto.
    + cbn [List.length Nat.ltb Nat.leb] in Hrun. unfold Coll.insertMany in Hrun.
      cbn [docs files] in Hrun.
      destruct (Coll.insertAll (c :: cs) ds) as [ds' []]; [|discriminate].
      unfold Fs.unlinkSync, ret in Hrun. cbn [docs files] in Hrun.
      destruct (files w1 !! path f); [|discriminate].
      injection Hrun as <- _ <- <-. auto.
  - unfold Fs.unlinkSync, ret. destruct (files w1 !! path f); discriminate.
Qed.

(** After a 200, no row took the merge branch: the loop left the collection
    alone and the batch was appended under fresh [_id]s. *)
Lemma upload_ok_facts e req f wb w w' m a errs :
  file req = Some f ->
  content f = Some wb ->
  Forall keyed (docs w) ->
  uploadCandidates e req w = (w', Json200 m a errs) ->
  exists h headers P added,
    findHeader (rows wb) = Some (h, headers) /\
    loop_facts headers (docs w) (drop (h + 1) (rows wb)) P errs /\
    docs w' = (docs w ++ added)%list /\
    a = List.length added /\
    Forall2 (fun c n => exists k, n = ("_id", BOid k) :: c) P added.
Proof.
  intros Hf Hwb Hkeyed Hrun.
  destruct (upload_ok_inv _ _ _ _ _ _ _ _ _ Hf Hwb Hrun)
    as (w1 & imageMap & h & headers & t & wl & Hext & Hhdr & Hloop & Hins & -> & ->).
  destruct (extractImages_effects e 0 (images wb) ∅ w w1 _ EmptyString
              (map_Forall_empty _) Hext) as (Hdocs & _).
  rewrite <- Hdocs in Hkeyed.
  destruct (processRows_spec e (uid req) h headers imageMap _ _ _ _ _ _ Hkeyed Hloop)
    as (P & E & HP & HE & _ & Hids & Hdis & Hfacts).
  cbn [processed errors app] in HP, HE. rewrite HP in Hins.
  destruct Hdis as [Hall|Hclash].
  - destruct (Hfacts Hall) as (Hsame & Hlf). rewrite Hsame, Hdocs in *.
    destruct (insertAll_plain P (docs w) Hall) as (added & Hadd & Hrel).
    rewrite Hadd in Hins. injection Hins as Hw'.
    exists h, headers, P, added. rewrite HE, HP, <- Hw'.
    split; [exact Hhdr|]. split; [exact Hlf|]. split; [reflexivity|].
    split; [now apply Forall2_length in Hrel | exact Hrel].
  - exfalso. apply (insertAll_refuses P (docs wl) (docs w')); [|exact Hins].
    eapply Exists_impl; [exact Hclash|].
    intros c (id & Hid & Hkey & Hin). exists id. repeat split; auto.
    now rewrite Hids.
Qed.

Lemma appended_are_keyed ds P added :
  Forall keyed ds ->
  Forall2 (fun c n => exists k : nat, n = ("_id", BOid k) :: c) P added ->
  Forall keyed (ds ++ added).
Proof.
  intros Hds Hrel. apply Forall_app. split; [exact Hds|].
  apply Forall_forall. intros n Hn. apply list_elem_of_In in Hn.
  destruct (Forall2_in_r _ _ _ _ Hrel Hn) as (c & _ & k & ->).
  exists (BOid k). split; reflexivity.
Qed.

(** C2, as amended.  When the same workbook is uploaded twice and both
    uploads are answered with a 200, the second pass reports "Skipped:
    Email <email> already exists" for every row that passes validation with
    an email and inserts no document that has an email, hence none at all
    when every accepted row has an email; every row that passes validation
    without an email (on its phone alone) is inserted again. *)
Theorem reupload_skips_known_emails
    e1 e2 req1 req2 f1 f2 wb w0 w1 w1' w2 m1 a1 errs1 m2 a2 errs2 :
  file req1 = Some f1 -> content f1 = Some wb ->
  file req2 = Some f2 -> content f2 = Some wb ->
  Forall keyed (docs w0) ->
  uploadCandidates e1 req1 w0 = (w1, Json200 m1 a1 errs1) ->
  docs w1' = docs w1 ->
  uploadCandidates e2 req2 w1' = (w2, Json200 m2 a2 errs2) ->
  exists h headers added,
    findHeader (rows wb) = Some (h, headers) /\
    docs w2 = (docs w1 ++ added)%list /\
    a2 = List.length added /\
    Forall (fun n => field_truthy n "email" = false) added /\
    (forall r, In r (drop (h + 1) (rows wb)) ->
       let d := rowDraft headers r in
       invalid d = false -> truthy (email d) = true ->
       In (existsError d) errs2) /\
    (forall r, In r (drop (h + 1) (rows wb)) ->
       let d := rowDraft headers r in
       invalid d = false -> truthy (email d) = false ->
       exists n, In n added /\
         Obj.get n "name" = Some (BPrim (name d)) /\
         Obj.get n "phone" = Some (BPrim (VStr (toString (phone d))))) /\
    ((forall r, In r (drop (h + 1) (rows wb)) ->
        let d := rowDraft headers r in
        invalid d = false -> truthy (email d) = true) ->
     a2 = 0 /\ docs w2 = docs w1).
Proof.
  intros Hf1 Hwb1 Hf2 Hwb2 Hkeyed Hrun1 Hsame Hrun2.
  destruct (upload_ok_facts _ _ _ _ _ _ _ _ _ Hf1 Hwb1 Hkeyed Hrun1)
    as (h & headers & P1 & added1 & Hhdr & [_ U1 _] & Hdocs1 & _ & Hrel1).
  assert (Hkeyed1 : Forall keyed (docs w1')).
  { rewrite Hsame, Hdocs1. eapply appended_are_keyed; eauto. }
  destruct (upload_ok_facts _ _ _ _ _ _ _ _ _ Hf2 Hwb2 Hkeyed1 Hrun2)
    as (h' & headers' & P2 & added2 & Hhdr' & [K2 U2 O2] & Hdocs2 & Ha2 & Hrel2).
  rewrite Hhdr in Hhdr'. injection Hhdr' as <- <-.
  (* every accepted email of the sheet is stored after the first pass *)
  assert (Hknown : forall r, In r (drop (h + 1) (rows wb)) ->
            let d := rowDraft headers r in
            invalid d = false -> truthy (email d) = true ->
            List.find (Coll.matches "email" (email d)) (docs w1') <> None).
  { intros r Hr d Hinv Hmail. rewrite Hsame, Hdocs1.
    destruct (List.find (Coll.matches "email" (email d)) (docs w0)) eqn:Hfind.
    - apply find_app_found. congruence.
    - destruct (U1 r Hr Hinv (or_intror Hfind)) as (c & Hc & _ & Hce & _).
      destruct (Forall2_in_l _ _ _ _ Hrel1 Hc) as (n & Hn & k & ->).
      apply (find_in_found _ _ (("_id", BOid k) :: c)).
      + apply in_or_app. now right.
      + unfold Coll.matches. cbn [Obj.get]. change ("_id" =? "email")%string with false.
        cbv iota. rewrite Hce. apply bson_eqb_refl. }
  exists h, headers, added2. split; [exact Hhdr|].
  split; [now rewrite Hdocs2, Hsame|]. split; [exact Ha2|]. split; [|split; [|split]].
  - apply Forall_forall. intros n Hn. apply list_elem_of_In in Hn.
    destruct (Forall2_in_r _ _ _ _ Hrel2 Hn) as (c & Hc & k & ->).
    destruct (O2 c Hc) as (r & Hr & Hinv & Hce & Hfree).
    unfold field_truthy. cbn [Obj.get]. change ("_id" =? "email")%string with false.
    cbv iota. rewrite Hce.
    destruct Hfree as [Hfalse|Hnone]; [exact Hfalse|].
    destruct (truthy (email (rowDraft headers r))) eqn:Hmail; [|reflexivity].
    now destruct (Hknown r Hr Hinv Hmail).
  - intros r Hr d Hinv Hmail. apply (K2 r Hr Hinv Hmail). now apply Hknown.
  - intros r Hr d Hinv Hmail.
    destruct (U2 r Hr Hinv (or_introl Hmail)) as (c & Hc & Hname & _ & Hphone).
    destruct (Forall2_in_l _ _ _ _ Hrel2 Hc) as (n & Hn & k & ->).
    exists (("_id", BOid k) :: c). split; [exact Hn|]. split; assumption.
  - intros Hall.
    assert (HP2 : P2 = []).
    { destruct P2 as [|c P2]; [reflexivity|]. exfalso.
      destruct (O2 c (or_introl eq_refl)) as (r & Hr & Hinv & _ & Hfree).
      pose proof (Hall r Hr Hinv) as Hmail.
      destruct Hfree as [Hfalse|Hnone]; [congruence|].
      now destruct (Hknown r Hr Hinv Hmail). }
    subst P2. inversion Hrel2; subst added2.
    rewrite Hdocs2, Hsame, app_nil_r. split; [exact Ha2 | reflexivity].
Qed.

End Reupload.

Lemma reupload_skips_known_emails_witness :
  snd Sample.secondPass
    = Json200 "File processed successfully" 1
        ["Skipped: Email alice@x.com already exists"] /\
  exists added,
    docs (fst Sample.secondPass) = (docs (fst Sample.firstPass) ++ added)%list /\
    Forall (fun n => field_truthy n "email" = false) added /\
    exists n, In n added /\ Obj.get n "name" = Some (BPrim (VStr "Bob")).
Proof.
  split; [vm_compute; reflexivity|].
  destruct (reupload_skips_known_emails Sample.dev Sample.dev
              (Sample.requestOf (Upload Sample.tmpPath (Some Sample.aliceAndBob)))
              (Sample.requestOf (Upload Sample.tmpPath (Some Sample.aliceAndBob)))
              (Upload Sample.tmpPath (Some Sample.aliceAndBob))
              (Upload Sample.tmpPath (Some Sample.aliceAndBob))
              Sample.aliceAndBob (Sample.uploaded [])
              (fst Sample.firstPass) (Sample.uploaded (docs (fst Sample.firstPass)))
              (fst Sample.secondPass)
              "File processed successfully" 2 []
              "File processed successfully" 1
              ["Skipped: Email alice@x.com already exists"]
              eq_refl eq_refl eq_refl eq_refl)
    as (h & headers & added & Hhdr & Hdocs & _ & Hnone & _ & Hagain & _).
  - constructor.
  - vm_compute. reflexivity.
  - reflexivity.
  - vm_compute. reflexivity.
  - exists added. split; [exact Hdocs|]. split; [exact Hnone|].
    injection Hhdr as <- <-.
    destruct (Hagain [VStr "Bob"; VUndef; VStr "5551234567"]) as (n & Hn & Hname & _);
      [right; left; reflexivity | reflexivity | reflexivity |].
    exists n. split; [exact Hn | exact Hname].
Defined.

(** Two rows with one email, the picture on the second: both are inserted
    by the first upload, and the second upload meets the first of them
    without photo, takes the merge branch and ends in a 500. *)
Example reupload_of_twins_throws :
  let req := Sample.requestOf (Upload Sample.tmpPath (Some Sample.twins)) in
  let out1 := uploadCandidates Sample.dev req (Sample.uploaded []) in
  let out2 := uploadCandidates Sample.dev req (Sample.uploaded (docs (fst out1))) in
  snd out1 = Json200 "File processed successfully" 2 [] /\
  snd out2 = Status500 "Error processing file".
Proof. split; vm_compute; reflexivity. Qed.

(** C2 as stated fails: Bob is accepted on his phone alone, and the second
    upload of the same workbook inserts him once more. *)
Lemma reupload_inserts_again_counterexample :
  let req := Sample.requestOf (Upload Sample.tmpPath (Some Sample.bobOnly)) in
  let out1 := uploadCandidates Sample.dev req (Sample.uploaded []) in
  let out2 := uploadCandidates Sample.dev req (Sample.uploaded (docs (fst out1))) in
  snd out1 = Json200 "File processed successfully" 1 [] /\
  snd out2 = Json200 "File processed successfully" 1 [] /\
  List.length (docs (fst out1)) = 1 /\
  List.length (docs (fst out2)) = 2.
Proof. repeat split; vm_compute; reflexivity. Qed.

(** * Further properties of the upload handler *)

Section FieldMapping.

Implicit Types (headers : list string) (rowData : row) (item : Obj.obj jsval).

Lemma isEmpty_false_iff s : Str.isEmpty s = false <-> s <> EmptyString.
Proof. destruct s; cbn; split; congruence. Qed.

Lemma or_left (a b : jsval) : truthy a = true -> a ||| b = a.
Proof. intros H. unfold JS.or. now rewrite H. Qed.

(** Cells in columns of other names, and empty cells, leave a field alone. *)
Lemma mapCells_untouched headers : forall rowData item h,
  (forall j c, headers !! j = Some h -> rowData !! j = Some c -> c = VUndef) ->
  Obj.get (mapCells headers rowData item) h = Obj.get item h.
Proof.
  induction headers as [|h0 hs IH]; intros [|c cells] item h Hholes; try reflexivity.
  cbn [mapCells]. rewrite IH.
  - destruct c; try reflexivity;
      (destruct (Str.isEmpty h0) eqn:He; [reflexivity|];
       destruct (String.eqb_spec h0 h) as [->|Hne];
       [discriminate (Hholes 0 _ eq_refl eq_refl) | now apply get_set_ne]).
  - intros j c' Hj Hc'. apply (Hholes (S j) c' Hj Hc').
Qed.

Lemma mapCells_reads headers : forall rowData item i h v,
  headers !! i = Some h ->
  h <> EmptyString ->
  rowData !! i = Some v ->
  v <> VUndef ->
  (forall j c, i < j -> headers !! j = Some h -> rowData !! j = Some c -> c = VUndef) ->
  Obj.get (mapCells headers rowData item) h = Some v.
Proof.
  induction headers as [|h0 hs IH]; intros [|c cells] item i h v Hh Hne Hv Hv' Hlater;
    try (destruct i; discriminate).
  destruct i as [|i]; cbn in Hh, Hv.
  - injection Hh as ->. injection Hv as ->. cbn [mapCells].
    rewrite mapCells_untouched.
    + apply isEmpty_false_iff in Hne. rewrite Hne.
      destruct v; try congruence; apply get_set_eq.
    + intros j c' Hj Hc. apply (Hlater (S j) c'); [lia | exact Hj | exact Hc].
  - cbn [mapCells]. apply (IH cells _ i h v Hh Hne Hv Hv').
    intros j c' Hij Hj Hc. apply (Hlater (S j) c'); [lia | exact Hj | exact Hc].
Qed.

(** The fallback keeps what mapping found. *)
Lemma deepParse_keeps_contacts d cs :
  (truthy (email d) = true -> email (deepParse d cs) = email d) /\
  (truthy (phone d) = true -> phone (deepParse d cs) = phone d).
Proof.
  unfold deepParse.
  destruct (_ && Str.includes cs ":"); [|tauto]. cbn [email phone]. split; intros ->.
  - now destruct (search emailRe cs) as [[? ?]|].
  - now destruct (search phoneRe cs) as [[? ?]|].
Qed.

(** X1.  The cell of a row that stands under a header is the value of that
    field, provided the cell is not empty and no column further right with
    the same normalized header has a non-empty cell in this row (the
    rightmost non-empty cell wins).  Under the headers "email" and "phone" a
    truthy cell is the email and the phone of the row's draft, also after the
    fallback. *)
Theorem column_cell_is_read headers rowData i h v :
  headers !! i = Some h ->
  h <> EmptyString ->
  rowData !! i = Some v ->
  v <> VUndef ->
  (forall j c, i < j -> headers !! j = Some h -> rowData !! j = Some c -> c = VUndef) ->
  prop (rowItem headers rowData) h = v /\
  (truthy v = true -> h = "email" -> email (rowDraft headers rowData) = v) /\
  (truthy v = true -> h = "phone" -> phone (rowDraft headers rowData) = v).
Proof.
  intros Hh Hne Hv Hv' Hlater.
  assert (Hget : prop (rowItem headers rowData) h = v).
  { unfold prop, rowItem. now rewrite (mapCells_reads headers rowData [] i h v). }
  split; [exact Hget|].
  destruct (deepParse_keeps_contacts (synonyms (rowItem headers rowData))
              (compositeString rowData)) as (Hmail & Hphone).
  split; intros Ht ->; unfold rowDraft.
  - assert (Hs : email (synonyms (rowItem headers rowData)) = v).
    { cbn [synonyms email]. rewrite Hget.
      now repeat rewrite (or_left v) by exact Ht. }
    rewrite Hmail; [exact Hs | now rewrite Hs].
  - assert (Hs : phone (synonyms (rowItem headers rowData)) = v).
    { cbn [synonyms phone]. rewrite Hget.
      now repeat rewrite (or_left v) by exact Ht. }
    rewrite Hphone; [exact Hs | now rewrite Hs].
Qed.

Lemma column_cell_is_read_witness :
  email (rowDraft ["name"; "email"; "email"]
           [VStr "Alice"; VStr "old@x.com"; VStr "alice@x.com"])
    = VStr "alice@x.com".
Proof.
  refine (proj1 (proj2 (column_cell_is_read ["name"; "email"; "email"]
            [VStr "Alice"; VStr "old@x.com"; VStr "alice@x.com"] 2 "email"
            (VStr "alice@x.com") eq_refl _ eq_refl _ _)) eq_refl eq_refl).
  - discriminate.
  - discriminate.
  - intros [|[|[|j]]] c Hj Hh Hc; try lia; discriminate Hh.
Defined.

(** X2.  The composite-text fallback never replaces a truthy email, phone
    or age that mapping found, never touches the experience, replaces a
    mapped name only when it is longer than 50 characters, and does nothing
    at all when both email and phone were mapped or when the row text holds
    no colon. *)
Theorem fallback_keeps_mapped_fields (d : draft) (cs : string) :
  exp (deepParse d cs) = exp d /\
  (truthy (email d) = true -> email (deepParse d cs) = email d) /\
  (truthy (phone d) = true -> phone (deepParse d cs) = phone d) /\
  (truthy (age d) = true -> age (deepParse d cs) = age d) /\
  (truthy (name d) = true ->
   (String.length (toString (name d)) <= 50)%nat ->
   name (deepParse d cs) = name d) /\
  (truthy (email d) = true /\ truthy (phone d) = true \/
   Str.includes cs ":" = false ->
   deepParse d cs = d).
Proof.
  destruct (deepParse_keeps_contacts d cs) as (Hmail & Hphone).
  split; [unfold deepParse; now destruct (_ && Str.includes cs ":")|].
  split; [exact Hmail|]. split; [exact Hphone|]. split; [|split].
  - unfold deepParse. destruct (_ && Str.includes cs ":"); [|tauto].
    cbn [age]. intros ->. now destruct (search ageRe cs) as [[? [?|]]|].
  - unfold deepParse. destruct (_ && Str.includes cs ":"); [|tauto].
    cbn [name]. intros -> Hlen.
    destruct (search nameRe cs) as [[? [?|]]|]; try reflexivity.
    cbn [negb orb]. destruct (Nat.ltb_spec 50 (String.length (toString (name d)))); [lia | reflexivity].
  - unfold deepParse. intros [[-> ->] | ->]; [reflexivity|].
    now rewrite andb_false_r.
Qed.

Lemma fallback_keeps_mapped_fields_witness :
  deepParse (Draft (VStr "Bob") (VStr "bob@x.com") (VStr "5550001111") VUndef VUndef)
    "Name: Jane Doe Age: 29 Phone: 555-1234-000"
  = Draft (VStr "Bob") (VStr "bob@x.com") (VStr "5550001111") VUndef VUndef.
Proof.
  apply (proj2 (proj2 (proj2 (proj2 (proj2
           (fallback_keeps_mapped_fields
              (Draft (VStr "Bob") (VStr "bob@x.com") (VStr "5550001111") VUndef VUndef)
              "Name: Jane Doe Age: 29 Phone: 555-1234-000")))))).
  left. split; reflexivity.
Defined.

End FieldMapping.

Section RowOutcomes.

Variables (e : env) (uid : string) (h : nat) (headers : list string)
          (imageMap : gmap Z string).

(** X3.  A row without a name that carries no noise word is reported with
    "Found: N/A, <email>" when an email was recovered; without an email it
    is reported as "Found: N/A, N/A" only while nothing has been accepted
    yet, and is dropped without a trace once [processed] is non-empty. *)
Theorem nameless_row_outcomes sheetRow now (rowData : row) (t : tally) (w : world) :
  let d := rowDraft headers rowData in
  let rowStr := Str.toLowerCase (Json.stringify (rowItem headers rowData)) in
  rowData <> [] ->
  truthy (name d) = false ->
  Str.includes rowStr "bdjobs" || Str.includes rowStr "powered" = false ->
  (truthy (email d) = true ->
   processRow uid headers imageMap sheetRow now rowData t w
     = (w, Ok (push_error t ("Skipped: Missing Name/Email. Found: N/A, "
                              ++ toString (email d))))) /\
  (truthy (email d) = false -> processed t = [] ->
   processRow uid headers imageMap sheetRow now rowData t w
     = (w, Ok (push_error t "Skipped: Missing Name/Email. Found: N/A, N/A"))) /\
  (truthy (email d) = false -> processed t <> [] ->
   processRow uid headers imageMap sheetRow now rowData t w = (w, Ok t)).
Proof.
  intros d rowStr Hne Hname Hnoise. unfold processRow.
  destruct rowData as [|c cells]; [congruence|]. fold d rowStr.
  assert (Hinv : invalid d = true) by (unfold invalid; now rewrite Hname).
  rewrite Hinv, Hnoise, Hname. cbn [negb andb].
  split; [|split].
  - intros Hmail. rewrite Hmail, andb_false_r.
    unfold missingError, JS.or. now rewrite Hname, Hmail.
  - intros Hmail Hnil. rewrite Hmail, Hnil. cbn.
    unfold missingError, JS.or. now rewrite Hname, Hmail.
  - intros Hmail Hcons. rewrite Hmail.
    destruct (processed t); [congruence | reflexivity].
Qed.

Lemma set_first_length email k v ds :
  List.length (Coll.set_first email k v ds) = List.length ds.
Proof.
  induction ds as [|d ds IH]; cbn; [reflexivity|].
  destruct (Coll.matches "email" email d); cbn; congruence.
Qed.

(** The loop returns, leaves the files alone, keeps the number of stored
    documents, and adds at most one entry per row to [processed] and
    [errors] together. *)
Lemma processRows_counts dataRows : forall idx t w,
  exists t' w' P E,
    processRows e uid h headers imageMap idx dataRows t w = (w', Ok t') /\
    files w' = files w /\
    List.length (docs w') = List.length (docs w) /\
    processed t' = (processed t ++ P)%list /\
    errors t' = (errors t ++ E)%list /\
    List.length P + List.length E <= List.length dataRows.
Proof.
  induction dataRows as [|r rest IH]; intros idx t w.
  - exists t, w, [], []. rewrite !app_nil_r. cbn. repeat split; auto.
  - cbn [processRows]. unfold bind.
    destruct (processRow_total uid headers imageMap (Z.of_nat (h + 1 + idx))
                (rowClock e idx) r t w) as (t1 & ds1 & Hstep).
    rewrite Hstep.
    destruct (IH (S idx) t1 (World ds1 (files w)))
      as (t' & w' & P & E & -> & Hf & Hd & HP & HE & Hlen).
    cbn [docs files] in Hf, Hd.
    pose proof (step_cases uid headers imageMap _ _ _ _ _ _ _ Hstep) as Hcase.
    cbv zeta in Hcase.
    destruct Hcase as [(_ & Hw & Hp & E0 & He)
                      |[(_ & _ & _ & Hw & Ht)
                      |[(_ & ex & photo & _ & Hw & Ht)
                       |(_ & _ & Hw & item & photo & Ht)]]].
    + (* either silent or reported *)
      assert (HE0 : List.length E0 <= 1).
      { unfold processRow in Hstep. destruct r as [|c cells].
        - injection Hstep as _ <-. apply (f_equal (@List.length _)) in He.
          rewrite length_app in He. lia.
        - destruct (invalid _).
          + destruct (_ || _); [|destruct (_ && _)]; injection Hstep as _ <-;
              cbn [errors push_error] in He;
              apply (f_equal (@List.length _)) in He; rewrite !length_app in He;
              cbn in He; lia.
          + unfold bind, Coll.findOne, Coll.updateOne, ret in Hstep.
            destruct (truthy _); cbn [docs files] in Hstep;
              [destruct (List.find _ _); [destruct (_ && _)|]|];
              injection Hstep as _ <-; cbn in Hp;
              apply (f_equal (@List.length _)) in Hp; rewrite ?length_app in Hp;
              cbn in Hp; cbn [errors push_error push_processed] in He;
              apply (f_equal (@List.length _)) in He; rewrite ?length_app in He;
              cbn in He; lia. }
      exists t', w', P, (E0 ++ E)%list. split; [reflexivity|].
      apply (f_equal docs) in Hw; cbn [docs] in Hw; rewrite Hw in Hd. rewrite HP, HE, Hp, He, <- app_assoc, length_app.
      repeat split; auto. cbn [List.length]. lia.
    + exists t', w', P, (existsError (rowDraft headers r) :: E). split; [reflexivity|].
      apply (f_equal docs) in Hw; cbn [docs] in Hw; rewrite Hw in Hd. rewrite HP, HE, Ht. cbn [processed errors push_error].
      rewrite <- app_assoc. repeat split; auto. cbn [List.length]. lia.
    + exists t', w', (merged ex photo :: P), E. split; [reflexivity|].
      cbn [docs] in Hw. rewrite HP, HE, Ht, Hd, Hw, set_first_length.
      cbn [processed errors push_processed]. rewrite <- app_assoc.
      repeat split; auto. cbn [List.length]. lia.
    + exists t', w', (candidate uid (rowClock e idx) item (rowDraft headers r) photo :: P), E.
      split; [reflexivity|].
      apply (f_equal docs) in Hw; cbn [docs] in Hw; rewrite Hw in Hd. rewrite HP, HE, Ht. cbn [processed errors push_processed].
      rewrite <- app_assoc. repeat split; auto. cbn [List.length]. lia.
Qed.

(** X4.  The loop over the data rows always returns: it never touches a
    file, neither inserts nor removes a stored document, only appends to
    [processed] and [errors], and every row adds at most one entry to the
    two together. *)
Theorem row_loop_accounting idx (dataRows : list row) (t : tally) (w : world) :
  exists t' w' P E,
    processRows e uid h headers imageMap idx dataRows t w = (w', Ok t') /\
    files w' = files w /\
    List.length (docs w') = List.length (docs w) /\
    processed t' = (processed t ++ P)%list /\
    errors t' = (errors t ++ E)%list /\
    List.length P + List.length E <= List.length dataRows.
Proof. apply processRows_counts. Qed.

End RowOutcomes.

Lemma nameless_row_outcomes_witness :
  processRow "u1" ["name"; "email"; "phone"] ∅ 5 0 [VUndef; VUndef; VStr "see above"]
    (Tally [] []) Sample.emptyWorld
  = (Sample.emptyWorld, Ok (Tally [] ["Skipped: Missing Name/Email. Found: N/A, N/A"])).
Proof.
  refine (proj1 (proj2 (nameless_row_outcomes "u1" ["name"; "email"; "phone"] ∅ 5 0
            [VUndef; VUndef; VStr "see above"] (Tally [] []) Sample.emptyWorld _ eq_refl eq_refl))
            eq_refl eq_refl).
  discriminate.
Defined.

Section StagedRows.

Variables (e : env) (uid : string) (h : nat) (headers : list string)
          (imageMap : gmap Z string).

Lemma valid_row_is_not_empty (r : row) :
  invalid (rowDraft headers r) = false -> r <> [].
Proof.
  intros Hinv ->. destruct (empty_row_has_no_name headers) as (Hn & _).
  unfold invalid in Hinv. now rewrite Hn in Hinv.
Qed.

(** Whatever the loop pushes on [processed] is the copy of the merge branch
    or the candidate literal of one data row, built with the photo that the
    image map holds for header row + 1 + position of the row. *)
Lemma processRows_staged dataRows : forall idx t w t' w',
  processRows e uid h headers imageMap idx dataRows t w = (w', Ok t') ->
  exists P,
    processed t' = (processed t ++ P)%list /\
    forall c, In c P ->
      (exists ex photo, c = merged ex photo) \/
      (exists k r,
          dataRows !! k = Some r /\
          invalid (rowDraft headers r) = false /\
          c = candidate uid (rowClock e (idx + k)) (rowItem headers r)
                (rowDraft headers r)
                (photoAt imageMap (Z.of_nat (h + 1 + (idx + k))))).
Proof.
  induction dataRows as [|r rest IH]; intros idx t w t' w' Hrun.
  - injection Hrun as <- <-. exists []. rewrite app_nil_r. split; [reflexivity | intros ? []].
  - cbn [processRows] in Hrun. unfold bind in Hrun.
    destruct (processRow_total uid headers imageMap (Z.of_nat (h + 1 + idx))
                (rowClock e idx) r t w) as (t1 & ds1 & Hstep).
    rewrite Hstep in Hrun.
    destruct (IH _ _ _ _ _ Hrun) as (P & HP & Hall).
    assert (Hshift : forall c, In c P ->
              (exists ex photo, c = merged ex photo) \/
              (exists k r0,
                  (r :: rest) !! k = Some r0 /\
                  invalid (rowDraft headers r0) = false /\
                  c = candidate uid (rowClock e (idx + k)) (rowItem headers r0)
                        (rowDraft headers r0)
                        (photoAt imageMap (Z.of_nat (h + 1 + (idx + k)))))).
    { intros c Hc. destruct (Hall c Hc) as [Hm|(k & r0 & Hk & Hinv & ->)]; [now left|].
      right. exists (S k), r0. replace (idx + S k) with (S idx + k) by lia. auto. }
    pose proof (step_cases uid headers imageMap _ _ _ _ _ _ _ Hstep) as Hcase.
    cbv zeta in Hcase.
    destruct Hcase as [(_ & _ & Hp & _)
                      |[(_ & _ & _ & _ & Ht)
                      |[(_ & ex & photo & _ & _ & Ht)
                       |(Hinv & Hfree & Hw & _)]]].
    + exists P. rewrite HP, Hp. auto.
    + exists P. rewrite HP, Ht. auto.
    + exists (merged ex photo :: P). rewrite HP, Ht. cbn [processed push_processed].
      rewrite <- app_assoc. split; [reflexivity|].
      intros c [<-|Hc]; [left; eauto | auto].
    + rewrite (step_new uid headers imageMap _ _ r t w
                 (valid_row_is_not_empty r Hinv) Hinv Hfree) in Hstep.
      injection Hstep as _ <-.
      eexists (_ :: P). rewrite HP. cbn [processed push_processed].
      rewrite <- app_assoc. split; [reflexivity|].
      intros c [<-|Hc]; [|auto].
      right. exists 0, r. rewrite Nat.add_0_r. auto.
Qed.

(** X5.  Every document that the row loop stages is either the copy made by
    the photo-merge branch or the candidate literal of the data row at some
    position k, and that literal carries the photo recorded for sheet row
    headerRowIndex + 1 + k (blank rows count in k). *)
Theorem staged_photo_follows_sheet_row (dataRows : list row) (w w' : world) (t' : tally) :
  processRows e uid h headers imageMap 0 dataRows (Tally [] []) w = (w', Ok t') ->
  forall c, In c (processed t') ->
    (exists ex photo, c = merged ex photo) \/
    (exists k r,
        dataRows !! k = Some r /\
        invalid (rowDraft headers r) = false /\
        c = candidate uid (rowClock e k) (rowItem headers r) (rowDraft headers r)
              (photoAt imageMap (Z.of_nat (h + 1 + k))) /\
        Obj.get c "photo"
          = Some (BPrim (match imageMap !! Z.of_nat (h + 1 + k) with
                         | Some path => if Str.isEmpty path then VStr EmptyString
                                        else VStr path
                         | None => VStr EmptyString
                         end))).
Proof.
  intros Hrun c Hc.
  destruct (processRows_staged dataRows 0 _ _ _ _ Hrun) as (P & HP & Hall).
  cbn [processed app] in HP. rewrite HP in Hc.
  destruct (Hall c Hc) as [Hm|(k & r & Hk & Hinv & ->)]; [now left|].
  right. exists k, r. cbn [Nat.add]. repeat split; auto.
  cbn [candidate Obj.get]. unfold photoAt.
  destruct (imageMap !! Z.of_nat (h + 1 + k)) as [path|]; [|reflexivity].
  destruct path; reflexivity.
Qed.

End StagedRows.

Lemma staged_photo_follows_sheet_row_witness :
  (exists ex photo,
      candidate "u1" (rowClock Sample.dev 0)
        (rowItem ["name"; "email"; "phone"]
           [VStr "Alice"; VStr "alice@x.com"; VStr "5551234"])
        (rowDraft ["name"; "email"; "phone"]
           [VStr "Alice"; VStr "alice@x.com"; VStr "5551234"])
        (VStr "/uploads/candidates/photo-1700000000000-1.png")
      = merged ex photo) \/
  (exists k r,
      [[VStr "Alice"; VStr "alice@x.com"; VStr "5551234"]] !! k = Some r /\
      invalid (rowDraft ["name"; "email"; "phone"] r) = false /\
      candidate "u1" (rowClock Sample.dev 0)
        (rowItem ["name"; "email"; "phone"]
           [VStr "Alice"; VStr "alice@x.com"; VStr "5551234"])
        (rowDraft ["name"; "email"; "phone"]
           [VStr "Alice"; VStr "alice@x.com"; VStr "5551234"])
        (VStr "/uploads/candidates/photo-1700000000000-1.png")
      = candidate "u1" (rowClock Sample.dev k) (rowItem ["name"; "email"; "phone"] r)
          (rowDraft ["name"; "email"; "phone"] r)
          (photoAt {[ 1%Z := "/uploads/candidates/photo-1700000000000-1.png" ]}
             (Z.of_nat (0 + 1 + k))) /\
      Obj.get
        (candidate "u1" (rowClock Sample.dev 0)
           (rowItem ["name"; "email"; "phone"]
              [VStr "Alice"; VStr "alice@x.com"; VStr "5551234"])
           (rowDraft ["name"; "email"; "phone"]
              [VStr "Alice"; VStr "alice@x.com"; VStr "5551234"])
           (VStr "/uploads/candidates/photo-1700000000000-1.png")) "photo"
        = Some (BPrim (match ({[ 1%Z := "/uploads/candidates/photo-1700000000000-1.png" ]}
                                : gmap Z string) !! Z.of_nat (0 + 1 + k) with
                       | Some path => if Str.isEmpty path then VStr EmptyString
                                      else VStr path
                       | None => VStr EmptyString
                       end))).
Proof.
  apply (staged_photo_follows_sheet_row Sample.dev "u1" 0 ["name"; "email"; "phone"]
           {[ 1%Z := "/uploads/candidates/photo-1700000000000-1.png" ]}
           [[VStr "Alice"; VStr "alice@x.com"; VStr "5551234"]]
           Sample.emptyWorld Sample.emptyWorld
           (Tally [candidate "u1" (rowClock Sample.dev 0)
                     (rowItem ["name"; "email"; "phone"]
                        [VStr "Alice"; VStr "alice@x.com"; VStr "5551234"])
                     (rowDraft ["name"; "email"; "phone"]
                        [VStr "Alice"; VStr "alice@x.com"; VStr "5551234"])
                     (VStr "/uploads/candidates/photo-1700000000000-1.png")] [])).
  - vm_compute. reflexivity.
  - left. reflexivity.
Defined.

Section AcceptedUpload.

Variable e : env.

(** What a 200 tells about the disk and the message: the spreadsheet is
    gone, nothing else moved after the pictures were written. *)
Lemma upload_ok_files req f wb w w' m a errs w1 imageMap :
  file req = Some f ->
  content f = Some wb ->
  extractImages e 0 (images wb) ∅ w = (w1, Ok imageMap) ->
  uploadCandidates e req w = (w', Json200 m a errs) ->
  files w' = delete (path f) (files w1) /\
  is_Some (files w1 !! path f) /\
  m = (if (0 <? a)%nat then "File processed successfully"
       else "No valid candidates found in the file").
Proof.
  intros Hf Hwb Hext. unfold uploadCandidates, handle, bind, readFile.
  rewrite Hf, Hwb.
  destruct (files w !! path f); [|discriminate].
  rewrite Hext.
  destruct (findHeader (rows wb)) as [[h headers]|].
  - destruct (processRows_total e (uid req) h headers imageMap 0
                (drop (h + 1) (rows wb)) (Tally [] []) w1) as (t & ds & Hloop).
    rewrite Hloop.
    destruct (0 <? List.length (processed t))%nat eqn:Hpos.
    + unfold Coll.insertMany. cbn [docs files].
      destruct (Coll.insertAll (processed t) ds) as [ds' []]; [|discriminate].
      unfold Fs.unlinkSync, ret. cbn [docs files].
      destruct (files w1 !! path f) eqn:Hp; [|discriminate].
      intros [= <- <- <- _]. cbn [files]. rewrite Hpos. eauto.
    + unfold ret at 1. unfold Fs.unlinkSync, ret. cbn [docs files].
      destruct (files w1 !! path f) eqn:Hp; [|discriminate].
      intros [= <- <- <- _]. cbn [files]. rewrite Hpos. eauto.
  - unfold Fs.unlinkSync, ret. destruct (files w1 !! path f); discriminate.
Qed.

(** X6.  A 200 answer of the upload route on a collection whose documents
    all carry an [_id]: the collection is the old one followed by exactly
    [count] new documents, the spreadsheet file is the only file removed
    after the pictures were extracted, [count] plus the number of reported
    errors is at most the number of sheet rows, and the message says
    whether anything was added. *)
Theorem accepted_upload_accounting req f wb w w' m a errs :
  file req = Some f ->
  content f = Some wb ->
  Forall keyed (docs w) ->
  uploadCandidates e req w = (w', Json200 m a errs) ->
  exists w1 imageMap added,
    extractImages e 0 (images wb) ∅ w = (w1, Ok imageMap) /\
    docs w' = (docs w ++ added)%list /\
    List.length added = a /\
    files w' = delete (path f) (files w1) /\
    files w' !! path f = None /\
    a + List.length errs <= List.length (rows wb) /\
    m = (if (0 <? a)%nat then "File processed successfully"
         else "No valid candidates found in the file").
Proof.
  intros Hf Hwb Hkeyed Hrun.
  destruct (upload_ok_inv _ _ _ _ _ _ _ _ _ Hf Hwb Hrun)
    as (w1 & imageMap & h & headers & t & wl & Hext & Hhdr & Hloop & _ & Ha & He).
  destruct (upload_ok_facts _ _ _ _ _ _ _ _ _ Hf Hwb Hkeyed Hrun)
    as (h' & headers' & P & added & _ & _ & Hdocs & Hlen & _).
  destruct (upload_ok_files _ _ _ _ _ _ _ _ _ _ Hf Hwb Hext Hrun) as (Hfiles & _ & Hm).
  destruct (processRows_counts e (uid req) h headers imageMap
              (drop (h + 1) (rows wb)) 0 (Tally [] []) w1)
    as (t2 & w2 & P2 & E2 & Hloop2 & _ & _ & HP2 & HE2 & Hle).
  rewrite Hloop in Hloop2. injection Hloop2 as _ <-.
  cbn [processed errors app] in HP2, HE2.
  exists w1, imageMap, added.
  split; [exact Hext|]. split; [exact Hdocs|]. split; [now symmetry|].
  split; [exact Hfiles|]. split; [rewrite Hfiles; apply lookup_delete_eq|].
  split; [|exact Hm].
  rewrite Ha, He, HP2, HE2. rewrite length_drop in Hle. lia.
Qed.

End AcceptedUpload.

Lemma accepted_upload_accounting_witness :
  exists w1 imageMap added,
    extractImages Sample.dev 0 (images Sample.aliceAndBob) ∅ (Sample.uploaded [])
      = (w1, Ok imageMap) /\
    docs (fst Sample.firstPass) = (docs (Sample.uploaded []) ++ added)%list /\
    List.length added = 2 /\
    files (fst Sample.firstPass) = delete Sample.tmpPath (files w1) /\
    files (fst Sample.firstPass) !! Sample.tmpPath = None /\
    2 + List.length (@nil string) <= List.length (rows Sample.aliceAndBob) /\
    "File processed successfully"
      = (if (0 <? 2)%nat then "File processed successfully"
         else "No valid candidates found in the file").
Proof.
  apply (accepted_upload_accounting Sample.dev
           (Sample.requestOf (Upload Sample.tmpPath (Some Sample.aliceAndBob)))
           (Upload Sample.tmpPath (Some Sample.aliceAndBob)) Sample.aliceAndBob
           (Sample.uploaded []) (fst Sample.firstPass)).
  - reflexivity.
  - reflexivity.
  - constructor.
  - vm_compute. reflexivity.
Defined.

Section ExtractionFrame.

Variable e : env.

Lemma written_path_in_photo_dirs name :
  Str.startsWith (resolve e (imagesDir e ++ "/" ++ name)) (photoDir e) = true \/
  Str.startsWith (resolve e (imagesDir e ++ "/" ++ name)) "/tmp/uploads/candidates/" = true.
Proof.
  destruct (production e) eqn:Hprod.
  - right. unfold resolve, imagesDir. rewrite Hprod.
    change ("/tmp/uploads/candidates" ++ "/" ++ name)
      with ("/tmp/uploads/candidates/" ++ name).
    change (Str.startsWith ("/tmp/uploads/candidates/" ++ name) "/") with true.
    cbv iota. apply startsWith_app.
  - left. rewrite (resolve_dev e name Hprod). unfold photoDir. apply startsWith_app_app.
Qed.

Lemma processImage_frame now img imageMap w w' r p :
  photoUrls imageMap ->
  processImage e now img imageMap w = (w', r) ->
  Str.startsWith p (photoDir e) = false ->
  Str.startsWith p "/tmp/uploads/candidates/" = false ->
  files w' !! p = files w !! p.
Proof.
  intros Hurls Hrun Hp Ht. revert Hrun. unfold processImage.
  set (row := Qfloor (tl_row img)).
  set (ext := detectExtension (extension img) (buffer img)).
  destruct (nonBrowser ext); [now intros [= <- _]|].
  assert (Hne : resolve e (imagesDir e ++ "/" ++ fileName now row ext) <> p).
  { intros <-. destruct (written_path_in_photo_dirs (fileName now row ext)); congruence. }
  destruct (imageMap !! row) as [existingPath|] eqn:Hrow.
  - unfold bind, Fs.statSync, catch, Fs.unlinkSync, Fs.writeFileSync, ret.
    destruct (Hurls _ _ Hrow) as [name0 ->].
    destruct (files w !! (cwd e ++ "/uploads/candidates/" ++ name0)) as [old|] eqn:Hold.
    + destruct (_ <=? _)%nat; [now intros [= <- _]|].
      cbn [docs files]. rewrite Hold. cbn [docs files]. intros [= <- _].
      cbn [files]. rewrite lookup_insert_ne by exact Hne.
      apply lookup_delete_ne. intros <-. unfold photoDir in Hp.
      now rewrite startsWith_app_app in Hp.
    + now intros [= <- _].
  - unfold bind, Fs.writeFileSync, ret. intros [= <- _]. cbn [files].
    now rewrite lookup_insert_ne by exact Hne.
Qed.

(** X7.  Image extraction, whether it completes or throws half-way, leaves
    the collection alone and changes no file outside the two photo
    directories (the one under the working directory and the one under
    /tmp). *)
Theorem extraction_stays_in_photo_dirs i imgs imageMap w w' r p :
  photoUrls imageMap ->
  extractImages e i imgs imageMap w = (w', r) ->
  docs w' = docs w /\
  (Str.startsWith p (photoDir e) = false ->
   Str.startsWith p "/tmp/uploads/candidates/" = false ->
   files w' !! p = files w !! p).
Proof.
  revert i imageMap w; induction imgs as [|img rest IH]; intros i imageMap w Hurls.
  - intros [= <- <-]. auto.
  - cbn [extractImages]. unfold bind.
    destruct (processImage e (imageClock e i) img imageMap w) as [w1 r1] eqn:H1.
    destruct (processImage_effects e _ _ _ _ _ _ p Hurls H1) as (Hd & _ & Hu).
    pose proof (processImage_frame _ _ _ _ _ _ p Hurls H1) as Hf.
    destruct r1 as [imageMap1|].
    + intros H2. destruct (IH _ _ _ (Hu _ eq_refl) H2) as (Hd2 & Hf2).
      split; [congruence|]. intros Hp Ht. rewrite Hf2, Hf; auto.
    + intros [= <- <-]. auto.
Qed.

(** When every picture sits on a row of its own, extraction completes and
    the map holds, for each picture in a browser format, the URL built from
    its row, its detected format and the clock of its turn; rows without a
    picture keep their entry. *)
Lemma extractImages_distinct_map imgs : forall i imageMap w,
  NoDup (List.map (fun img => Qfloor (tl_row img)) imgs) ->
  (forall img, In img imgs -> imageMap !! Qfloor (tl_row img) = None) ->
  exists w' imageMap',
    extractImages e i imgs imageMap w = (w', Ok imageMap') /\
    (forall k img, imgs !! k = Some img ->
       imageMap' !! Qfloor (tl_row img) =
         let ext := detectExtension (extension img) (buffer img) in
         if nonBrowser ext then None
         else Some ("/uploads/candidates/"
                      ++ fileName (imageClock e (i + k)) (Qfloor (tl_row img)) ext)) /\
    (forall z, (forall img, In img imgs -> Qfloor (tl_row img) <> z) ->
       imageMap' !! z = imageMap !! z).
Proof.
  induction imgs as [|img rest IH]; intros i imageMap w Hnd Hfree.
  - exists w, imageMap. split; [reflexivity|]. split; [intros k img [=] | auto].
  - cbn [List.map] in Hnd. apply NoDup_cons in Hnd as [Hnotin Hnd].
    assert (Hother : forall img', In img' rest -> Qfloor (tl_row img') <> Qfloor (tl_row img)).
    { intros img' Hin Heq. apply Hnotin. rewrite <- Heq. apply list_elem_of_In.
      now apply (in_map (fun x => Qfloor (tl_row x))). }
    cbn [extractImages]. unfold bind. cbv zeta.
    destruct (nonBrowser (detectExtension (extension img) (buffer img))) eqn:Hskip.
    + rewrite (processImage_skip e _ img imageMap w Hskip).
      destruct (IH (S i) imageMap w Hnd (fun img' Hin => Hfree img' (or_intror Hin)))
        as (w' & m' & Hrun & Hat & Hout).
      exists w', m'. split; [exact Hrun|]. split.
      * intros [|k] img' Hk.
        -- injection Hk as <-. rewrite Hskip, (Hout _ Hother).
           apply Hfree. now left.
        -- replace (i + S k) with (S i + k) by lia. now apply Hat.
      * intros z Hz. apply Hout. intros img' Hin. apply Hz. now right.
    + rewrite (processImage_free_row e _ img imageMap w Hskip (Hfree img (or_introl eq_refl))).
      match goal with |- context [extractImages e (S i) rest ?m ?w1] =>
        destruct (IH (S i) m w1 Hnd) as (w' & m' & Hrun & Hat & Hout) end.
      { intros img' Hin. rewrite lookup_insert_ne; [apply Hfree; now right|].
        intros Heq. now apply (Hother img' Hin). }
      exists w', m'. split; [exact Hrun|]. split.
      * intros [|k] img' Hk.
        -- injection Hk as <-. rewrite Hskip, (Hout _ Hother), Nat.add_0_r.
           apply lookup_insert_eq.
        -- replace (i + S k) with (S i + k) by lia. now apply Hat.
      * intros z Hz. rewrite (Hout z (fun img' Hin => Hz img' (or_intror Hin))).
        apply lookup_insert_ne. apply Hz. now left.
Qed.

(** X8.  With at most one picture per sheet row, extraction from an empty
    map completes; a row is in the map exactly when its picture is in a
    browser format, under the URL photo-<clock>-<row>.<detected format>;
    EMF and WMF pictures and rows without a picture have no entry. *)
Theorem one_picture_per_row_map (imgs : list image) (w : world) :
  NoDup (List.map (fun img => Qfloor (tl_row img)) imgs) ->
  exists w' imageMap,
    extractImages e 0 imgs ∅ w = (w', Ok imageMap) /\
    (forall k img, imgs !! k = Some img ->
       imageMap !! Qfloor (tl_row img) =
         let ext := detectExtension (extension img) (buffer img) in
         if nonBrowser ext then None
         else Some ("/uploads/candidates/"
                      ++ fileName (imageClock e k) (Qfloor (tl_row img)) ext)) /\
    (forall z, (forall img, In img imgs -> Qfloor (tl_row img) <> z) ->
       imageMap !! z = None).
Proof.
  intros Hnd.
  destruct (extractImages_distinct_map imgs 0 ∅ w Hnd (fun _ _ => lookup_empty _))
    as (w' & m' & Hrun & Hat & Hout).
  exists w', m'. split; [exact Hrun|]. split; [exact Hat|].
  intros z Hz. rewrite (Hout z Hz). apply lookup_empty.
Qed.

(** X9.  Outside production, when two pictures on the same row follow each
    other, the second replaces the first exactly when its buffer is
    strictly longer: the map then points at the second file and the first
    file is overwritten or removed; otherwise the map keeps the first file
    and the second is never written. *)
Theorem larger_picture_wins_outside_production i a b w :
  let row := Qfloor (tl_row a) in
  let extA := detectExtension (extension a) (buffer a) in
  let extB := detectExtension (extension b) (buffer b) in
  let nameA := fileName (imageClock e i) row extA in
  let nameB := fileName (imageClock e (S i)) row extB in
  let pathA := cwd e ++ "/uploads/candidates/" ++ nameA in
  let pathB := cwd e ++ "/uploads/candidates/" ++ nameB in
  production e = false ->
  Qfloor (tl_row b) = row ->
  nonBrowser extA = false ->
  nonBrowser extB = false ->
  exists w' imageMap,
    extractImages e i [a; b] ∅ w = (w', Ok imageMap) /\
    if (List.length (buffer b) <=? List.length (buffer a))%nat
    then imageMap !! row = Some ("/uploads/candidates/" ++ nameA) /\
         files w' !! pathA = Some (buffer a) /\
         (pathB <> pathA -> files w' !! pathB = files w !! pathB)
    else imageMap !! row = Some ("/uploads/candidates/" ++ nameB) /\
         files w' !! pathB = Some (buffer b) /\
         (pathA <> pathB -> files w' !! pathA = None).
Proof.
  intros row extA extB nameA nameB pathA pathB Hdev Hrow HA HB.
  pose proof (larger_image_wins_dev e i a b ∅ w Hdev Hrow HA HB (lookup_empty _)) as Hrun.
  cbv zeta in Hrun. fold row extA extB nameA nameB pathA pathB in Hrun.
  destruct (_ <=? _)%nat; (eexists _, _; split; [exact Hrun|]); cbn [files].
  - split; [apply lookup_insert_eq|]. split; [apply lookup_insert_eq|].
    intros Hne. now rewrite lookup_insert_ne by congruence.
  - split; [apply lookup_insert_eq|]. split; [apply lookup_insert_eq|].
    intros Hne. rewrite lookup_insert_ne by congruence. apply lookup_delete_eq.
Qed.

End ExtractionFrame.

Lemma extraction_stays_in_photo_dirs_witness :
  docs (fst (extractImages Sample.dev 0 [Sample.pngAsJpg; Sample.metafile] ∅
               (Sample.uploaded [Sample.storedAlice])))
    = [Sample.storedAlice] /\
  files (fst (extractImages Sample.dev 0 [Sample.pngAsJpg; Sample.metafile] ∅
                (Sample.uploaded [Sample.storedAlice]))) !! Sample.tmpPath
    = files (Sample.uploaded [Sample.storedAlice]) !! Sample.tmpPath.
Proof.
  destruct (extraction_stays_in_photo_dirs Sample.dev 0
              [Sample.pngAsJpg; Sample.metafile] ∅
              (Sample.uploaded [Sample.storedAlice])
              (fst (extractImages Sample.dev 0 [Sample.pngAsJpg; Sample.metafile] ∅
                      (Sample.uploaded [Sample.storedAlice])))
              (snd (extractImages Sample.dev 0 [Sample.pngAsJpg; Sample.metafile] ∅
                      (Sample.uploaded [Sample.storedAlice])))
              Sample.tmpPath) as (Hd & Hf).
  - apply map_Forall_empty.
  - apply surjective_pairing.
  - split; [exact Hd|]. apply Hf; reflexivity.
Defined.

Lemma one_picture_per_row_map_witness :
  exists w' imageMap,
    extractImages Sample.dev 0 [Sample.pngAsJpg; Sample.metafile] ∅ Sample.emptyWorld
      = (w', Ok imageMap) /\
    (forall k img, [Sample.pngAsJpg; Sample.metafile] !! k = Some img ->
       imageMap !! Qfloor (tl_row img) =
         let ext := detectExtension (extension img) (buffer img) in
         if nonBrowser ext then None
         else Some ("/uploads/candidates/"
                      ++ fileName (imageClock Sample.dev k) (Qfloor (tl_row img)) ext)) /\
    (forall z, (forall img, In img [Sample.pngAsJpg; Sample.metafile] ->
                  Qfloor (tl_row img) <> z) ->
       imageMap !! z = None).
Proof.
  apply (one_picture_per_row_map Sample.dev [Sample.pngAsJpg; Sample.metafile]
           Sample.emptyWorld).
  change (NoDup [3%Z; 1%Z]). apply NoDup_cons. split.
  - intros Hin. apply list_elem_of_In in Hin. destruct Hin as [H|[]]; discriminate H.
  - apply NoDup_singleton.
Defined.

Lemma larger_picture_wins_outside_production_witness :
  exists w' imageMap,
    extractImages Sample.dev 0 [Sample.small500; Sample.big2000] ∅ Sample.emptyWorld
      = (w', Ok imageMap) /\
    imageMap !! 2%Z = Some "/uploads/candidates/photo-1700000000001-2.png" /\
    files w' !! "/srv/app/uploads/candidates/photo-1700000000001-2.png"
      = Some (buffer Sample.big2000) /\
    files w' !! "/srv/app/uploads/candidates/photo-1700000000000-2.png" = None.
Proof.
  destruct (larger_picture_wins_outside_production Sample.dev 0
              Sample.small500 Sample.big2000 Sample.emptyWorld)
    as (w' & imageMap & Hrun & Hmap & Hnew & Hold);
    [reflexivity | reflexivity | reflexivity | reflexivity |].
  exists w', imageMap. split; [exact Hrun|]. split; [exact Hmap|].
  split; [exact Hnew|]. apply Hold. discriminate.
Defined.

(** ** The middlewares *)

Section Middlewares.

Variable verifyIdToken : string -> option Api.claims.

Lemma split_word a b :
  Api.spaceless a = true -> Api.split (a ++ " " ++ b) = a :: Api.split b.
Proof.
  induction a as [|c a IH]; intros Ha.
  - reflexivity.
  - cbn [Api.spaceless] in Ha. apply andb_prop in Ha as [Hc Ha].
    change (String c a ++ " " ++ b) with (String c (a ++ " " ++ b)).
    cbn [Api.split]. destruct (Ascii.eqb c " "); [discriminate|].
    now rewrite (IH Ha).
Qed.

Lemma split_spaceless a : Api.spaceless a = true -> Api.split a = [a].
Proof.
  induction a as [|c a IH]; intros Ha; [reflexivity|].
  cbn [Api.spaceless] in Ha. apply andb_prop in Ha as [Hc Ha].
  cbn [Api.split]. destruct (Ascii.eqb c " "); [discriminate|].
  now rewrite (IH Ha).
Qed.

(** X10.  The token is the second space-separated word of the
    Authorization header: the scheme word is never looked at, whatever
    follows a second space is ignored, and a header of one word is answered
    401 without consulting the verifier. *)
Theorem token_is_second_word (scheme token rest : string) :
  Api.spaceless scheme = true ->
  Api.spaceless token = true ->
  Api.verifyToken verifyIdToken (Some (scheme ++ " " ++ token ++ " " ++ rest))
    = Api.verifyToken verifyIdToken (Some ("Bearer " ++ token)) /\
  Api.verifyToken verifyIdToken (Some (scheme ++ " " ++ token))
    = Api.verifyToken verifyIdToken (Some ("Bearer " ++ token)) /\
  Api.verifyToken verifyIdToken (Some scheme)
    = Api.Stop (Api.Text 401 "Unauthorized: No token provided").
Proof.
  intros Hs Ht. unfold Api.verifyToken.
  change ("Bearer " ++ token) with ("Bearer" ++ " " ++ token).
  rewrite (split_word scheme (token ++ " " ++ rest) Hs), (split_word token rest Ht).
  rewrite (split_word scheme token Hs), (split_word "Bearer" token eq_refl).
  rewrite (split_spaceless token Ht), (split_spaceless scheme Hs).
  repeat split; reflexivity.
Qed.

Lemma toLowerCase_nonempty r s :
  Str.toLowerCase r = s -> Str.isEmpty s = false -> Str.isEmpty r = false.
Proof. intros <-. now destruct r. Qed.

Lemma includesRole_In allowedRoles role :
  Api.includesRole allowedRoles role = true <-> In (Str.toLowerCase role) allowedRoles.
Proof.
  unfold Api.includesRole. rewrite existsb_exists. split.
  - intros (a & Hin & Heq). apply String.eqb_eq in Heq. now subst.
  - intros Hin. exists (Str.toLowerCase role). split; [exact Hin | apply String.eqb_refl].
Qed.

(** What lets a request through [verifyRole]. *)
Lemma verifyRole_next allowedRoles u users d :
  Api.verifyRole allowedRoles (Some u) users = Api.Next d <->
  Str.isEmpty (Api.uid u) = false /\
  Api.findOne "uid" (VStr (Api.uid u)) users = Some d /\
  exists r, Obj.get d "role" = Some (BPrim (VStr r)) /\
            Str.isEmpty r = false /\
            In (Str.toLowerCase r) allowedRoles.
Proof.
  unfold Api.verifyRole. split.
  - destruct (Str.isEmpty (Api.uid u)); [discriminate|].
    destruct (Api.findOne "uid" (VStr (Api.uid u)) users) as [dbUser|]; [|discriminate].
    destruct (Obj.get dbUser "role") as [[[| | b | n | r]| | |]|] eqn:Hrole;
      try discriminate; try (destruct (truthy _); discriminate).
    destruct (Str.isEmpty r) eqn:Hr; [discriminate|]. cbn [negb andb].
    destruct (Api.includesRole allowedRoles r) eqn:Hinc; [|discriminate].
    intros [= <-]. split; [reflexivity|]. split; [reflexivity|].
    exists r. rewrite <- includesRole_In. auto.
  - intros (Hu & Hfind & r & Hrole & Hr & Hin).
    rewrite Hu, Hfind, Hrole, Hr. apply includesRole_In in Hin. now rewrite Hin.
Qed.

(** X11.  The development bypass: whatever the verifier decides, the token
    DEV_TOKEN is accepted as the fixed user test-uid-123, and when the first
    stored user with that uid has the role admin (in any letter case) the
    request also passes the admin gate. *)
Theorem dev_token_passes_admin_gate (scheme : string) (users : list doc) (d : doc) (r : string) :
  Api.spaceless scheme = true ->
  Api.findOne "uid" (VStr "test-uid-123") users = Some d ->
  Obj.get d "role" = Some (BPrim (VStr r)) ->
  Str.toLowerCase r = "admin" ->
  Api.verifyToken verifyIdToken (Some (scheme ++ " DEV_TOKEN")) = Api.Next Api.devUser /\
  Api.verifyRole ["admin"] (Some Api.devUser) users = Api.Next d.
Proof.
  intros Hs Hfind Hrole Hlow. split.
  - unfold Api.verifyToken.
    change (scheme ++ " DEV_TOKEN") with (scheme ++ " " ++ "DEV_TOKEN").
    rewrite (split_word scheme "DEV_TOKEN" Hs). reflexivity.
  - apply verifyRole_next. split; [reflexivity|]. split; [exact Hfind|].
    exists r. split; [exact Hrole|]. split.
    + now apply (toLowerCase_nonempty r "admin").
    + rewrite Hlow. now left.
Qed.

End Middlewares.

Section RoleGate.

(** X12.  [verifyRole] lets a request through exactly when the token has a
    uid, the first stored user with that uid has a non-empty string role,
    and that role in lower case is one of the allowed roles; the document
    handed on is that user. *)
Theorem role_gate_opens_iff (allowedRoles : list string) (u : Api.claims)
    (users : list doc) (d : doc) :
  Api.verifyRole allowedRoles (Some u) users = Api.Next d <->
  Str.isEmpty (Api.uid u) = false /\
  List.find (Coll.matches "uid" (VStr (Api.uid u))) users = Some d /\
  exists r, Obj.get d "role" = Some (BPrim (VStr r)) /\
            Str.isEmpty r = false /\
            In (Str.toLowerCase r) allowedRoles.
Proof. apply verifyRole_next. Qed.

(** X13.  Widening the list of allowed roles never closes the gate: who
    passes [verifyRole(['admin'])] passes [verifyRole(['admin', 'staff'])]
    with the same stored user. *)
Theorem role_gate_is_monotone (allowedRoles allowedRoles' : list string)
    (u : Api.claims) (users : list doc) (d : doc) :
  incl allowedRoles allowedRoles' ->
  Api.verifyRole allowedRoles (Some u) users = Api.Next d ->
  Api.verifyRole allowedRoles' (Some u) users = Api.Next d.
Proof.
  intros Hincl Hpass. apply verifyRole_next in Hpass as (Hu & Hfind & r & Hrole & Hr & Hin).
  apply verifyRole_next. split; [exact Hu|]. split; [exact Hfind|].
  exists r. auto.
Qed.

End RoleGate.

(** ** Updates of the first matching document *)

Section FirstMatch.

Lemma find_split {A} (q : A -> bool) (ds : list A) (d : A) :
  List.find q ds = Some d ->
  exists pre post,
    ds = (pre ++ d :: post)%list /\ (forall x, In x pre -> q x = false) /\ q d = true.
Proof.
  induction ds as [|x ds IH]; [discriminate|]. cbn [List.find].
  destruct (q x) eqn:Hx.
  - intros [= <-]. exists [], ds. split; [reflexivity|]. split; [intros ? []|exact Hx].
  - intros Hfind. destruct (IH Hfind) as (pre & post & -> & Hpre & Hd).
    exists (x :: pre), post. split; [reflexivity|]. split; [|exact Hd].
    intros y [<-|Hy]; auto.
Qed.

Lemma find_at {A} (q : A -> bool) (pre post : list A) (d : A) :
  (forall x, In x pre -> q x = false) -> q d = true ->
  List.find q (pre ++ d :: post) = Some d.
Proof.
  intros Hpre Hd. induction pre as [|x pre IH]; cbn [app List.find].
  - now rewrite Hd.
  - rewrite (Hpre x (or_introl eq_refl)). apply IH. intros y Hy. apply Hpre. now right.
Qed.

Lemma existsb_find {A} (q : A -> bool) (ds : list A) :
  List.existsb q ds = true -> exists d, List.find q ds = Some d.
Proof.
  induction ds as [|x ds IH]; [discriminate|]. cbn [List.existsb List.find].
  destruct (q x); [eauto | exact IH].
Qed.

Lemma find_existsb {A} (q : A -> bool) (ds : list A) :
  List.find q ds = None -> List.existsb q ds = false.
Proof.
  induction ds as [|x ds IH]; [reflexivity|]. cbn [List.existsb List.find].
  destruct (q x); [discriminate | exact IH].
Qed.

Lemma updateFirst_at p f (pre post : list doc) (d : doc) :
  (forall x, In x pre -> p x = false) -> p d = true ->
  Api.updateFirst p f (pre ++ d :: post) = (pre ++ f d :: post)%list.
Proof.
  intros Hpre Hd. induction pre as [|x pre IH]; cbn [app Api.updateFirst].
  - now rewrite Hd.
  - rewrite (Hpre x (or_introl eq_refl)). f_equal. apply IH.
    intros y Hy. apply Hpre. now right.
Qed.

Lemma updateFirst_none p f (ds : list doc) :
  List.existsb p ds = false -> Api.updateFirst p f ds = ds.
Proof.
  induction ds as [|x ds IH]; [reflexivity|]. cbn [List.existsb Api.updateFirst].
  destruct (p x); [discriminate|]. intros H. now rewrite (IH H).
Qed.

Lemma updateFirst_length p f (ds : list doc) :
  List.length (Api.updateFirst p f ds) = List.length ds.
Proof.
  induction ds as [|x ds IH]; [reflexivity|]. cbn [Api.updateFirst].
  destruct (p x); cbn [List.length]; congruence.
Qed.

Lemma updateFirst_fields p f k (ds : list doc) :
  (forall d, Obj.get (f d) k = Obj.get d k) ->
  List.map (fun d => Obj.get d k) (Api.updateFirst p f ds)
    = List.map (fun d => Obj.get d k) ds.
Proof.
  intros Hf. induction ds as [|x ds IH]; [reflexivity|]. cbn [Api.updateFirst].
  destruct (p x); cbn [List.map]; [now rewrite Hf | now rewrite IH].
Qed.

(** A search that cannot tell [f d] from [d] and never stops at a document
    that the update selects sees the collection as it was. *)
Lemma find_updateFirst_other p q f (ds : list doc) :
  (forall d, q (f d) = q d) ->
  (forall d, p d = true -> q d = false) ->
  List.find q (Api.updateFirst p f ds) = List.find q ds.
Proof.
  intros Hf Hpq. induction ds as [|x ds IH]; [reflexivity|]. cbn [Api.updateFirst].
  destruct (p x) eqn:Hp; cbn [List.find].
  - now rewrite Hf, (Hpq x Hp).
  - now rewrite IH.
Qed.

Lemma matches_set_ne k k' v b (d : doc) :
  k <> k' -> Coll.matches k v (Obj.set d k' b) = Coll.matches k v d.
Proof. intros Hk. unfold Coll.matches. now rewrite get_set_ne. Qed.

Lemma matches_set_eq k v (d : doc) :
  Coll.matches k v (Obj.set d k (BPrim v)) = true.
Proof. unfold Coll.matches. rewrite get_set_eq. apply bson_eqb_refl. Qed.

Lemma matches_str k s s' (d : doc) :
  Coll.matches k (VStr s) d = true -> Coll.matches k (VStr s') d = true -> s = s'.
Proof.
  unfold Coll.matches. destruct (Obj.get d k) as [[[| | | |x]| | |]|]; try discriminate.
  cbn. intros H1 H2. apply String.eqb_eq in H1, H2. congruence.
Qed.

End FirstMatch.

(** ** PATCH /api/users/:uid/role *)

Section RoleUpdate.

Lemma valid_role_cases (s : string) :
  List.existsb (fun a => String.eqb a s) Api.validRoles = true ->
  s = "admin" \/ s = "staff" \/ s = "candidate".
Proof.
  unfold Api.validRoles. cbn [List.existsb].
  destruct (String.eqb_spec "admin" s); [auto|].
  destruct (String.eqb_spec "staff" s); [auto|].
  destruct (String.eqb_spec "candidate" s); [auto|]. discriminate.
Qed.

Lemma updateUserRole_ok uidParam role users users' body :
  Api.updateUserRole uidParam role users = (users', Api.Json 200 body) ->
  exists r,
    role = VStr r /\
    List.existsb (fun a => String.eqb a (Str.toLowerCase r)) Api.validRoles = true /\
    List.existsb (Coll.matches "uid" (VStr uidParam)) users = true /\
    users' = Api.updateFirst (Coll.matches "uid" (VStr uidParam))
               (fun d => Obj.set d "role" (BPrim (VStr (Str.toLowerCase r)))) users.
Proof.
  unfold Api.updateUserRole. destruct role as [| | b | n | r]; try discriminate.
  cbv zeta.
  destruct (List.existsb _ Api.validRoles) eqn:Hvalid; [|discriminate].
  destruct (List.existsb _ users) eqn:Hex; [|discriminate].
  intros [= <- _]. exists r. auto.
Qed.

(** X14.  After a 200 of the role update, the role gate admits the updated
    uid for exactly the lists that contain the new role in lower case, and
    decides as before for every other uid. *)
Theorem role_update_round_trip (uidParam : string) (role : jsval)
    (users users' : list doc) (body : doc) (em : jsval) :
  Api.updateUserRole uidParam role users = (users', Api.Json 200 body) ->
  Str.isEmpty uidParam = false ->
  exists r d',
    role = VStr r /\
    In (Str.toLowerCase r) Api.validRoles /\
    Obj.get d' "role" = Some (BPrim (VStr (Str.toLowerCase r))) /\
    (forall allowedRoles,
       In (Str.toLowerCase r) allowedRoles ->
       Api.verifyRole allowedRoles (Some (Api.Claims uidParam em)) users' = Api.Next d') /\
    (forall allowedRoles other em',
       other <> uidParam ->
       Api.verifyRole allowedRoles (Some (Api.Claims other em')) users'
         = Api.verifyRole allowedRoles (Some (Api.Claims other em')) users).
Proof.
  intros Hrun Hu.
  destruct (updateUserRole_ok _ _ _ _ _ Hrun) as (r & Hr & Hvalid & Hex & Hu').
  subst role users'.
  destruct (existsb_find _ _ Hex) as (d & Hfind).
  destruct (find_split _ _ _ Hfind) as (pre & post & Hsplit & Hpre & Hd).
  subst users.
  pose proof (valid_role_cases _ Hvalid) as Hcases.
  exists r, (Obj.set d "role" (BPrim (VStr (Str.toLowerCase r)))).
  split; [reflexivity|]. split.
  { unfold Api.validRoles. destruct Hcases as [E | [E | E]]; rewrite E; cbn; auto. }
  split; [apply get_set_eq|]. split.
  - intros allowedRoles Hin. apply verifyRole_next. cbn [Api.uid].
    split; [exact Hu|]. split.
    + unfold Api.findOne. rewrite (updateFirst_at _ _ pre post d Hpre Hd).
      apply find_at; [exact Hpre|]. now rewrite matches_set_ne by discriminate.
    + exists (Str.toLowerCase r). split; [apply get_set_eq|].
      destruct Hcases as [E|[E|E]]; rewrite E in *; split; auto.
  - intros allowedRoles other em' Hother. unfold Api.verifyRole. cbn [Api.uid].
    unfold Api.findOne. rewrite find_updateFirst_other; [reflexivity| |].
    + intros x. apply matches_set_ne. discriminate.
    + intros x Hx. destruct (Coll.matches "uid" (VStr other) x) eqn:Hy; [|reflexivity].
      exfalso. apply Hother. symmetry. exact (matches_str _ _ _ _ Hx Hy).
Qed.

(** X15.  The role update never adds or removes a user and never touches a
    field other than [role]; unless it answers 200 it changes nothing. *)
Theorem role_update_touches_role_only (uidParam : string) (role : jsval)
    (users : list doc) :
  let users' := fst (Api.updateUserRole uidParam role users) in
  List.length users' = List.length users /\
  (forall k, k <> "role" ->
     List.map (fun d => Obj.get d k) users' = List.map (fun d => Obj.get d k) users) /\
  ((forall body, snd (Api.updateUserRole uidParam role users) <> Api.Json 200 body) ->
   users' = users).
Proof.
  cbv zeta. unfold Api.updateUserRole.
  destruct role as [| | b | n | r]; cbn [fst snd]; try (repeat split; auto; fail).
  cbv zeta. destruct (List.existsb _ Api.validRoles); [|repeat split; auto].
  destruct (List.existsb _ users); [|repeat split; auto].
  cbn [fst snd]. split; [apply updateFirst_length|]. split.
  - intros k Hk. apply updateFirst_fields. intros d. now apply get_set_ne.
  - intros Hno. now destruct (Hno _ eq_refl).
Qed.

End RoleUpdate.

(** ** GET /api/users/me *)

Section UsersMe.

Lemma byId_self (d : doc) : Api.byId (Obj.get d "_id") d = true.
Proof.
  unfold Api.byId. destruct (Obj.get d "_id") as [b|]; [|reflexivity].
  destruct (Api.nullish (Some b)); [reflexivity | apply bson_eqb_refl].
Qed.

Lemma distinctIds_before (pre post : list doc) (d : doc) :
  Api.distinctIds (pre ++ d :: post)%list ->
  forall x, In x pre -> Api.byId (Obj.get d "_id") x = false.
Proof.
  intros Hdis x Hx. apply list_elem_of_In in Hx.
  apply list_elem_of_lookup_1 in Hx as [i Hi].
  destruct (Api.byId (Obj.get d "_id") x) eqn:Hb; [|reflexivity]. exfalso.
  pose proof (lookup_lt_Some _ _ _ Hi) as Hlt.
  assert (Hd : (pre ++ d :: post)%list !! List.length pre = Some d)
    by apply list_lookup_middle, eq_refl.
  assert (Hx : (pre ++ d :: post)%list !! i = Some x) by now apply lookup_app_l_Some.
  pose proof (Hdis _ _ _ _ Hd Hx Hb). lia.
Qed.

(** X16.  Asking for the own user twice is the same as asking once: when
    the first call linked the uid to a user found by email, the second
    finds that user by uid, answers the same document and changes
    nothing. *)
Theorem users_me_is_idempotent (u : Api.claims) (users users' : list doc) (r : Api.reply) :
  Api.distinctIds users ->
  Api.usersMe u users = (users', r) ->
  Api.usersMe u users' = (users', r) /\ List.length users' = List.length users.
Proof.
  intros Hdis. unfold Api.usersMe at 1.
  destruct (Api.findOne "uid" (VStr (Api.uid u)) users) as [user|] eqn:Huid.
  { intros [= <- <-]. unfold Api.usersMe. now rewrite Huid. }
  destruct (if truthy (Api.email u) then Api.findOne "email" (Api.email u) users else None)
    as [user|] eqn:Hemail.
  - intros [= <- <-]. split; [|apply updateFirst_length].
    destruct (truthy (Api.email u)); [|discriminate].
    destruct (find_split _ _ _ Hemail) as (pre & post & Hsplit & _ & _). subst users.
    rewrite (updateFirst_at _ _ pre post user
               (distinctIds_before pre post user Hdis) (byId_self user)).
    assert (Hnow : Api.findOne "uid" (VStr (Api.uid u))
                     (pre ++ (Obj.set user "uid" (BPrim (VStr (Api.uid u))) : doc) :: post)%list
                   = Some (Obj.set user "uid" (BPrim (VStr (Api.uid u))))).
    { apply find_at; [|apply matches_set_eq].
      intros x Hx. apply (find_none _ _ Huid). apply in_or_app. now left. }
    unfold Api.usersMe. cbv beta. now rewrite Hnow.
  - intros [= <- <-]. unfold Api.usersMe. now rewrite Huid, Hemail.
Qed.

End UsersMe.

(** ** POST /api/users/register-role *)

Section RegisterRole.

Lemma lower_char_idem (c : ascii) :
  Str.lower_char (Str.lower_char c) = Str.lower_char c.
Proof. destruct c as [[] [] [] [] [] [] [] []]; reflexivity. Qed.

Lemma toLowerCase_idem (s : string) :
  Str.toLowerCase (Str.toLowerCase s) = Str.toLowerCase s.
Proof.
  unfold Str.toLowerCase. induction s as [|c s IH]; [reflexivity|].
  cbn [Str.map]. now rewrite lower_char_idem, IH.
Qed.

Lemma toLowerCase_isEmpty (s : string) :
  Str.isEmpty (Str.toLowerCase s) = Str.isEmpty s.
Proof. now destruct s. Qed.

Lemma userData_uid_role userRole now body (d : doc) :
  Obj.get (Api.setFields (Api.userData userRole now body) d) "uid"
    = Some (BPrim (prop body "uid")) /\
  Obj.get (Api.setFields (Api.userData userRole now body) d) "role"
    = Some (BPrim (VStr userRole)).
Proof.
  unfold Api.setFields, Api.userData. cbn [List.fold_left fst snd].
  split; rewrite !get_set_ne by discriminate; apply get_set_eq.
Qed.

(** X17.  Registration never inserts: the number of users is unchanged, and
    for a uid that no stored user has the collection stays as it is while
    the answer still reports the profile as synchronized. *)
Theorem register_role_never_inserts (now : Z) (body : Obj.obj jsval) (users : list doc) :
  List.length (fst (Api.registerRole now body users)) = List.length users /\
  (List.existsb (Coll.matches "uid" (prop body "uid")) users = false ->
   fst (Api.registerRole now body users) = users /\
   forall r, prop body "role" ||| VStr "candidate" = VStr r ->
     truthy (prop body "uid") = true ->
     snd (Api.registerRole now body users)
       = Api.Json 200
           [ ("message", BPrim (VStr "User and Candidate profile synchronized"));
             ("uid", BPrim (prop body "uid"));
             ("role", BPrim (VStr (Str.toLowerCase r))) ]).
Proof.
  unfold Api.registerRole. cbv zeta. split.
  - destruct (prop body "role" ||| VStr "candidate"); try reflexivity.
    destruct (truthy (prop body "uid")); cbn [negb fst]; [apply updateFirst_length | reflexivity].
  - intros Hnone. split.
    + destruct (prop body "role" ||| VStr "candidate"); try reflexivity.
      destruct (truthy (prop body "uid")); cbn [negb fst]; [|reflexivity].
      now apply updateFirst_none.
    + intros r -> ->. reflexivity.
Qed.

(** X18.  Registration, a route without any middleware, rewrites the role
    of an existing user to whatever non-empty string the body gives, in
    lower case: afterwards the role gate admits that uid for every list
    that contains this role. *)
Theorem register_role_grants_role (now : Z) (body : Obj.obj jsval) (users : list doc)
    (u r : string) (d : doc) (em : jsval) :
  prop body "uid" = VStr u -> Str.isEmpty u = false ->
  prop body "role" = VStr r -> Str.isEmpty r = false ->
  Api.findOne "uid" (VStr u) users = Some d ->
  forall allowedRoles,
    In (Str.toLowerCase r) allowedRoles ->
    Api.verifyRole allowedRoles (Some (Api.Claims u em))
      (fst (Api.registerRole now body users))
    = Api.Next (Api.setFields (Api.userData (Str.toLowerCase r) now body) d).
Proof.
  intros Hu Hune Hr Hrne Hfind allowedRoles Hin.
  unfold Api.registerRole. cbv zeta. unfold JS.or. rewrite Hr, Hu.
  cbn [truthy]. rewrite Hrne, Hune. cbn [negb fst].
  destruct (find_split _ _ _ Hfind) as (pre & post & Hsplit & Hpre & Hd). subst users.
  rewrite (updateFirst_at _ _ pre post d Hpre Hd).
  destruct (userData_uid_role (Str.toLowerCase r) now body d) as (Guid & Grole).
  apply verifyRole_next. cbn [Api.uid]. split; [exact Hune|]. split.
  - apply find_at; [exact Hpre|]. unfold Coll.matches. rewrite Guid, Hu.
    apply bson_eqb_refl.
  - exists (Str.toLowerCase r). split; [exact Grole|].
    rewrite toLowerCase_isEmpty, toLowerCase_idem. auto.
Qed.

End RegisterRole.

(** ** Interviews *)

Section Interviews.

Variable ObjectId : string -> option nat.
Variable generated : nat -> number -> nat.

Lemma candidateOid_some_twice v cid :
  Api.candidateOid ObjectId generated 0 v = Some cid ->
  exists cid', Api.candidateOid ObjectId generated 1 v = Some cid'.
Proof. destruct v; cbn; try discriminate; eauto. Qed.

(** X19.  Scheduling either answers 201, and then exactly one interview was
    appended (status Scheduled, the requester as scheduledBy, the id of the
    answer) and the candidates differ at most in [status], or it answers
    something else and both collections are as before. *)
Theorem schedule_interview_effects (u : Api.claims) (now : Z) (body : Obj.obj jsval)
    (interviews candidates interviews' candidates' : list doc) (r : Api.reply) :
  Api.scheduleInterview ObjectId generated u now body interviews candidates
    = (interviews', candidates', r) ->
  List.length candidates' = List.length candidates /\
  (forall k, k <> "status" ->
     List.map (fun d => Obj.get d k) candidates'
       = List.map (fun d => Obj.get d k) candidates) /\
  match r with
  | Api.Json 201 answer =>
      exists cid new,
        Api.candidateOid ObjectId generated 0 (prop body "candidateId") = Some cid /\
        interviews' = (interviews ++ [new])%list /\
        Obj.get new "_id" = Some (BOid (Coll.fresh_oid interviews)) /\
        Obj.get answer "id" = Some (BOid (Coll.fresh_oid interviews)) /\
        Obj.get new "candidateId" = Some (BOid cid) /\
        Obj.get new "status" = Some (BPrim (VStr "Scheduled")) /\
        Obj.get new "scheduledBy" = Some (BPrim (VStr (Api.uid u)))
  | _ => interviews' = interviews /\ candidates' = candidates
  end.
Proof.
  unfold Api.scheduleInterview. cbv zeta.
  destruct (negb (truthy (prop body "candidateId")) || negb (truthy (prop body "date"))
            || negb (truthy (prop body "time"))).
  { intros [= <- <- <-]. auto. }
  destruct (Api.candidateOid ObjectId generated 0 (prop body "candidateId"))
    as [cid|] eqn:Hcid; [|intros [= <- <- <-]; auto].
  destruct (candidateOid_some_twice _ _ Hcid) as (cid' & Hcid').
  unfold Coll.insertOne. cbn [Obj.get String.eqb Ascii.eqb Bool.eqb]. rewrite Hcid'.
  intros [= <- <- <-]. split; [apply updateFirst_length|]. split.
  - intros k Hk. apply updateFirst_fields. intros d. now apply get_set_ne.
  - eexists cid, _. split; [reflexivity|]. split; [reflexivity|]. repeat split.
Qed.

Lemma lookupUnwind_in (interviews candidates : list doc) (i c : doc) :
  In (i, c) (Api.lookupUnwind interviews candidates) <->
  In i interviews /\ In c candidates /\ Api.joins i c = true.
Proof.
  unfold Api.lookupUnwind. rewrite in_flat_map. split.
  - intros (i' & Hi & Hin). apply in_map_iff in Hin as (c' & [= <- <-] & Hc).
    apply filter_In in Hc as (Hc & Hj). auto.
  - intros (Hi & Hc & Hj). exists i. split; [exact Hi|].
    apply in_map_iff. exists c. split; [reflexivity|]. apply filter_In. auto.
Qed.

Lemma joins_oid (i c : doc) (n : nat) :
  Obj.get i "candidateId" = Some (BOid n) ->
  Api.joins i c = Api.byId (Some (BOid n)) c.
Proof. intros Hi. unfold Api.joins, Api.byId. rewrite Hi. reflexivity. Qed.

Lemma completeOverdue_candidateId today (interviews : list doc) (i : doc) :
  In i (Api.completeOverdue today interviews) ->
  exists i0, In i0 interviews /\ Obj.get i "candidateId" = Obj.get i0 "candidateId".
Proof.
  unfold Api.completeOverdue, Api.updateAll. intros Hin.
  apply in_map_iff in Hin as (i0 & <- & Hi0). exists i0. split; [exact Hi0|].
  destruct (Api.overdue today i0); [now apply get_set_ne | reflexivity].
Qed.

(** Rows of the listing only exist for candidates that are stored. *)
Lemma no_candidate_no_row now (interviews candidates : list doc) (n : nat) (i c : doc) :
  List.existsb (Api.byId (Some (BOid n))) candidates = false ->
  In (i, c) (snd (Api.listInterviews now interviews candidates)) ->
  Obj.get i "candidateId" <> Some (BOid n).
Proof.
  intros Hnone Hin Hi. unfold Api.listInterviews in Hin. cbv zeta in Hin. cbn [snd] in Hin.
  apply lookupUnwind_in in Hin as (_ & Hc & Hj).
  rewrite (joins_oid i c n Hi) in Hj.
  assert (List.existsb (Api.byId (Some (BOid n))) candidates = true)
    by (apply existsb_exists; eauto).
  congruence.
Qed.

(** X20.  An interview can be scheduled for a well-formed id that no
    candidate has: the answer is 201, the interview is stored and no
    candidate changes, yet no listing will ever show that interview, since
    the listing keeps a row only where the candidate is found. *)
Theorem interview_without_candidate_is_hidden (u : Api.claims) (now : Z)
    (body : Obj.obj jsval) (interviews candidates : list doc) (s : string) (n : nat) :
  prop body "candidateId" = VStr s ->
  Str.isEmpty s = false ->
  truthy (prop body "date") = true ->
  truthy (prop body "time") = true ->
  ObjectId s = Some n ->
  List.existsb (Api.byId (Some (BOid n))) candidates = false ->
  exists new answer,
    Api.scheduleInterview ObjectId generated u now body interviews candidates
      = ((interviews ++ [new])%list, candidates, Api.Json 201 answer) /\
    Obj.get new "candidateId" = Some (BOid n) /\
    forall now' i c,
      In (i, c) (snd (Api.listInterviews now' (interviews ++ [new]) candidates)) ->
      Obj.get i "candidateId" <> Some (BOid n).
Proof.
  intros Hid Hs Hdate Htime Hoid Hnone.
  unfold Api.scheduleInterview. cbv zeta. rewrite Hid, Hdate, Htime.
  cbn [truthy]. rewrite Hs. cbn [negb orb Api.candidateOid]. rewrite Hoid.
  unfold Coll.insertOne. cbn [Obj.get String.eqb Ascii.eqb Bool.eqb].
  rewrite (updateFirst_none _ _ _ Hnone).
  eexists _, _. split; [reflexivity|]. split; [reflexivity|].
  intros now' i c. now apply no_candidate_no_row.
Qed.

Lemma overdue_completed today (d : doc) :
  Api.overdue today (Obj.set d "status" (BPrim (VStr "Completed"))) = false.
Proof. unfold Api.overdue, Coll.matches. now rewrite get_set_eq. Qed.

Lemma completeOverdue_settled today (interviews : list doc) :
  List.forallb (fun d => negb (Api.overdue today d))
    (Api.completeOverdue today interviews) = true.
Proof.
  unfold Api.completeOverdue, Api.updateAll.
  induction interviews as [|d ds IH]; [reflexivity|]. cbn [List.map List.forallb].
  rewrite IH, andb_true_r. destruct (Api.overdue today d) eqn:Hd.
  - now rewrite overdue_completed.
  - now rewrite Hd.
Qed.

Lemma updateAll_none p f (ds : list doc) :
  List.forallb (fun d => negb (p d)) ds = true -> Api.updateAll p f ds = ds.
Proof.
  unfold Api.updateAll. induction ds as [|d ds IH]; [reflexivity|].
  cbn [List.forallb List.map]. intros H. apply andb_prop in H as [Hd Hds].
  rewrite (IH Hds). now destruct (p d).
Qed.

(** X21.  The automatic completion keeps the number of interviews and every
    field but [status], leaves no scheduled interview dated before today,
    and running it again changes nothing. *)
Theorem auto_completion_settles (today : string) (interviews : list doc) :
  let interviews' := Api.completeOverdue today interviews in
  List.length interviews' = List.length interviews /\
  (forall k, k <> "status" ->
     List.map (fun d => Obj.get d k) interviews'
       = List.map (fun d => Obj.get d k) interviews) /\
  (forall d date,
     In d interviews' ->
     Obj.get d "status" = Some (BPrim (VStr "Scheduled")) ->
     Obj.get d "date" = Some (BPrim (VStr date)) ->
     Api.strLt date today = false) /\
  Api.completeOverdue today interviews' = interviews'.
Proof.
  cbv zeta. split; [apply length_map|]. split; [|split].
  - intros k Hk. unfold Api.completeOverdue, Api.updateAll. rewrite map_map.
    apply map_ext. intros d. destruct (Api.overdue today d); [now apply get_set_ne | reflexivity].
  - intros d date Hin Hst Hdate.
    pose proof (completeOverdue_settled today interviews) as Hall.
    rewrite forallb_forall in Hall. specialize (Hall d Hin).
    unfold Api.overdue, Coll.matches in Hall. rewrite Hst, Hdate in Hall.
    cbn in Hall. now destruct (Api.strLt date today).
  - apply updateAll_none, completeOverdue_settled.
Qed.

Lemma strLt_irrefl (a : string) : Api.strLt a a = false.
Proof.
  induction a as [|x a IH]; [reflexivity|]. cbn [Api.strLt].
  now rewrite Nat.ltb_irrefl, IH, andb_false_r.
Qed.

Lemma strLt_trans (a : string) : forall b c,
  Api.strLt a b = true -> Api.strLt b c = true -> Api.strLt a c = true.
Proof.
  induction a as [|x a IH]; intros [|y b] [|z c]; cbn [Api.strLt];
    try discriminate; try reflexivity.
  intros Hab Hbc.
  apply orb_prop in Hab as [Hxy|Hxy]; apply orb_prop in Hbc as [Hyz|Hyz].
  - apply Nat.ltb_lt in Hxy, Hyz. apply orb_true_intro. left. apply Nat.ltb_lt. lia.
  - apply andb_prop in Hyz as [Hyz _]. apply Nat.ltb_lt in Hxy. apply Nat.eqb_eq in Hyz.
    apply orb_true_intro. left. apply Nat.ltb_lt. lia.
  - apply andb_prop in Hxy as [Hxy _]. apply Nat.ltb_lt in Hyz. apply Nat.eqb_eq in Hxy.
    apply orb_true_intro. left. apply Nat.ltb_lt. lia.
  - apply andb_prop in Hxy as [Hxy Hab]. apply andb_prop in Hyz as [Hyz Hbc].
    apply Nat.eqb_eq in Hxy, Hyz. apply orb_true_intro. right.
    rewrite (IH _ _ Hab Hbc), andb_true_r. apply Nat.eqb_eq. lia.
Qed.

(** X22.  Listing the interviews never completes an interview whose date is
    not before today's date string; in particular one dated today stays
    Scheduled whatever the time of day. *)
Theorem interview_of_today_stays (now : Z) (interviews candidates : list doc)
    (d : doc) (date : string) :
  In d interviews ->
  Obj.get d "date" = Some (BPrim (VStr date)) ->
  date = Api.isoDate now \/ Api.strLt date (Api.isoDate now) = false ->
  In d (fst (Api.listInterviews now interviews candidates)).
Proof.
  intros Hin Hdate Hnot. unfold Api.listInterviews. cbv zeta. cbn [fst].
  unfold Api.completeOverdue, Api.updateAll. apply in_map_iff. exists d.
  split; [|exact Hin].
  assert (Hlt : Api.strLt date (Api.isoDate now) = false).
  { destruct Hnot as [->|H]; [apply strLt_irrefl | exact H]. }
  unfold Api.overdue. rewrite Hdate, Hlt. now rewrite andb_false_r.
Qed.

(** X23.  A later run of the automatic completion subsumes an earlier one:
    completing for [today] and then for a later date string gives what
    completing for the later date alone gives. *)
Theorem later_completion_subsumes (today today' : string) (interviews : list doc) :
  Api.strLt today today' = true ->
  Api.completeOverdue today' (Api.completeOverdue today interviews)
    = Api.completeOverdue today' interviews.
Proof.
  intros Hlt. unfold Api.completeOverdue, Api.updateAll. rewrite map_map.
  apply map_ext. intros d. destruct (Api.overdue today d) eqn:Hd.
  - rewrite overdue_completed.
    assert (Hd' : Api.overdue today' d = true).
    { unfold Api.overdue in *. apply andb_prop in Hd as [Hs Hdate]. rewrite Hs.
      destruct (Obj.get d "date") as [[[| | | |date]| | |]|]; try discriminate.
      cbn [andb]. exact (strLt_trans _ _ _ Hdate Hlt). }
    now rewrite Hd'.
  - reflexivity.
Qed.

End Interviews.

(** ** Candidates *)

Section Candidates.

Variable ObjectId : string -> option nat.

Lemma deleteFirst_at p (pre post : list doc) (d : doc) :
  (forall x, In x pre -> p x = false) -> p d = true ->
  Api.deleteFirst p (pre ++ d :: post) = (pre ++ post)%list.
Proof.
  intros Hpre Hd. induction pre as [|x pre IH]; cbn [app Api.deleteFirst].
  - now rewrite Hd.
  - rewrite (Hpre x (or_introl eq_refl)). f_equal. apply IH.
    intros y Hy. apply Hpre. now right.
Qed.

Lemma byId_oid (n : nat) (d : doc) :
  Api.byId (Some (BOid n)) d = true -> Obj.get d "_id" = Some (BOid n).
Proof.
  unfold Api.byId. cbn [Api.nullish].
  destruct (Obj.get d "_id") as [[| | |k]|]; try discriminate.
  cbn [bson_eqb]. intros H. apply Nat.eqb_eq in H. now subst.
Qed.

Lemma distinctIds_after (pre post : list doc) (d : doc) :
  Api.distinctIds (pre ++ d :: post)%list ->
  forall x, In x post -> Api.byId (Obj.get d "_id") x = false.
Proof.
  intros Hdis x Hx. apply list_elem_of_In in Hx.
  apply list_elem_of_lookup_1 in Hx as [i Hi].
  destruct (Api.byId (Obj.get d "_id") x) eqn:Hb; [|reflexivity]. exfalso.
  assert (Hd : (pre ++ d :: post)%list !! List.length pre = Some d)
    by apply list_lookup_middle, eq_refl.
  assert (Hx : (pre ++ d :: post)%list !! (List.length pre + S i) = Some x).
  { rewrite lookup_app_r by lia.
    replace (List.length pre + S i - List.length pre) with (S i) by lia. exact Hi. }
  pose proof (Hdis _ _ _ _ Hd Hx Hb). lia.
Qed.

(** X24.  Under the unique index on [_id], a 200 of the deletion removed
    exactly one candidate and kept the others in order; asking again is
    answered 404 and changes nothing, and no listing of interviews has a
    row for the deleted id any more. *)
Theorem delete_removes_the_candidate (id : string) (candidates candidates' : list doc)
    (answer : doc) :
  Api.distinctIds candidates ->
  Api.deleteCandidate ObjectId id candidates = (candidates', Api.Json 200 answer) ->
  exists n pre d post,
    ObjectId id = Some n /\
    Obj.get d "_id" = Some (BOid n) /\
    candidates = (pre ++ d :: post)%list /\
    candidates' = (pre ++ post)%list /\
    Api.deleteCandidate ObjectId id candidates'
      = (candidates', Api.Text 404 "Candidate not found") /\
    forall now interviews i c,
      In (i, c) (snd (Api.listInterviews now interviews candidates')) ->
      Obj.get i "candidateId" <> Some (BOid n).
Proof.
  intros Hdis. unfold Api.deleteCandidate.
  destruct (ObjectId id) as [n|]; [|discriminate].
  destruct (List.existsb (Api.byId (Some (BOid n))) candidates) eqn:Hex; [|discriminate].
  intros [= <- _].
  destruct (existsb_find _ _ Hex) as (d & Hfind).
  destruct (find_split _ _ _ Hfind) as (pre & post & Hsplit & Hpre & Hd). subst candidates.
  pose proof (byId_oid n d Hd) as Hid.
  rewrite (deleteFirst_at _ pre post d Hpre Hd).
  assert (Hgone : List.existsb (Api.byId (Some (BOid n))) (pre ++ post) = false).
  { rewrite existsb_app. apply orb_false_intro.
    - apply find_existsb. destruct (List.find _ pre) as [x|] eqn:Hx; [|reflexivity].
      apply find_some in Hx as [Hin Hp]. rewrite (Hpre x Hin) in Hp. discriminate.
    - apply find_existsb. destruct (List.find _ post) as [x|] eqn:Hx; [|reflexivity].
      apply find_some in Hx as [Hin Hp].
      pose proof (distinctIds_after pre post d Hdis x Hin) as Hno.
      rewrite Hid in Hno. congruence. }
  exists n, pre, d, post. split; [reflexivity|]. split; [exact Hid|].
  split; [reflexivity|]. split; [reflexivity|]. split.
  - now rewrite Hgone.
  - intros now interviews i c. now apply no_candidate_no_row.
Qed.

End Candidates.

(** ** The upload seen through the other routes *)

Section AfterUpload.

Variable e : env.

(** What the loop stages without an [_id] comes from an accepted row and
    carries [String(phone)] of that row. *)
Lemma processRows_plain_phones uid h headers imageMap dataRows :
  forall idx t w t' w',
  Forall keyed (docs w) ->
  processRows e uid h headers imageMap idx dataRows t w = (w', Ok t') ->
  exists P,
    processed t' = (processed t ++ P)%list /\
    forall c, In c P -> plain c ->
      exists r, In r dataRows /\
        invalid (rowDraft headers r) = false /\
        Obj.get c "phone"
          = Some (BPrim (VStr (toString (phone (rowDraft headers r))))).
Proof.
  induction dataRows as [|r rest IH]; intros idx t w t' w' Hkeyed Hrun.
  - injection Hrun as <- <-. exists []. rewrite app_nil_r.
    split; [reflexivity | intros ? []].
  - cbn [processRows] in Hrun. unfold bind in Hrun.
    destruct (processRow_total uid headers imageMap (Z.of_nat (h + 1 + idx))
                (rowClock e idx) r t w) as (t1 & ds1 & Hstep).
    rewrite Hstep in Hrun.
    pose proof (step_cases uid headers imageMap _ _ _ _ _ _ _ Hstep) as Hcase.
    cbv zeta in Hcase.
    assert (Hlater : forall P : list doc,
              (forall c, In c P -> plain c ->
                 exists r0, In r0 rest /\
                   invalid (rowDraft headers r0) = false /\
                   Obj.get c "phone"
                     = Some (BPrim (VStr (toString (phone (rowDraft headers r0)))))) ->
              forall c, In c P -> plain c ->
                 exists r0, In r0 (r :: rest) /\
                   invalid (rowDraft headers r0) = false /\
                   Obj.get c "phone"
                     = Some (BPrim (VStr (toString (phone (rowDraft headers r0)))))).
    { intros P HP c Hc Hpl. destruct (HP c Hc Hpl) as (r0 & Hr0 & Hrest).
      exists r0. split; [now right | exact Hrest]. }
    destruct Hcase as [(_ & Hw & Hp & _)
                      |[(_ & _ & _ & Hw & Ht)
                      |[(_ & ex & photo & Hlook & Hw & Ht)
                       |(Hinv & _ & Hw & item & photo & Ht)]]].
    + rewrite Hw in Hrun. destruct (IH _ _ _ _ _ Hkeyed Hrun) as (P & HP & Hall).
      exists P. rewrite HP, Hp. split; [reflexivity | now apply Hlater].
    + rewrite Hw in Hrun. destruct (IH _ _ _ _ _ Hkeyed Hrun) as (P & HP & Hall).
      exists P. rewrite HP, Ht. split; [reflexivity | now apply Hlater].
    + assert (Hk1 : Forall keyed (docs (World ds1 (files w)))).
      { rewrite Hw. now apply set_first_keyed. }
      destruct (IH _ _ _ _ _ Hk1 Hrun) as (P & HP & Hall).
      exists (merged ex photo :: P). rewrite HP, Ht. cbn [processed push_processed].
      rewrite <- app_assoc. split; [reflexivity|].
      intros c [<-|Hc] Hpl; [|now apply (Hlater P)].
      now destruct (clash_is_not_plain _ _ (found_clashes _ _ _ photo Hkeyed Hlook)).
    + rewrite Hw in Hrun. destruct (IH _ _ _ _ _ Hkeyed Hrun) as (P & HP & Hall).
      eexists (_ :: P). rewrite HP, Ht. cbn [processed push_processed].
      rewrite <- app_assoc. split; [reflexivity|].
      intros c [<-|Hc] Hpl; [|now apply (Hlater P)].
      exists r. split; [now left|]. split; [exact Hinv | reflexivity].
Qed.

Lemma phoneTexts_app (a b : list doc) (x y : list string) :
  Api.phoneTexts a = Some x -> Api.phoneTexts b = Some y ->
  Api.phoneTexts (a ++ b) = Some (x ++ y)%list.
Proof.
  revert x; induction a as [|d a IH]; intros x; cbn [Api.phoneTexts app].
  - now intros [= <-].
  - destruct (Api.joinText (Obj.get d "phone")) as [line|]; [|discriminate].
    destruct (Api.phoneTexts a) as [ts|]; [|discriminate].
    intros [= <-] Hb. now rewrite (IH ts eq_refl Hb).
Qed.

Lemma phoneTexts_added (P added : list doc) :
  Forall2 (fun c n => exists k : nat, n = ("_id", BOid k) :: c) P added ->
  (forall c, In c P -> exists s, Obj.get c "phone" = Some (BPrim (VStr s))) ->
  exists new,
    Api.phoneTexts added = Some new /\
    Forall2 (fun c line => Obj.get c "phone" = Some (BPrim (VStr line))) P new.
Proof.
  induction 1 as [|c n P added (k & ->) _ IH]; intros Hphone.
  - exists []. split; [reflexivity | constructor].
  - destruct IH as (new & Hnew & Hrel); [intros c' Hc'; apply Hphone; now right|].
    destruct (Hphone c (or_introl eq_refl)) as (s & Hs).
    exists (s :: new). split; [|constructor; auto].
    cbn [Api.phoneTexts Obj.get]. change ("_id" =? "phone")%string with false.
    cbv iota. rewrite Hs, Hnew. reflexivity.
Qed.

(** What a 200 tells about the batch: every inserted document is a staged
    one under a fresh [_id], and every staged one has no [_id]. *)
Lemma upload_ok_batch req f wb w w' m a errs :
  file req = Some f ->
  content f = Some wb ->
  Forall keyed (docs w) ->
  uploadCandidates e req w = (w', Json200 m a errs) ->
  exists h headers P added,
    findHeader (rows wb) = Some (h, headers) /\
    docs w' = (docs w ++ added)%list /\
    a = List.length P /\
    Forall2 (fun c n => exists k, n = ("_id", BOid k) :: c) P added /\
    forall c, In c P ->
      exists r, In r (drop (h + 1) (rows wb)) /\
        invalid (rowDraft headers r) = false /\
        Obj.get c "phone"
          = Some (BPrim (VStr (toString (phone (rowDraft headers r))))).
Proof.
  intros Hf Hwb Hkeyed Hrun.
  destruct (upload_ok_inv _ _ _ _ _ _ _ _ _ Hf Hwb Hrun)
    as (w1 & imageMap & h & headers & t & wl & Hext & Hhdr & Hloop & Hins & Ha & _).
  destruct (extractImages_effects e 0 (images wb) ∅ w w1 _ EmptyString
              (map_Forall_empty _) Hext) as (Hdocs & _).
  rewrite <- Hdocs in Hkeyed.
  destruct (processRows_spec e (uid req) h headers imageMap _ _ _ _ _ _ Hkeyed Hloop)
    as (P & E & HP & _ & _ & _ & Hdis & Hfacts).
  destruct (processRows_plain_phones (uid req) h headers imageMap _ _ _ _ _ _ Hkeyed Hloop)
    as (P' & HP' & Hphones).
  cbn [processed app] in HP, HP'. rewrite HP in HP'. subst P'. rewrite HP in Hins, Ha.
  destruct Hdis as [Hall|Hclash].
  - destruct (Hfacts Hall) as (Hsame & _). rewrite Hsame, Hdocs in Hins.
    destruct (insertAll_plain P (docs w) Hall) as (added & Hadd & Hrel).
    rewrite Hadd in Hins. injection Hins as Hw'.
    exists h, headers, P, added. split; [exact Hhdr|]. split; [now symmetry|].
    split; [exact Ha|]. split; [exact Hrel|].
    intros c Hc. apply (Hphones c Hc).
    rewrite Forall_forall in Hall. apply Hall. now apply list_elem_of_In.
  - exfalso. apply (insertAll_refuses P (docs wl) (docs w')); [|exact Hins].
    destruct (processRows_spec e (uid req) h headers imageMap _ _ _ _ _ _ Hkeyed Hloop)
      as (P2 & E2 & HP2 & _ & _ & Hids & _ & _).
    eapply Exists_impl; [exact Hclash|].
    intros c (id & Hid & Hkey & Hin). exists id. repeat split; auto.
    now rewrite Hids.
Qed.

(** X25.  After an upload answered 200, the phone list is the old list
    followed by exactly [count] new lines, and each new line is
    [String(phone)] of a data row that passed validation (the text
    undefined for a row accepted on its email alone). *)
Theorem upload_extends_phone_list req f wb w w' m a errs (old : list string) :
  file req = Some f ->
  content f = Some wb ->
  Forall keyed (docs w) ->
  uploadCandidates e req w = (w', Json200 m a errs) ->
  Api.phoneTexts (docs w) = Some old ->
  exists h headers new,
    findHeader (rows wb) = Some (h, headers) /\
    Api.downloadPhones (docs w') = Some (Str.join Api.newline (old ++ new)) /\
    List.length new = a /\
    forall line, In line new ->
      exists r, In r (drop (h + 1) (rows wb)) /\
        invalid (rowDraft headers r) = false /\
        line = toString (phone (rowDraft headers r)).
Proof.
  intros Hf Hwb Hkeyed Hrun Hold.
  destruct (upload_ok_batch _ _ _ _ _ _ _ _ Hf Hwb Hkeyed Hrun)
    as (h & headers & P & added & Hhdr & Hdocs & Ha & Hrel & Hphones).
  destruct (phoneTexts_added P added Hrel) as (new & Hnew & Hlines).
  { intros c Hc. destruct (Hphones c Hc) as (r & _ & _ & Hp). eauto. }
  exists h, headers, new. split; [exact Hhdr|]. split; [|split].
  - unfold Api.downloadPhones. rewrite Hdocs, (phoneTexts_app _ _ _ _ Hold Hnew).
    reflexivity.
  - rewrite Ha. symmetry. exact (Forall2_length _ _ _ Hlines).
  - intros line Hline.
    destruct (Forall2_in_r _ _ _ _ Hlines Hline) as (c & Hc & Hcl).
    destruct (Hphones c Hc) as (r & Hr & Hinv & Hp).
    exists r. split; [exact Hr|]. split; [exact Hinv|]. congruence.
Qed.

(** X26.  After an upload answered 200, the own-profile route finds a
    candidate for the email of every data row that passed validation with
    an email: a token carrying that email is answered 200 with a document
    whose email matches. *)
Theorem uploaded_profile_is_found req f wb w w' m a errs :
  file req = Some f ->
  content f = Some wb ->
  Forall keyed (docs w) ->
  uploadCandidates e req w = (w', Json200 m a errs) ->
  exists h headers,
    findHeader (rows wb) = Some (h, headers) /\
    forall r, In r (drop (h + 1) (rows wb)) ->
      let d := rowDraft headers r in
      invalid d = false -> truthy (email d) = true ->
      forall uid', exists c,
        Api.candidatesMe (Api.Claims uid' (email d)) (docs w') = Api.Json 200 c /\
        Coll.matches "email" (email d) c = true.
Proof.
  intros Hf Hwb Hkeyed Hrun.
  destruct (upload_ok_facts _ _ _ _ _ _ _ _ _ Hf Hwb Hkeyed Hrun)
    as (h & headers & P & added & Hhdr & [_ U _] & Hdocs & _ & Hrel).
  exists h, headers. split; [exact Hhdr|].
  intros r Hr d Hinv Hmail uid'.
  assert (Hfound : List.find (Coll.matches "email" (email d)) (docs w') <> None).
  { rewrite Hdocs.
    destruct (List.find (Coll.matches "email" (email d)) (docs w)) eqn:Hfind.
    - apply find_app_found. congruence.
    - destruct (U r Hr Hinv (or_intror Hfind)) as (c & Hc & _ & Hce & _).
      destruct (Forall2_in_l _ _ _ _ Hrel Hc) as (n & Hn & k & ->).
      apply (find_in_found _ _ (("_id", BOid k) :: c)).
      + apply in_or_app. now right.
      + unfold Coll.matches. cbn [Obj.get]. change ("_id" =? "email")%string with false.
        cbv iota. rewrite Hce. apply bson_eqb_refl. }
  unfold Api.candidatesMe. cbn [Api.email]. rewrite Hmail. cbn [negb].
  unfold Api.findOne.
  destruct (List.find (Coll.matches "email" (email d)) (docs w')) as [c|] eqn:Hfind;
    [|congruence].
  exists c. split; [reflexivity|]. now apply find_some in Hfind as [_ Hm].
Qed.

End AfterUpload.

(** ** One row per interview *)

Section Listing.

Lemma distinctIds_tail (c : doc) (cs : list doc) :
  Api.distinctIds (c :: cs) -> Api.distinctIds cs.
Proof.
  intros Hdis i j d d' Hi Hj Hb.
  assert (S i = S j) by (apply (Hdis (S i) (S j) d d'); assumption). lia.
Qed.

Lemma joins_oidKeyed (i c : doc) (n : nat) :
  Obj.get c "_id" = Some (BOid n) -> Api.joins i c = true ->
  Obj.get i "candidateId" = Some (BOid n).
Proof.
  intros Hc. unfold Api.joins. rewrite Hc.
  destruct (Obj.get i "candidateId") as [[[| | | |]| | |k]|]; cbn; try discriminate.
  intros H. apply Nat.eqb_eq in H. now subst.
Qed.

Lemma filter_joins_le1 (i : doc) (cs : list doc) :
  Api.distinctIds cs -> Forall Api.oidKeyed cs ->
  List.length (List.filter (Api.joins i) cs) <= 1.
Proof.
  induction cs as [|c cs IH]; intros Hdis Hkeyed; [cbn; lia|].
  apply Forall_cons_1 in Hkeyed as [(n & Hc) Hkeyed].
  cbn [List.filter]. destruct (Api.joins i c) eqn:Hj.
  - assert (Hnone : List.filter (Api.joins i) cs = []).
    { destruct (List.filter (Api.joins i) cs) as [|x xs] eqn:Hf; [reflexivity|].
      exfalso. assert (Hx : In x (List.filter (Api.joins i) cs)) by (rewrite Hf; now left).
      apply filter_In in Hx as [Hin Hjx].
      rewrite Forall_forall in Hkeyed.
      destruct (Hkeyed x) as (m & Hm); [now apply list_elem_of_In|].
      pose proof (joins_oidKeyed i c n Hc Hj) as H1.
      pose proof (joins_oidKeyed i x m Hm Hjx) as H2.
      rewrite H1 in H2. injection H2 as <-.
      apply list_elem_of_In in Hin. apply list_elem_of_lookup_1 in Hin as [k Hk].
      assert (0 = S k); [|lia].
      apply (Hdis 0 (S k) c x); [reflexivity | exact Hk|].
      rewrite Hc. unfold Api.byId. cbn [Api.nullish]. rewrite Hm. apply bson_eqb_refl. }
    rewrite Hnone. cbn. lia.
  - apply IH; [now apply distinctIds_tail in Hdis | exact Hkeyed].
Qed.

(** X28.  With candidates under distinct ObjectIds, the listing has at most
    one row per interview. *)
Theorem listing_has_one_row_per_interview (now : Z) (interviews candidates : list doc) :
  Api.distinctIds candidates ->
  Forall Api.oidKeyed candidates ->
  List.length (snd (Api.listInterviews now interviews candidates))
    <= List.length interviews.
Proof.
  intros Hdis Hkeyed. unfold Api.listInterviews. cbv zeta. cbn [snd].
  replace (List.length interviews)
    with (List.length (Api.completeOverdue (Api.isoDate now) interviews))
    by apply length_map.
  generalize (Api.completeOverdue (Api.isoDate now) interviews). intros rows.
  unfold Api.lookupUnwind. induction rows as [|i rows IH]; [cbn; lia|].
  cbn [List.flat_map]. rewrite length_app, length_map. cbn [List.length].
  pose proof (filter_joins_le1 i candidates Hdis Hkeyed). lia.
Qed.

End Listing.

(** ** PUT /api/interviews/:id/status *)

Section InterviewStatus.

Variable ObjectId : string -> option nat.

Lemma set_set {V} (d : Obj.obj V) (k : string) (v v' : V) :
  Obj.set (Obj.set d k v) k v' = Obj.set d k v'.
Proof.
  induction d as [|[k0 v0] d IH]; cbn [Obj.set].
  - now rewrite String.eqb_refl.
  - destruct (String.eqb_spec k0 k) as [->|Hne]; cbn [Obj.set].
    + now rewrite String.eqb_refl.
    + destruct (String.eqb_spec k0 k); [contradiction | now rewrite IH].
Qed.

(** X29.  A status set by hand meets the automatic completion: after a 200,
    a status other than Scheduled survives every later listing, while an
    interview put back to Scheduled with a date before today is completed
    again by the next listing. *)
Theorem manual_status_meets_auto_completion (id s : string)
    (interviews interviews' : list doc) (answer : doc) :
  Api.updateInterviewStatus ObjectId id (VStr s) interviews
    = (interviews', Api.Json 200 answer) ->
  exists n d,
    ObjectId id = Some n /\
    In d interviews /\
    Obj.get d "_id" = Some (BOid n) /\
    In (Obj.set d "status" (BPrim (VStr s))) interviews' /\
    (s <> "Scheduled" ->
     forall today,
       In (Obj.set d "status" (BPrim (VStr s))) (Api.completeOverdue today interviews')) /\
    (s = "Scheduled" ->
     forall today date,
       Obj.get d "date" = Some (BPrim (VStr date)) ->
       Api.strLt date today = true ->
       In (Obj.set d "status" (BPrim (VStr "Completed")))
          (Api.completeOverdue today interviews')).
Proof.
  unfold Api.updateInterviewStatus.
  destruct (ObjectId id) as [n|]; [|discriminate].
  destruct (List.existsb (Api.byId (Some (BOid n))) interviews) eqn:Hex; [|discriminate].
  intros [= <- _].
  destruct (existsb_find _ _ Hex) as (d & Hfind).
  destruct (find_split _ _ _ Hfind) as (pre & post & Hsplit & Hpre & Hd). subst interviews.
  rewrite (updateFirst_at _ _ pre post d Hpre Hd). cbv beta.
  assert (Hin : In (Obj.set d "status" (BPrim (VStr s)))
                  (pre ++ (Obj.set d "status" (BPrim (VStr s)) : doc) :: post))
    by (apply in_or_app; right; now left).
  exists n, d. split; [reflexivity|].
  split; [apply in_or_app; right; now left|].
  split; [now apply byId_oid|]. split; [exact Hin|]. split.
  - intros Hs today. unfold Api.completeOverdue, Api.updateAll. apply in_map_iff.
    exists (Obj.set d "status" (BPrim (VStr s))). split; [|exact Hin].
    unfold Api.overdue, Coll.matches. rewrite get_set_eq. cbn [bson_eqb jsval_eqb].
    destruct (String.eqb_spec s "Scheduled"); [contradiction | reflexivity].
  - intros -> today date Hdate Hlt. unfold Api.completeOverdue, Api.updateAll.
    apply in_map_iff. exists (Obj.set d "status" (BPrim (VStr "Scheduled"))).
    split; [|exact Hin].
    unfold Api.overdue, Coll.matches. rewrite get_set_eq.
    rewrite get_set_ne by discriminate. rewrite Hdate, Hlt. cbn. apply set_set.
Qed.

End InterviewStatus.

(** ** PATCH /api/users/update-profile *)

Section Profile.

Lemma setFields_get_other fields k : forall d : doc,
  (forall kv, In kv fields -> fst kv <> k) ->
  Obj.get (Api.setFields fields d) k = Obj.get d k.
Proof.
  unfold Api.setFields. induction fields as [|[k0 v0] fields IH]; intros d Hk; [reflexivity|].
  cbn [List.fold_left fst snd]. rewrite IH.
  - apply get_set_ne. intros E. symmetry in E.
    exact (Hk (k0, v0) (or_introl eq_refl) E).
  - intros kv Hin. apply Hk. now right.
Qed.

Lemma updateData_keys name photoUrl now kv :
  In kv (Api.updateData name photoUrl now) ->
  fst kv = "name" \/ fst kv = "photo" \/ fst kv = "updatedAt".
Proof.
  unfold Api.updateData. intros Hin.
  apply in_app_or in Hin as [Hin|Hin]; [|apply in_app_or in Hin as [Hin|Hin]].
  - destruct (truthy name); [|destruct Hin]. destruct Hin as [<-|[]]. now left.
  - destruct photoUrl as [p|]; [|destruct Hin].
    destruct (Str.isEmpty p); [destruct Hin|]. destruct Hin as [<-|[]]. right. now left.
  - destruct Hin as [<-|[]]. right. now right.
Qed.

Lemma updateData_keeps name photoUrl now k (d : doc) :
  k <> "name" -> k <> "photo" -> k <> "updatedAt" ->
  Obj.get (Api.setFields (Api.updateData name photoUrl now) d) k = Obj.get d k.
Proof.
  intros H1 H2 H3. apply setFields_get_other. intros kv Hin.
  destruct (updateData_keys _ _ _ _ Hin) as [E|[E|E]]; rewrite E; congruence.
Qed.

(** X27.  A profile update adds or removes no user and no candidate, and
    changes no field other than name, photo and updatedAt in either
    collection. *)
Theorem profile_update_touches_profile_fields_only (u : Api.claims) (name : jsval)
    (fileName : option string) (now : Z) (users candidates : list doc) :
  let users' := fst (fst (Api.updateProfile u name fileName now users candidates)) in
  let candidates' := snd (fst (Api.updateProfile u name fileName now users candidates)) in
  List.length users' = List.length users /\
  List.length candidates' = List.length candidates /\
  forall k, k <> "name" -> k <> "photo" -> k <> "updatedAt" ->
    List.map (fun d => Obj.get d k) users' = List.map (fun d => Obj.get d k) users /\
    List.map (fun d => Obj.get d k) candidates'
      = List.map (fun d => Obj.get d k) candidates.
Proof.
  cbv zeta. unfold Api.updateProfile. cbv zeta. cbn [fst snd].
  split; [apply updateFirst_length|]. split.
  - destruct (Api.findOne _ _ _) as [user|]; [|reflexivity].
    destruct (Api.isCandidate user); [apply updateFirst_length | reflexivity].
  - intros k H1 H2 H3. split.
    + apply updateFirst_fields. intros d. now apply updateData_keeps.
    + destruct (Api.findOne _ _ _) as [user|]; [|reflexivity].
      destruct (Api.isCandidate user); [|reflexivity].
      apply updateFirst_fields. intros d. now apply updateData_keeps.
Qed.

(** X30.  The role gate compares roles in lower case, the profile sync
    compares with the exact string candidate: a user whose stored role only
    differs from it in letter case passes [verifyRole(['candidate'])] and
    has the own user document updated, but the candidates collection is
    left alone; with the exact role the first candidate matching the
    token's email receives the same fields. *)
Theorem profile_sync_is_case_sensitive (u : Api.claims) (name : jsval)
    (fileName : option string) (now : Z) (users candidates : list doc)
    (d : doc) (r : string) :
  Str.isEmpty (Api.uid u) = false ->
  Api.findOne "uid" (VStr (Api.uid u)) users = Some d ->
  Obj.get d "role" = Some (BPrim (VStr r)) ->
  Str.toLowerCase r = "candidate" ->
  let data :=
    Api.updateData name (option_map (fun f => "/uploads/profiles/" ++ f) fileName) now in
  let users' := fst (fst (Api.updateProfile u name fileName now users candidates)) in
  let candidates' := snd (fst (Api.updateProfile u name fileName now users candidates)) in
  Api.verifyRole ["candidate"] (Some u) users' = Api.Next (Api.setFields data d) /\
  (r <> "candidate" -> candidates' = candidates) /\
  (r = "candidate" ->
   candidates' = Api.updateFirst (Api.byField "email" (Api.email u))
                   (Api.setFields data) candidates).
Proof.
  intros Hu Hfind Hrole Hlow. cbv zeta. unfold Api.updateProfile. cbv zeta. cbn [fst snd].
  set (data := Api.updateData name
                 (option_map (fun f => "/uploads/profiles/" ++ f) fileName) now).
  destruct (find_split _ _ _ Hfind) as (pre & post & Hsplit & Hpre & Hd). subst users.
  rewrite (updateFirst_at _ _ pre post d Hpre Hd).
  assert (Hnow : Api.findOne "uid" (VStr (Api.uid u))
                   (pre ++ (Api.setFields data d : doc) :: post)
                 = Some (Api.setFields data d)).
  { apply find_at; [exact Hpre|]. unfold Coll.matches.
    unfold data. rewrite updateData_keeps by discriminate. exact Hd. }
  assert (Hr : Obj.get (Api.setFields data d) "role" = Some (BPrim (VStr r))).
  { unfold data. rewrite updateData_keeps by discriminate. exact Hrole. }
  split; [|split].
  - apply verifyRole_next. split; [exact Hu|]. split; [exact Hnow|].
    exists r. split; [exact Hr|]. split.
    + now apply (toLowerCase_nonempty r "candidate").
    + rewrite Hlow. now left.
  - intros Hne. rewrite Hnow. unfold Api.isCandidate. rewrite Hr.
    destruct (String.eqb_spec r "candidate"); [contradiction | reflexivity].
  - intros ->. rewrite Hnow. unfold Api.isCandidate. rewrite Hr. reflexivity.
Qed.

End Profile.

(** ** The statements above at sample inputs *)

Lemma sample_users_distinct : Api.distinctIds ApiSample.users.
Proof.
  intros i j d d' Hi Hj Hb.
  destruct i as [|[|[|i]]]; destruct j as [|[|[|j]]];
    try reflexivity; try discriminate Hi; try discriminate Hj;
    injection Hi as <-; injection Hj as <-; discriminate Hb.
Qed.

Lemma sample_candidates_distinct : Api.distinctIds ApiSample.candidates.
Proof.
  intros i j d d' Hi Hj Hb.
  destruct i as [|i]; destruct j as [|j];
    try reflexivity; try discriminate Hi; discriminate Hj.
Qed.

Lemma token_is_second_word_witness :
  Api.verifyToken ApiSample.rejectAll (Some ("Token" ++ " " ++ "DEV_TOKEN" ++ " " ++ "rest"))
    = Api.verifyToken ApiSample.rejectAll (Some ("Bearer " ++ "DEV_TOKEN")) /\
  Api.verifyToken ApiSample.rejectAll (Some ("Token" ++ " " ++ "DEV_TOKEN"))
    = Api.verifyToken ApiSample.rejectAll (Some ("Bearer " ++ "DEV_TOKEN")) /\
  Api.verifyToken ApiSample.rejectAll (Some "Token")
    = Api.Stop (Api.Text 401 "Unauthorized: No token provided").
Proof.
  apply (token_is_second_word ApiSample.rejectAll "Token" "DEV_TOKEN" "rest"); reflexivity.
Defined.

Lemma dev_token_passes_admin_gate_witness :
  Api.verifyToken ApiSample.rejectAll (Some ("Bearer" ++ " DEV_TOKEN"))
    = Api.Next Api.devUser /\
  Api.verifyRole ["admin"] (Some Api.devUser) ApiSample.users = Api.Next ApiSample.admin.
Proof.
  apply (dev_token_passes_admin_gate ApiSample.rejectAll "Bearer" ApiSample.users
           ApiSample.admin "Admin"); reflexivity.
Defined.

Lemma role_gate_is_monotone_witness :
  Api.verifyRole ["admin"; "staff"] (Some Api.devUser) ApiSample.users
    = Api.Next ApiSample.admin.
Proof.
  apply (role_gate_is_monotone ["admin"] ["admin"; "staff"] Api.devUser ApiSample.users
           ApiSample.admin).
  - intros x [<-|[]]. now left.
  - reflexivity.
Defined.

Lemma role_update_round_trip_witness :
  exists r d',
    VStr "ADMIN" = VStr r /\
    In (Str.toLowerCase r) Api.validRoles /\
    Obj.get d' "role" = Some (BPrim (VStr (Str.toLowerCase r))) /\
    (forall allowedRoles,
       In (Str.toLowerCase r) allowedRoles ->
       Api.verifyRole allowedRoles (Some (Api.Claims "u2" VUndef))
         (fst (Api.updateUserRole "u2" (VStr "ADMIN") ApiSample.users)) = Api.Next d') /\
    (forall allowedRoles other em',
       other <> "u2" ->
       Api.verifyRole allowedRoles (Some (Api.Claims other em'))
         (fst (Api.updateUserRole "u2" (VStr "ADMIN") ApiSample.users))
         = Api.verifyRole allowedRoles (Some (Api.Claims other em')) ApiSample.users).
Proof.
  apply (role_update_round_trip "u2" (VStr "ADMIN") ApiSample.users
           (fst (Api.updateUserRole "u2" (VStr "ADMIN") ApiSample.users))
           [ ("message", BPrim (VStr "Role updated successfully"));
             ("uid", BPrim (VStr "u2"));
             ("role", BPrim (VStr "ADMIN")) ]
           VUndef); reflexivity.
Defined.

Lemma users_me_is_idempotent_witness :
  Api.usersMe (Api.Claims "u3" (VStr "new@x.com"))
    (fst (Api.usersMe (Api.Claims "u3" (VStr "new@x.com")) ApiSample.users))
  = (fst (Api.usersMe (Api.Claims "u3" (VStr "new@x.com")) ApiSample.users),
     Api.Json 200 (Obj.set ApiSample.invited "uid" (BPrim (VStr "u3")))) /\
  List.length (fst (Api.usersMe (Api.Claims "u3" (VStr "new@x.com")) ApiSample.users))
  = List.length ApiSample.users.
Proof.
  apply (users_me_is_idempotent (Api.Claims "u3" (VStr "new@x.com")) ApiSample.users).
  - exact sample_users_distinct.
  - reflexivity.
Defined.

Lemma register_role_grants_role_witness :
  Api.verifyRole ["admin"] (Some (Api.Claims "u2" VUndef))
    (fst (Api.registerRole 1700000000000
            [("uid", VStr "u2"); ("role", VStr "Admin")] ApiSample.users))
  = Api.Next (Api.setFields
                (Api.userData (Str.toLowerCase "Admin") 1700000000000
                   [("uid", VStr "u2"); ("role", VStr "Admin")])
                ApiSample.staff).
Proof.
  apply (register_role_grants_role 1700000000000
           [("uid", VStr "u2"); ("role", VStr "Admin")] ApiSample.users
           "u2" "Admin" ApiSample.staff VUndef);
    try reflexivity.
  now left.
Defined.

Lemma schedule_interview_effects_witness :
  List.length
    [Obj.set Sample.storedAlice "status" (BPrim (VStr "Interview Scheduled"))]
    = List.length ApiSample.candidates /\
  (forall k, k <> "status" ->
     List.map (fun d => Obj.get d k)
       [Obj.set Sample.storedAlice "status" (BPrim (VStr "Interview Scheduled"))]
       = List.map (fun d => Obj.get d k) ApiSample.candidates) /\
  exists cid new,
    Api.candidateOid ApiSample.ObjectId ApiSample.generated 0
      (VStr "64b7f0c2a1d3e4f5a6b7c8d7") = Some cid /\
    [ ApiSample.pastInterview;
      [ ("_id", BOid 2);
        ("candidateId", BOid 7);
        ("date", BPrim (VStr "2023-11-20"));
        ("time", BPrim (VStr "10:00"));
        ("type", BPrim (VStr "General"));
        ("status", BPrim (VStr "Scheduled"));
        ("scheduledBy", BPrim (VStr "test-uid-123"));
        ("createdAt", BDate 1700000000000) ] ]
      = ([ApiSample.pastInterview] ++ [new])%list /\
    Obj.get new "_id" = Some (BOid (Coll.fresh_oid [ApiSample.pastInterview])) /\
    Obj.get [ ("message", BPrim (VStr "Interview scheduled")); ("id", BOid 2) ] "id"
      = Some (BOid (Coll.fresh_oid [ApiSample.pastInterview])) /\
    Obj.get new "candidateId" = Some (BOid cid) /\
    Obj.get new "status" = Some (BPrim (VStr "Scheduled")) /\
    Obj.get new "scheduledBy" = Some (BPrim (VStr (Api.uid Api.devUser))).
Proof.
  apply (schedule_interview_effects ApiSample.ObjectId ApiSample.generated
           Api.devUser 1700000000000
           [ ("candidateId", VStr "64b7f0c2a1d3e4f5a6b7c8d7");
             ("date", VStr "2023-11-20");
             ("time", VStr "10:00") ]
           [ApiSample.pastInterview] ApiSample.candidates
           [ ApiSample.pastInterview;
             [ ("_id", BOid 2);
               ("candidateId", BOid 7);
               ("date", BPrim (VStr "2023-11-20"));
               ("time", BPrim (VStr "10:00"));
               ("type", BPrim (VStr "General"));
               ("status", BPrim (VStr "Scheduled"));
               ("scheduledBy", BPrim (VStr "test-uid-123"));
               ("createdAt", BDate 1700000000000) ] ]
           [Obj.set Sample.storedAlice "status" (BPrim (VStr "Interview Scheduled"))]
           (Api.Json 201 [ ("message", BPrim (VStr "Interview scheduled"));
                           ("id", BOid 2) ])).
  vm_compute. reflexivity.
Defined.

Lemma interview_without_candidate_is_hidden_witness :
  exists new answer,
    Api.scheduleInterview ApiSample.ObjectId ApiSample.generated Api.devUser
      1700000000000 ApiSample.interviewBody [ApiSample.pastInterview] ApiSample.candidates
      = (([ApiSample.pastInterview] ++ [new])%list, ApiSample.candidates,
         Api.Json 201 answer) /\
    Obj.get new "candidateId" = Some (BOid 9) /\
    forall now' i c,
      In (i, c) (snd (Api.listInterviews now' ([ApiSample.pastInterview] ++ [new])
                        ApiSample.candidates)) ->
      Obj.get i "candidateId" <> Some (BOid 9).
Proof.
  apply (interview_without_candidate_is_hidden ApiSample.ObjectId ApiSample.generated
           Api.devUser 1700000000000 ApiSample.interviewBody [ApiSample.pastInterview]
           ApiSample.candidates "64b7f0c2a1d3e4f5a6b7c8d9" 9); reflexivity.
Defined.

Lemma interview_of_today_stays_witness :
  In ApiSample.todayInterview
    (fst (Api.listInterviews 1700000000000
            [ApiSample.pastInterview; ApiSample.todayInterview] ApiSample.candidates)).
Proof.
  apply (interview_of_today_stays 1700000000000
           [ApiSample.pastInterview; ApiSample.todayInterview] ApiSample.candidates
           ApiSample.todayInterview "2023-11-14").
  - right. now left.
  - reflexivity.
  - left. vm_compute. reflexivity.
Defined.

Lemma later_completion_subsumes_witness :
  Api.completeOverdue "2023-11-15"
    (Api.completeOverdue "2023-11-14" [ApiSample.pastInterview; ApiSample.todayInterview])
  = Api.completeOverdue "2023-11-15" [ApiSample.pastInterview; ApiSample.todayInterview].
Proof.
  apply (later_completion_subsumes "2023-11-14" "2023-11-15"
           [ApiSample.pastInterview; ApiSample.todayInterview]).
  reflexivity.
Defined.

Lemma delete_removes_the_candidate_witness :
  exists n pre d post,
    ApiSample.ObjectId "64b7f0c2a1d3e4f5a6b7c8d7" = Some n /\
    Obj.get d "_id" = Some (BOid n) /\
    ApiSample.candidates = (pre ++ d :: post)%list /\
    @nil doc = (pre ++ post)%list /\
    Api.deleteCandidate ApiSample.ObjectId "64b7f0c2a1d3e4f5a6b7c8d7" []
      = ([], Api.Text 404 "Candidate not found") /\
    forall now interviews i c,
      In (i, c) (snd (Api.listInterviews now interviews [])) ->
      Obj.get i "candidateId" <> Some (BOid n).
Proof.
  apply (delete_removes_the_candidate ApiSample.ObjectId "64b7f0c2a1d3e4f5a6b7c8d7"
           ApiSample.candidates [] [("message", BPrim (VStr "Candidate deleted"))]).
  - exact sample_candidates_distinct.
  - reflexivity.
Defined.

Lemma upload_extends_phone_list_witness :
  exists h headers new,
    findHeader (rows Sample.aliceAndBob) = Some (h, headers) /\
    Api.downloadPhones (docs (fst Sample.firstPass))
      = Some (Str.join Api.newline ([] ++ new)) /\
    List.length new = 2 /\
    forall line, In line new ->
      exists r, In r (drop (h + 1) (rows Sample.aliceAndBob)) /\
        invalid (rowDraft headers r) = false /\
        line = toString (phone (rowDraft headers r)).
Proof.
  apply (upload_extends_phone_list Sample.dev
           (Sample.requestOf (Upload Sample.tmpPath (Some Sample.aliceAndBob)))
           (Upload Sample.tmpPath (Some Sample.aliceAndBob)) Sample.aliceAndBob
           (Sample.uploaded []) (fst Sample.firstPass)
           "File processed successfully" 2 [] []).
  - reflexivity.
  - reflexivity.
  - constructor.
  - vm_compute. reflexivity.
  - reflexivity.
Defined.

Lemma uploaded_profile_is_found_witness :
  exists h headers,
    findHeader (rows Sample.aliceAndBob) = Some (h, headers) /\
    forall r, In r (drop (h + 1) (rows Sample.aliceAndBob)) ->
      let d := rowDraft headers r in
      invalid d = false -> truthy (email d) = true ->
      forall uid', exists c,
        Api.candidatesMe (Api.Claims uid' (email d)) (docs (fst Sample.firstPass))
          = Api.Json 200 c /\
        Coll.matches "email" (email d) c = true.
Proof.
  apply (uploaded_profile_is_found Sample.dev
           (Sample.requestOf (Upload Sample.tmpPath (Some Sample.aliceAndBob)))
           (Upload Sample.tmpPath (Some Sample.aliceAndBob)) Sample.aliceAndBob
           (Sample.uploaded []) (fst Sample.firstPass)
           "File processed successfully" 2 []).
  - reflexivity.
  - reflexivity.
  - constructor.
  - vm_compute. reflexivity.
Defined.

Lemma listing_has_one_row_per_interview_witness :
  List.length (snd (Api.listInterviews 1700000000000
                      [ApiSample.pastInterview; ApiSample.todayInterview]
                      ApiSample.candidates))
    <= List.length [ApiSample.pastInterview; ApiSample.todayInterview].
Proof.
  apply (listing_has_one_row_per_interview 1700000000000
           [ApiSample.pastInterview; ApiSample.todayInterview] ApiSample.candidates).
  - exact sample_candidates_distinct.
  - constructor; [exists 7; reflexivity | constructor].
Defined.

Lemma manual_status_meets_auto_completion_witness :
  exists n d,
    ApiSample.ObjectId "64b7f0c2a1d3e4f5a6b7c8d1" = Some n /\
    In d [ApiSample.pastInterview] /\
    Obj.get d "_id" = Some (BOid n) /\
    In (Obj.set d "status" (BPrim (VStr "Scheduled")))
       [Obj.set ApiSample.pastInterview "status" (BPrim (VStr "Scheduled"))] /\
    ("Scheduled" <> "Scheduled" ->
     forall today,
       In (Obj.set d "status" (BPrim (VStr "Scheduled")))
          (Api.completeOverdue today
             [Obj.set ApiSample.pastInterview "status" (BPrim (VStr "Scheduled"))])) /\
    ("Scheduled" = "Scheduled" ->
     forall today date,
       Obj.get d "date" = Some (BPrim (VStr date)) ->
       Api.strLt date today = true ->
       In (Obj.set d "status" (BPrim (VStr "Completed")))
          (Api.completeOverdue today
             [Obj.set ApiSample.pastInterview "status" (BPrim (VStr "Scheduled"))])).
Proof.
  apply (manual_status_meets_auto_completion ApiSample.ObjectId
           "64b7f0c2a1d3e4f5a6b7c8d1" "Scheduled" [ApiSample.pastInterview]
           [Obj.set ApiSample.pastInterview "status" (BPrim (VStr "Scheduled"))]
           [("message", BPrim (VStr "Status updated"))]).
  reflexivity.
Defined.

Lemma profile_sync_is_case_sensitive_witness :
  Api.verifyRole ["candidate"] (Some (Api.Claims "u4" (VStr "alice@x.com")))
    (fst (fst (Api.updateProfile (Api.Claims "u4" (VStr "alice@x.com")) (VStr "Alice B")
                 None 1700000000000 [ApiSample.applicant] ApiSample.candidates)))
    = Api.Next (Api.setFields
                  (Api.updateData (VStr "Alice B")
                     (option_map (fun f => "/uploads/profiles/" ++ f) None) 1700000000000)
                  ApiSample.applicant) /\
  snd (fst (Api.updateProfile (Api.Claims "u4" (VStr "alice@x.com")) (VStr "Alice B")
              None 1700000000000 [ApiSample.applicant] ApiSample.candidates))
    = ApiSample.candidates.
Proof.
  destruct (profile_sync_is_case_sensitive (Api.Claims "u4" (VStr "alice@x.com"))
              (VStr "Alice B") None 1700000000000 [ApiSample.applicant]
              ApiSample.candidates ApiSample.applicant "Candidate")
    as (Hgate & Hskip & _); try reflexivity.
  split; [exact Hgate|]. apply Hskip. discriminate.
Defined.
